(** * api_geolocation: the HTTP handlers of [main.py] over a model of the
      SQLite table [geolocation]

    The development embeds [src/api_geolocation/main.py]: the two pydantic
    models, the record mapper, and the four storage-backed handlers
    ([get_ip_info], [get_ip_info_by_parameters], [add_ip], [update_data]).
    The handlers build SQL text exactly as the source does; the storage engine
    is modelled by a lexer, a parser for the statements the service emits and
    an evaluator over a list of rows, with per-call failure injection so that
    the [try]/[except sqlite3.Error] blocks can be exercised.  Values are
    bound and stored as SQLite does it: an [int] past 64 bits cannot be
    bound, a NaN is stored as NULL and [-0.0] as [0.0]. *)

From Stdlib Require Import ZArith List String Ascii Bool Lia PrimFloat.
From Stdlib Require Import DecimalString DecimalPos DecimalZ.
Import ListNotations.
Set Warnings "-inexact-float".
Local Open Scope string_scope.
Local Open Scope Z_scope.

(** ** Python values and the [str] methods the service calls *)

Module Py.

(** The values that travel between the request, the handlers and the
    [sqlite3] bindings: [None], [int], [float] and [str]. *)
Inductive value : Type :=
| PyNone
| PyInt (z : Z)
| PyFloat (f : float)
| PyStr (s : string).

Definition is_None (v : value) : bool :=
  match v with PyNone => true | _ => false end.

(** The [str] methods below are those of Python on ASCII text, which is the
    text this development states facts about: [is_ascii] marks it.  On a
    code point from 128 up Python's methods follow the Unicode tables (no
    such code point is white space or a cased letter here), so a statement
    about [strip] or [title] carries [is_ascii] as a hypothesis or is about
    a given ASCII text. *)
Definition is_ascii_char (c : ascii) : bool := (nat_of_ascii c <? 128)%nat.

Fixpoint is_ascii (s : string) : bool :=
  match s with
  | EmptyString => true
  | String c s' => is_ascii_char c && is_ascii s'
  end.

Definition isspace (c : ascii) : bool :=
  let n := nat_of_ascii c in
  ((9 <=? n) && (n <=? 13) || (28 <=? n) && (n <=? 32))%nat.

Definition islower (c : ascii) : bool :=
  let n := nat_of_ascii c in ((97 <=? n) && (n <=? 122))%nat.

Definition isupper (c : ascii) : bool :=
  let n := nat_of_ascii c in ((65 <=? n) && (n <=? 90))%nat.

Definition upper (c : ascii) : ascii :=
  if islower c then ascii_of_nat (nat_of_ascii c - 32) else c.

Definition lower (c : ascii) : ascii :=
  if isupper c then ascii_of_nat (nat_of_ascii c + 32) else c.

(** [str.lstrip()], [str.rstrip()] and [str.strip()] with no argument. *)
Fixpoint lstrip (s : string) : string :=
  match s with
  | EmptyString => EmptyString
  | String c s' => if isspace c then lstrip s' else s
  end.

Fixpoint rstrip (s : string) : string :=
  match s with
  | EmptyString => EmptyString
  | String c s' =>
      match rstrip s' with
      | EmptyString => if isspace c then EmptyString else String c EmptyString
      | r => String c r
      end
  end.

Definition strip (s : string) : string := rstrip (lstrip s).

(** [str.title()]: a cased letter that follows an uncased character (or
    starts the string) is upper-cased, one that follows a cased letter is
    lower-cased; [previous_is_cased] is CPython's loop variable. *)
Fixpoint title_from (previous_is_cased : bool) (s : string) : string :=
  match s with
  | EmptyString => EmptyString
  | String c s' =>
      if islower c then
        String (if previous_is_cased then c else upper c) (title_from true s')
      else if isupper c then
        String (if previous_is_cased then lower c else c) (title_from true s')
      else String c (title_from false s')
  end.

Definition title (s : string) : string := title_from false s.

(** [sep.join(parts)]. *)
Fixpoint join (sep : string) (parts : list string) : string :=
  match parts with
  | [] => ""
  | [p] => p
  | p :: rest => p ++ sep ++ join sep rest
  end.

(** [str(n)] / [f"{n}"] for an [int]. *)
Definition str (n : Z) : string := NilZero.string_of_int (Z.to_int n).

(** Truthiness of an optional [int], as in [if limit:]. *)
Definition truthy_int (o : option Z) : bool :=
  match o with
  | None => false
  | Some n => negb (n =? 0)
  end.

End Py.
Import Py.

(** ** pydantic: how a model class finds its field validators *)

Module Pydantic.

Inductive error : Type := ValueError (msg : string).

Inductive mode : Type := before | after.

(** What a name of a class body can be bound to once its decorators have
    run: the plain function, the proxy object [field_validator(...)]
    returns, or the object the builtin [classmethod] returns.  The builtin
    wraps whatever it is given, a proxy included. *)
Inductive attribute : Type :=
| Function (f : value -> value + error)
| PydanticDescriptorProxy (fields : list string) (m : mode) (wrapped : attribute)
| ClassMethod (wrapped : attribute).

Definition field_validator (fields : list string) (m : mode) (f : attribute)
  : attribute :=
  PydanticDescriptorProxy fields m f.

Definition classmethod (f : attribute) : attribute := ClassMethod f.

Fixpoint callable (a : attribute) : value -> value + error :=
  match a with
  | Function f => f
  | PydanticDescriptorProxy _ _ w => callable w
  | ClassMethod w => callable w
  end.

Record Decorator : Type := mkDecorator {
  cls_var_name : string;
  dec_fields : list string;
  dec_mode : mode;
  func : value -> value + error
}.

(** [DecoratorInfos.build]: the class namespace is scanned and a name is
    registered as a validator only when the object bound to it is itself a
    [PydanticDescriptorProxy]; every other object is skipped. *)
Fixpoint build (namespace : list (string * attribute)) : list Decorator :=
  match namespace with
  | [] => []
  | (name, PydanticDescriptorProxy fields m w) :: rest =>
      mkDecorator name fields m (callable w) :: build rest
  | _ :: rest => build rest
  end.

Definition mode_eqb (a b : mode) : bool :=
  match a, b with
  | before, before | after, after => true
  | _, _ => false
  end.

(** The validators of mode [m] registered for [field], in class-body order,
    applied left to right; the first failure aborts. *)
Fixpoint apply_validators (m : mode) (field : string) (ds : list Decorator)
    (v : value) : value + error :=
  match ds with
  | [] => inl v
  | d :: rest =>
      if mode_eqb (dec_mode d) m && existsb (String.eqb field) (dec_fields d)
      then match func d v with
           | inl v' => apply_validators m field rest v'
           | inr e => inr e
           end
      else apply_validators m field rest v
  end.

(** Core validation of a [str] field with [min_length]/[max_length]: only
    a [str] is a valid string, in lax mode too. *)
Definition validate_str (min_length max_length : nat) (v : value)
  : option string :=
  match v with
  | PyStr s =>
      if ((min_length <=? String.length s)
          && (String.length s <=? max_length))%nat
      then Some s else None
  | _ => None
  end.

(** The models are validated in lax mode: a number field also takes a
    value of another JSON type that converts to it (a float with no
    fractional part or a numeric string for an [int], an [int] or a numeric
    string for a [float]).  These conversions belong to pydantic-core and
    are taken as they come, as the two functions of [Lax]; a value that has
    the type of the field is never converted, and [None] is refused. *)
Record Lax : Type := mkLax {
  int_of_other : value -> option Z;
  float_of_other : value -> option float
}.

Definition as_int (lax : Lax) (v : value) : option Z :=
  match v with
  | PyInt z => Some z
  | PyNone => None
  | _ => int_of_other lax v
  end.

Definition as_float (lax : Lax) (v : value) : option float :=
  match v with
  | PyFloat f => Some f
  | PyNone => None
  | _ => float_of_other lax v
  end.

(** Core validation of an [int] field with [ge]: the constraint is checked
    on the converted value. *)
Definition validate_int (lax : Lax) (ge : Z) (v : value) : option Z :=
  match as_int lax v with
  | Some z => if ge <=? z then Some z else None
  | None => None
  end.

(** Core validation of a [float] field (any [float], NaN and the
    infinities included: [allow_inf_nan] is on by default). *)
Definition validate_float (lax : Lax) (v : value) : option float :=
  as_float lax v.

End Pydantic.

(** ** sqlite3: the table, the statements the service emits, their meaning *)

Module Sqlite3.

(** A row of [geolocation] as [db_setup.py] declares the table:
    [id INTEGER PRIMARY KEY AUTOINCREMENT, ip_address TEXT NOT NULL,
     country TEXT, region TEXT, city TEXT, zip INTEGER, latitude REAL,
     longitude REAL].  A nullable column holds [None] for SQL NULL.  Columns
    hold values of their declared storage class. *)
Record Row : Type := mkRow {
  id : Z;
  ip_address : string;
  country : option string;
  region : option string;
  city : option string;
  zip : option Z;
  latitude : option float;
  longitude : option float
}.

(** The table in rowid order, and the AUTOINCREMENT high-water mark
    ([sqlite_sequence]). *)
Record Database : Type := mkDatabase {
  rows : list Row;
  seq : Z
}.

Inductive column : Type :=
| Col_ip_address | Col_country | Col_region | Col_city
| Col_zip | Col_latitude | Col_longitude.

Definition column_name (c : column) : string :=
  match c with
  | Col_ip_address => "ip_address"
  | Col_country => "country"
  | Col_region => "region"
  | Col_city => "city"
  | Col_zip => "zip"
  | Col_latitude => "latitude"
  | Col_longitude => "longitude"
  end.

Definition all_columns : list column :=
  [Col_ip_address; Col_country; Col_region; Col_city;
   Col_zip; Col_latitude; Col_longitude].

Definition column_of_name (name : string) : option column :=
  find (fun c => column_name c =? name)%string all_columns.

(** *** Lexing *)

Definition ispunct (c : ascii) : bool :=
  existsb (Ascii.eqb c) ["("; ")"; ","; "="; "?"; "*"]%char.

Definition isword (c : ascii) : bool := negb (isspace c) && negb (ispunct c).

Definition starts_word (s : string) : bool :=
  match s with
  | String c _ => isword c
  | EmptyString => false
  end.

(** White space separates tokens, each punctuation character is a token,
    and a maximal run of other characters is a word. *)
Fixpoint lex (s : string) : list string :=
  match s with
  | EmptyString => []
  | String c s' =>
      if isspace c then lex s'
      else if ispunct c then String c "" :: lex s'
      else
        match lex s' with
        | w :: ws =>
            if starts_word s' then String c w :: ws
            else String c "" :: w :: ws
        | [] => [String c ""]
        end
  end.

(** *** Parsing *)

Inductive statement : Type :=
| Select (where_ : list column) (limit : option Z)
| Insert
| Update (set : list column) (where_ : list column).

Fixpoint expect (keywords toks : list string) : option (list string) :=
  match keywords, toks with
  | [], _ => Some toks
  | k :: keywords', t :: toks' =>
      if (k =? t)%string then expect keywords' toks' else None
  | _ :: _, [] => None
  end.

(** [col = ? sep col = ? sep ...]: the columns, and the tokens left over. *)
Fixpoint parse_terms (sep : string) (toks : list string)
  : option (list column * list string) :=
  match toks with
  | name :: eq :: q :: rest =>
      if ((eq =? "=") && (q =? "?"))%string then
        match column_of_name name with
        | Some c =>
            match rest with
            | s :: rest' =>
                if (s =? sep)%string then
                  match parse_terms sep rest' with
                  | Some (cs, r) => Some (c :: cs, r)
                  | None => None
                  end
                else Some ([c], rest)
            | [] => Some ([c], [])
            end
        | None => None
        end
      else None
  | _ => None
  end.

(** The LIMIT literal is read whatever its size; one outside 64 bits makes
    the statement fail when it runs, see [run]. *)
Definition parse_limit (toks : list string) : option (option Z) :=
  match toks with
  | [] => Some None
  | [kw; n] =>
      if (kw =? "LIMIT")%string then
        match NilZero.int_of_string n with
        | Some d => Some (Some (Z.of_int d))
        | None => None
        end
      else None
  | _ => None
  end.

Definition parse_select (toks : list string) : option statement :=
  match expect ["WHERE"] toks with
  | Some rest =>
      match parse_terms "AND" rest with
      | Some (cs, rest') => option_map (Select cs) (parse_limit rest')
      | None => None
      end
  | None => option_map (Select []) (parse_limit toks)
  end.

Definition parse_update (toks : list string) : option statement :=
  match parse_terms "," toks with
  | Some (sets, rest) =>
      match expect ["WHERE"] rest with
      | Some rest' =>
          match parse_terms "AND" rest' with
          | Some (ws, []) => Some (Update sets ws)
          | _ => None
          end
      | None => None
      end
  | None => None
  end.

Definition insert_tokens : list string :=
  ["INSERT"; "INTO"; "geolocation"; "(";
   "ip_address"; ","; "country"; ","; "region"; ","; "city"; ",";
   "zip"; ","; "latitude"; ","; "longitude"; ")";
   "VALUES"; "("; "?"; ","; "?"; ","; "?"; ","; "?"; ",";
   "?"; ","; "?"; ","; "?"; ")"].

(** The statement a text denotes; [None] is a syntax error. *)
Definition prepare (sql : string) : option statement :=
  let toks := lex sql in
  match expect ["SELECT"; "*"; "FROM"; "geolocation"] toks with
  | Some rest => parse_select rest
  | None =>
      match expect ["UPDATE"; "geolocation"; "SET"] toks with
      | Some rest => parse_update rest
      | None =>
          match expect insert_tokens toks with
          | Some [] => Some Insert
          | _ => None
          end
      end
  end.

(** *** Evaluation *)

(** [column = ?] with [v] bound to the placeholder.  A NULL column, a
    [None] parameter and a parameter of another storage class than the
    column's compare as not equal. *)
Definition matches (c : column) (v : value) (r : Row) : bool :=
  let text (o : option string) :=
    match o, v with
    | Some s, PyStr s' => (s =? s')%string
    | _, _ => false
    end in
  let real (o : option float) :=
    match o, v with
    | Some f, PyFloat f' => PrimFloat.eqb f f'
    | _, _ => false
    end in
  match c with
  | Col_ip_address => text (Some (ip_address r))
  | Col_country => text (country r)
  | Col_region => text (region r)
  | Col_city => text (city r)
  | Col_zip =>
      match zip r, v with
      | Some z, PyInt z' => z =? z'
      | _, _ => false
      end
  | Col_latitude => real (latitude r)
  | Col_longitude => real (longitude r)
  end.

Fixpoint matches_all (cs : list column) (vs : list value) (r : Row) : bool :=
  match cs, vs with
  | c :: cs', v :: vs' => matches c v r && matches_all cs' vs' r
  | _, _ => true
  end.

(** SQLite's INTEGER is a signed 64-bit integer. *)
Definition int64 (z : Z) : bool := (- 2 ^ 63 <=? z) && (z <? 2 ^ 63).

(** What the [sqlite3] module can bind to a placeholder: any [None], [str]
    or [float], and an [int] that fits SQLite's INTEGER. *)
Definition bindable (v : value) : bool :=
  match v with
  | PyInt z => int64 z
  | _ => true
  end.

(** A float as a REAL column keeps it: the two zeros are one value, read
    back as [0.0]. *)
Definition stored_real (f : float) : float :=
  if PrimFloat.is_zero f then PrimFloat.zero else f.

(** A bound float as a REAL column holds it: NaN is bound as NULL. *)
Definition store_real (f : float) : option float :=
  if PrimFloat.is_nan f then None else Some (stored_real f).

(** Storing [v] into column [c] of [r].  [None] is NULL, refused by the NOT
    NULL column; a value of another storage class than the column's is
    refused (the service never binds one). *)
Definition assign (c : column) (v : value) (r : Row) : option Row :=
  let '(mkRow i ip co re ci z la lo) := r in
  match c, v with
  | Col_ip_address, PyStr s => Some (mkRow i s co re ci z la lo)
  | Col_country, PyStr s => Some (mkRow i ip (Some s) re ci z la lo)
  | Col_country, PyNone => Some (mkRow i ip None re ci z la lo)
  | Col_region, PyStr s => Some (mkRow i ip co (Some s) ci z la lo)
  | Col_region, PyNone => Some (mkRow i ip co None ci z la lo)
  | Col_city, PyStr s => Some (mkRow i ip co re (Some s) z la lo)
  | Col_city, PyNone => Some (mkRow i ip co re None z la lo)
  | Col_zip, PyInt n => Some (mkRow i ip co re ci (Some n) la lo)
  | Col_zip, PyNone => Some (mkRow i ip co re ci None la lo)
  | Col_latitude, PyFloat f => Some (mkRow i ip co re ci z (store_real f) lo)
  | Col_latitude, PyNone => Some (mkRow i ip co re ci z None lo)
  | Col_longitude, PyFloat f => Some (mkRow i ip co re ci z la (store_real f))
  | Col_longitude, PyNone => Some (mkRow i ip co re ci z la None)
  | _, _ => None
  end.

Fixpoint assign_all (cs : list column) (vs : list value) (r : Row)
  : option Row :=
  match cs, vs with
  | c :: cs', v :: vs' =>
      match assign c v r with
      | Some r' => assign_all cs' vs' r'
      | None => None
      end
  | _, _ => Some r
  end.

(** The rows of an UPDATE: a row the WHERE terms select is rewritten, any
    other row is kept as it is; row order and row count do not change. *)
Fixpoint update_rows (set : list column) (set_vs : list value)
    (where_ : list column) (where_vs : list value) (rs : list Row)
  : option (list Row) :=
  match rs with
  | [] => Some []
  | r :: rs' =>
      match (if matches_all where_ where_vs r
             then assign_all set set_vs r else Some r) with
      | Some r' =>
          match update_rows set set_vs where_ where_vs rs' with
          | Some rs'' => Some (r' :: rs'')
          | None => None
          end
      | None => None
      end
  end.

Definition max_id (rs : list Row) : Z :=
  fold_right (fun r m => Z.max (id r) m) 0 rs.

(** LIMIT [n]: at most [n] rows; a negative bound is no bound. *)
Definition apply_limit (limit : option Z) (rs : list Row) : list Row :=
  match limit with
  | Some n => if n <? 0 then rs else firstn (Z.to_nat n) rs
  | None => rs
  end.

Definition placeholders (st : statement) : nat :=
  match st with
  | Select cs _ => List.length cs
  | Insert => 7
  | Update set where_ => List.length set + List.length where_
  end.

(** A LIMIT the engine accepts: none, or a 64-bit integer. *)
Definition limit_fits (limit : option Z) : bool :=
  match limit with
  | Some n => int64 n
  | None => true
  end.

(** Running a prepared statement: the rows [fetchall()] then yields and the
    table afterwards, or the message of the [sqlite3.Error]. *)
Definition run (st : statement) (params : list value) (db : Database)
  : (list Row * Database) + string :=
  if negb (List.length params =? placeholders st)%nat
  then inr "Incorrect number of bindings supplied."
  else
    match st with
    | Select cs limit =>
        if limit_fits limit
        then inl (apply_limit limit
                    (filter (matches_all cs params) (rows db)), db)
        else inr "datatype mismatch"
    | Insert =>
        let new_id := Z.max (seq db) (max_id (rows db)) + 1 in
        match assign_all all_columns params
                (mkRow new_id "" None None None None None None) with
        | Some r => inl ([], mkDatabase (rows db ++ [r]) new_id)
        | None => inr "constraint failed"
        end
    | Update set where_ =>
        match update_rows set (firstn (List.length set) params)
                where_ (skipn (List.length set) params) (rows db) with
        | Some rs => inl ([], mkDatabase rs (seq db))
        | None => inr "constraint failed"
        end
    end.

(** A connection: the table as this connection's statements see it, and
    the table as last committed to the file. *)
Record Connection : Type := mkConnection {
  view : Database;
  file : Database
}.

Definition connect (db : Database) : Connection := mkConnection db db.

(** Closing drops whatever was not committed. *)
Definition close (c : Connection) : Database := file c.

End Sqlite3.

(** ** Handlers as computations over a connection *)

(** What a handler can raise: the storage's [sqlite3.Error], FastAPI's
    [HTTPException], pydantic's [ValidationError], the [IndexError] of
    indexing an empty list, and the [OverflowError] of binding an [int] that
    SQLite cannot hold. *)
Inductive exn : Type :=
| sqlite3_Error (msg : string)
| HTTPException (status_code : Z) (detail : string)
| ValidationError
| IndexError
| OverflowError.

(** What a handler runs against: the connection, the schedule of storage
    failures (one entry per storage call still to come, [Some msg] making
    that call raise [sqlite3.Error]; calls past the end succeed), the
    statements handed to [cursor.execute] so far, and the lines written by
    [logging.error]. *)
Record State : Type := mkState {
  conn : Sqlite3.Connection;
  faults : list (option string);
  executed : list (string * list value);
  log : list string
}.

Inductive outcome (A : Type) : Type :=
| Returned (a : A)
| Raised (e : exn).
Arguments Returned {A} a.
Arguments Raised {A} e.

Definition M (A : Type) : Type := State -> outcome A * State.

Definition ret {A} (a : A) : M A := fun st => (Returned a, st).

Definition bind {A B} (c : M A) (k : A -> M B) : M B :=
  fun st =>
    match c st with
    | (Returned a, st') => k a st'
    | (Raised e, st') => (Raised e, st')
    end.

Definition raise {A} (e : exn) : M A := fun st => (Raised e, st).

(** [try: body / except sqlite3.Error as exc: handler]. *)
Definition try_except_sqlite3 {A} (body : M A) (handler : string -> M A)
  : M A :=
  fun st =>
    match body st with
    | (Raised (sqlite3_Error msg), st') => handler msg st'
    | r => r
    end.

Declare Scope py_scope.
Delimit Scope py_scope with py.
Notation "x <- c ;; k" := (bind c (fun x => k))
  (at level 61, c at next level, right associativity) : py_scope.
Notation "c ;;; k" := (bind c (fun _ => k))
  (at level 61, right associativity) : py_scope.
Local Open Scope py_scope.

(** The next entry of the failure schedule is consumed; a storage call
    made when the schedule is exhausted succeeds. *)
Definition storage_call : M unit :=
  fun st =>
    let st' := mkState (conn st) (tl (faults st)) (executed st) (log st) in
    match hd None (faults st) with
    | Some msg => (Raised (sqlite3_Error msg), st')
    | None => (Returned tt, st')
    end.

(** The engine's part of [cursor.execute]: parse and run on the
    connection's view. *)
Definition engine (sql : string) (params : list value) : M (list Sqlite3.Row) :=
  fun st =>
    match Sqlite3.prepare sql with
    | None => (Raised (sqlite3_Error "syntax error"), st)
    | Some stmt =>
        match Sqlite3.run stmt params (Sqlite3.view (conn st)) with
        | inl (rs, db') =>
            (Returned rs,
             mkState (Sqlite3.mkConnection db' (Sqlite3.file (conn st)))
                     (faults st) (executed st) (log st))
        | inr msg => (Raised (sqlite3_Error msg), st)
        end
    end.

(** Binding the parameters, before the statement runs: an [int] that does
    not fit 64 bits raises [OverflowError], which is no [sqlite3.Error]. *)
Definition bind_parameters (params : list value) : M unit :=
  if forallb Sqlite3.bindable params then ret tt else raise OverflowError.

(** [cursor.execute(sql, params)]; the value is what [.fetchall()] then
    returns. *)
Definition execute (sql : string) (params : list value)
  : M (list Sqlite3.Row) :=
  (fun st => (Returned tt,
              mkState (conn st) (faults st)
                      (executed st ++ [(sql, params)]) (log st))) ;;;
  bind_parameters params ;;;
  storage_call ;;;
  engine sql params.

(** [db.commit()]. *)
Definition commit : M unit :=
  storage_call ;;;
  fun st =>
    (Returned tt,
     mkState (Sqlite3.mkConnection (Sqlite3.view (conn st))
                                   (Sqlite3.view (conn st)))
             (faults st) (executed st) (log st)).

(** [logging.error(fmt, exc)] with [fmt] ending in [%s]. *)
Definition logging_error (prefix msg : string) : M unit :=
  fun st =>
    (Returned tt,
     mkState (conn st) (faults st) (executed st) (log st ++ [prefix ++ msg])).

(** ** The models of [main.py] *)

(** [class Record(BaseModel)]. *)
Module Record_.
Record t : Type := mk {
  ip_address : string;
  country : string;
  region : string;
  city : string;
  zip_code : Z;
  latitude : float;
  longitude : float
}.
End Record_.

(** [class RecordInput(BaseModel)]. *)
Module RecordInput.
Record t : Type := mk {
  ip : string;
  country : string;
  region : string;
  city : string;
  zip_code : Z;
  latitude : float;
  longitude : float
}.
End RecordInput.

(** [RecordInput.sanitize_strings]. *)
Definition sanitize_strings (v : value) : value + Pydantic.error :=
  match v with
  | PyStr s => inl (PyStr (title (strip s)))
  | _ => inr (Pydantic.ValueError "Invalid value; expected a string.")
  end.

(** The class body of [RecordInput]: decorators apply bottom-up, so the
    name is bound to [classmethod(field_validator(...)(sanitize_strings))]. *)
Definition RecordInput_namespace : list (string * Pydantic.attribute) :=
  [("sanitize_strings",
    Pydantic.classmethod
      (Pydantic.field_validator ["ip"; "country"; "region"; "city"]
         Pydantic.before (Pydantic.Function sanitize_strings)))].

Definition RecordInput_validators : list Pydantic.Decorator :=
  Pydantic.build RecordInput_namespace.

Fixpoint lookup (name : string) (body : list (string * value)) : value :=
  match body with
  | [] => PyNone
  | (k, v) :: rest => if (k =? name)%string then v else lookup name rest
  end.

(** Validation of a request body against [RecordInput]: per field, the
    registered [before] validators and then the declared constraints.
    [None] is a validation failure (the request never reaches [add_ip]).
    A body is a JSON object whose values are null, numbers or strings. *)
Definition RecordInput_validate (lax : Pydantic.Lax)
    (body : list (string * value)) : option RecordInput.t :=
  let str_field name min_length max_length :=
    match Pydantic.apply_validators Pydantic.before name
            RecordInput_validators (lookup name body) with
    | inl v => Pydantic.validate_str min_length max_length v
    | inr _ => None
    end in
  match str_field "ip" 7%nat 45%nat,
        str_field "country" 1%nat 100%nat,
        str_field "region" 1%nat 100%nat,
        str_field "city" 1%nat 100%nat,
        Pydantic.validate_int lax 1 (lookup "zip_code" body),
        Pydantic.validate_float lax (lookup "latitude" body),
        Pydantic.validate_float lax (lookup "longitude" body) with
  | Some ip, Some country, Some region, Some city,
    Some zip_code, Some latitude, Some longitude =>
      Some (RecordInput.mk ip country region city zip_code latitude longitude)
  | _, _, _, _, _, _, _ => None
  end.

(** [Record(ip_address=row["ip_address"], ..., zip_code=row["zip"], ...)]:
    a NULL column is [None], which no field of [Record] accepts. *)
Definition Record_of_row (row : Sqlite3.Row) : option Record_.t :=
  match Sqlite3.country row, Sqlite3.region row, Sqlite3.city row,
        Sqlite3.zip row, Sqlite3.latitude row, Sqlite3.longitude row with
  | Some country, Some region, Some city,
    Some zip, Some latitude, Some longitude =>
      Some (Record_.mk (Sqlite3.ip_address row) country region city
                       zip latitude longitude)
  | _, _, _, _, _, _ => None
  end.

(** [__transform_rows_to_records]: the list comprehension, left to right. *)
Fixpoint __transform_rows_to_records (rows : list Sqlite3.Row)
  : option (list Record_.t) :=
  match rows with
  | [] => Some []
  | row :: rows' =>
      match Record_of_row row with
      | Some r =>
          match __transform_rows_to_records rows' with
          | Some rs => Some (r :: rs)
          | None => None
          end
      | None => None
      end
  end.

(** The mapper inside a handler: a failed construction is pydantic's
    [ValidationError]. *)
Definition transform (rows : list Sqlite3.Row) : M (list Record_.t) :=
  match __transform_rows_to_records rows with
  | Some rs => ret rs
  | None => raise ValidationError
  end.

Definition is_empty {A} (l : list A) : bool :=
  match l with [] => true | _ => false end.

Definition of_str (o : option string) : value :=
  match o with Some s => PyStr s | None => PyNone end.
Definition of_int (o : option Z) : value :=
  match o with Some z => PyInt z | None => PyNone end.
Definition of_float (o : option float) : value :=
  match o with Some f => PyFloat f | None => PyNone end.

Definition nl : string := String (ascii_of_nat 10) "".

(** ** The handlers *)

(** [GET /ips/{ip}]. *)
Definition get_ip_info (ip : string) : M (string * list Record_.t) :=
  rows <- execute "SELECT * FROM geolocation WHERE ip_address = ?"
                  [PyStr ip] ;;
  if is_empty rows
  then raise (HTTPException 404 ("No data found for ip=" ++ ip ++ "!"))
  else records <- transform rows ;; ret ("result", records).

(** The loop shared in shape by the filter search and the update:
    [for field, value in mapper.items(): if value is not None: ...],
    growing the two lists in step. *)
Definition collect (mapper : list (string * value))
  : list string * list value :=
  fold_left
    (fun acc item =>
       let '(clauses, params) := acc in
       let '(field, v) := item in
       if negb (is_None v)
       then ((clauses ++ [(field ++ " = ?")%string])%list,
             (params ++ [v])%list)
       else acc)
    mapper ([], []).

Section Filters.

Variables (ip country region city : option string).
Variables (zip_code : option Z) (latitude longitude : option float).

Definition filter_mapper : list (string * value) :=
  [("ip_address", of_str ip); ("country", of_str country);
   ("region", of_str region); ("city", of_str city);
   ("zip", of_int zip_code); ("latitude", of_float latitude);
   ("longitude", of_float longitude)].

(** The statement text of the filter search, from the collected conditions. *)
Definition filter_query (conditions : list string) (limit : option Z)
  : string :=
  let query := "SELECT * FROM geolocation" in
  let query :=
    if negb (is_empty conditions)
    then query ++ " WHERE " ++ join " AND " conditions else query in
  if truthy_int limit
  then query ++ " LIMIT " ++ match limit with Some n => str n | None => "" end
  else query.

(** [GET /ips/]. *)
Definition get_ip_info_by_parameters (limit : option Z)
  : M (string * list Record_.t) :=
  let _RECORD_TO_SQL_MAPPER := filter_mapper in
  if negb (existsb (fun param => negb (is_None param))
             [of_str ip; of_str country; of_str region; of_str city;
              of_int zip_code; of_float latitude; of_float longitude])
  then raise (HTTPException 400
                "At least one filtering parameter must be provided.")
  else
    let '(conditions, params) := collect _RECORD_TO_SQL_MAPPER in
    let query := filter_query conditions limit in
    rows <- execute query params ;;
    if is_empty rows
    then raise (HTTPException 404 "No data found for provided parameters!")
    else records <- transform rows ;; ret ("result", records).

End Filters.

(** [POST /]. *)
Definition insert_query : string :=
  nl ++ "        INSERT INTO geolocation (ip_address, country, region, city, zip, latitude, longitude)"
     ++ nl ++ "        VALUES (?, ?, ?, ?, ?, ?, ?)"
     ++ nl ++ "        ".

Definition add_ip (record : RecordInput.t) : M (string * RecordInput.t) :=
  rows <- try_except_sqlite3
            (execute "SELECT * FROM geolocation WHERE ip_address = ?"
                     [PyStr (RecordInput.ip record)])
            (fun _ => raise (HTTPException 500 "")) ;;
  if negb (is_empty rows)
  then raise (HTTPException 400
                ("Address with ip=" ++ RecordInput.ip record
                                    ++ " already exists!"))
  else
    try_except_sqlite3
      (let query := insert_query in
       execute query
         [PyStr (RecordInput.ip record);
          PyStr (RecordInput.country record);
          PyStr (RecordInput.region record);
          PyStr (RecordInput.city record);
          PyInt (RecordInput.zip_code record);
          PyFloat (RecordInput.latitude record);
          PyFloat (RecordInput.longitude record)] ;;;
       commit ;;;
       ret ("added", record))
      (fun exc =>
         logging_error "Database error: " exc ;;;
         raise (HTTPException 500 "")).

(** [PUT /ips/{ip}]. *)
Section Update.

Variables (ip : string) (country region city : option string).
Variables (zip_code : option Z) (latitude longitude : option float).

Definition update_mapper : list (string * value) :=
  [("country", of_str country); ("region", of_str region);
   ("city", of_str city); ("zip", of_int zip_code);
   ("latitude", of_float latitude); ("longitude", of_float longitude)].

Definition update_query (updates : list string) : string :=
  "UPDATE geolocation SET " ++ join ", " updates ++ " WHERE ip_address = ?".

Definition update_data : M (string * Record_.t) :=
  let _RECORD_TO_SQL_MAPPER := update_mapper in
  if forallb is_None
       [of_str country; of_str region; of_str city;
        of_int zip_code; of_float latitude; of_float longitude]
  then raise (HTTPException 400 "No parameters passed!")
  else
    rows <- try_except_sqlite3
              (execute "SELECT * FROM geolocation WHERE ip_address = ?"
                       [PyStr ip])
              (fun _ => raise (HTTPException 500 "")) ;;
    if is_empty rows
    then raise (HTTPException 404 ("No data found for ip=" ++ ip ++ "!"))
    else
      let '(updates, params) := collect _RECORD_TO_SQL_MAPPER in
      let query := update_query updates in
      let params := (params ++ [PyStr ip])%list in
      rows <- try_except_sqlite3
                (execute query params ;;;
                 commit ;;;
                 execute "SELECT * FROM geolocation WHERE ip_address = ?"
                         [PyStr ip])
                (fun exc =>
                   logging_error "Database error: " exc ;;;
                   raise (HTTPException 500 "")) ;;
      records <- transform rows ;;
      match records with
      | first :: _ => ret ("updated", first)
      | [] => raise IndexError
      end.

End Update.

(** ** [Depends(get_db_session)]: one connection per request *)

Record Served (A : Type) : Type := mkServed {
  response : outcome A;
  database : Sqlite3.Database;
  statements : list (string * list value);
  logged : list string;
  printed : list string
}.
Arguments mkServed {A}.
Arguments response {A}.
Arguments database {A}.
Arguments statements {A}.
Arguments logged {A}.
Arguments printed {A}.

(** A handler run under [Depends(get_db_session)]: the connection is
    opened on the stored table, the handler runs, a [sqlite3.Error] that
    leaves the handler reaches the generator's [except] clause and is
    printed there, and the connection is closed in any case.  [response] is
    what the handler returned or raised. *)
Definition get_db_session {A} (handler : M A) (db : Sqlite3.Database)
    (schedule : list (option string)) : Served A :=
  let '(r, st) := handler (mkState (Sqlite3.connect db) schedule [] []) in
  mkServed r (Sqlite3.close (conn st)) (executed st) (log st)
    match r with
    | Raised (sqlite3_Error msg) => ["DB Exception occured '" ++ msg ++ "'"]
    | _ => []
    end.

(** * Facts about the model *)

(** ** Text *)

Lemma append_assoc (a b c : string) : (a ++ b) ++ c = a ++ b ++ c.
Proof. induction a as [|x a IH]; cbn; [reflexivity|now rewrite IH]. Qed.

Lemma append_nil_r (a : string) : a ++ "" = a.
Proof. induction a as [|x a IH]; cbn; [reflexivity|now rewrite IH]. Qed.

(** ** Lexing text assembled from pieces *)

Lemma lex_nonempty (s : string) :
  Sqlite3.starts_word s = true -> Sqlite3.lex s <> [].
Proof.
  destruct s as [|c s']; simpl; [discriminate|].
  unfold Sqlite3.isword. intros H.
  apply andb_prop in H as [Hs Hp].
  apply negb_true_iff in Hs, Hp. rewrite Hs, Hp.
  destruct (Sqlite3.lex s'); [discriminate|].
  destruct (Sqlite3.starts_word s'); discriminate.
Qed.

Lemma lex_all_space (s : string) :
  Sqlite3.lex s = [] -> Sqlite3.starts_word s = false.
Proof.
  intros H. destruct (Sqlite3.starts_word s) eqn:E; [|reflexivity].
  now apply lex_nonempty in E.
Qed.

Lemma starts_word_app (a : string) (c : ascii) (b : string) :
  Sqlite3.isword c = false ->
  Sqlite3.starts_word (a ++ String c b) = Sqlite3.starts_word a.
Proof.
  intros Hc. destruct a; simpl; [exact Hc|reflexivity].
Qed.

(** A character that is not a word character ends the token before it. *)
Lemma lex_app_sep (a : string) (c : ascii) (b : string) :
  Sqlite3.isword c = false ->
  Sqlite3.lex (a ++ String c b) = (Sqlite3.lex a ++ Sqlite3.lex (String c b))%list.
Proof.
  intros Hc. induction a as [|x a IH]; [reflexivity|].
  change (String x a ++ String c b) with (String x (a ++ String c b)).
  set (t := Sqlite3.lex (String c b)) in *. clearbody t.
  cbn [Sqlite3.lex].
  rewrite IH, (starts_word_app a c b Hc). clear IH.
  destruct (isspace x); [reflexivity|].
  destruct (Sqlite3.ispunct x); [reflexivity|].
  destruct (Sqlite3.lex a) as [|w ws] eqn:Ea.
  - rewrite (lex_all_space a Ea). simpl. destruct t; reflexivity.
  - simpl. destruct (Sqlite3.starts_word a); reflexivity.
Qed.

Lemma lex_space (a b : string) :
  Sqlite3.lex (a ++ String " " b) = (Sqlite3.lex a ++ Sqlite3.lex b)%list.
Proof. now rewrite lex_app_sep. Qed.

Lemma lex_comma_space (a b : string) :
  Sqlite3.lex (a ++ String "," (String " " b))
  = (Sqlite3.lex a ++ "," :: Sqlite3.lex b)%list.
Proof. now rewrite lex_app_sep. Qed.

Fixpoint all_word (s : string) : bool :=
  match s with
  | EmptyString => true
  | String c s' => Sqlite3.isword c && all_word s'
  end.

(** A non-empty run of word characters is one token. *)
Lemma lex_word (s : string) :
  s <> "" -> all_word s = true -> Sqlite3.lex s = [s].
Proof.
  induction s as [|c s IH]; [congruence|]. intros _ H.
  simpl in H. apply andb_prop in H as [Hc Hs].
  cbn [Sqlite3.lex].
  unfold Sqlite3.isword in Hc. apply andb_prop in Hc as [H1 H2].
  apply negb_true_iff in H1, H2. rewrite H1, H2.
  destruct s as [|c' s']; [reflexivity|].
  rewrite IH by (congruence || assumption).
  simpl in Hs. apply andb_prop in Hs as [Hc' _].
  simpl. now rewrite Hc'.
Qed.

Lemma all_word_uint (d : Decimal.uint) :
  all_word (NilEmpty.string_of_uint d) = true.
Proof. induction d; simpl; auto. Qed.

Lemma str_word (n : Z) : all_word (str n) = true /\ str n <> "".
Proof.
  unfold str.
  destruct (Z.to_int n) as [d|d]; simpl.
  - destruct d; simpl; split;
      try discriminate; try reflexivity; apply all_word_uint.
  - split; [|discriminate].
    destruct d; simpl; try reflexivity; apply all_word_uint.
Qed.

Lemma lex_str (n : Z) : Sqlite3.lex (str n) = [str n].
Proof. destruct (str_word n). now apply lex_word. Qed.

(** The engine reads back the number [str] wrote. *)
Lemma int_of_string_str (n : Z) :
  NilZero.int_of_string (str n) = Some (Z.to_int n).
Proof.
  unfold str. apply NilZero.isi; destruct n; simpl; try discriminate;
    intros [= H]; now apply DecimalPos.Unsigned.to_uint_nonnil in H.
Qed.

Lemma parse_limit_str (n : Z) :
  Sqlite3.parse_limit ["LIMIT"; str n] = Some (Some n).
Proof.
  unfold Sqlite3.parse_limit.
  change ("LIMIT" =? "LIMIT")%string with true. cbv iota.
  now rewrite int_of_string_str, DecimalZ.of_to.
Qed.

(** ** Parsing the statements the handlers assemble *)

(** The text of one condition or assignment, as the loops build it. *)
Definition clause (c : Sqlite3.column) : string :=
  Sqlite3.column_name c ++ " = ?".

Fixpoint terms_tokens (sep : string) (cs : list Sqlite3.column)
  : list string :=
  match cs with
  | [] => []
  | [c] => [Sqlite3.column_name c; "="; "?"]
  | c :: cs' =>
      Sqlite3.column_name c :: "=" :: "?" :: sep :: terms_tokens sep cs'
  end.

Lemma lex_clause (c : Sqlite3.column) :
  Sqlite3.lex (clause c) = [Sqlite3.column_name c; "="; "?"].
Proof. destruct c; reflexivity. Qed.

Lemma column_of_name_name (c : Sqlite3.column) :
  Sqlite3.column_of_name (Sqlite3.column_name c) = Some c.
Proof. destruct c; reflexivity. Qed.

Lemma lex_join_and (cs : list Sqlite3.column) :
  Sqlite3.lex (join " AND " (map clause cs)) = terms_tokens "AND" cs.
Proof.
  induction cs as [|c cs IH]; [reflexivity|].
  destruct cs as [|c' cs]; [apply lex_clause|].
  change (join " AND " (map clause (c :: c' :: cs)))
    with (clause c ++
          String " " ("AND" ++
                      String " " (join " AND " (map clause (c' :: cs))))).
  now rewrite lex_space, lex_space, lex_clause, IH.
Qed.

Lemma lex_join_comma (cs : list Sqlite3.column) :
  Sqlite3.lex (join ", " (map clause cs)) = terms_tokens "," cs.
Proof.
  induction cs as [|c cs IH]; [reflexivity|].
  destruct cs as [|c' cs]; [apply lex_clause|].
  change (join ", " (map clause (c :: c' :: cs)))
    with (clause c ++
          String "," (String " " (join ", " (map clause (c' :: cs))))).
  now rewrite lex_comma_space, lex_clause, IH.
Qed.

Lemma parse_terms_tokens (sep : string) (cs : list Sqlite3.column)
    (rest : list string) :
  cs <> [] ->
  hd_error rest <> Some sep ->
  Sqlite3.parse_terms sep (terms_tokens sep cs ++ rest) = Some (cs, rest).
Proof.
  intros Hcs Hrest. induction cs as [|c cs IH]; [congruence|].
  destruct cs as [|c' cs].
  - cbn [terms_tokens app Sqlite3.parse_terms].
    change ((("=" =? "=") && ("?" =? "?"))%string) with true. cbv iota.
    rewrite column_of_name_name.
    destruct rest as [|t rest]; [reflexivity|].
    destruct (String.eqb_spec t sep) as [->|]; [now elim Hrest|reflexivity].
  - assert (E : forall l,
               (terms_tokens sep (c :: c' :: cs) ++ l)%list
               = Sqlite3.column_name c :: "=" :: "?" :: sep
                 :: (terms_tokens sep (c' :: cs) ++ l)%list) by reflexivity.
    rewrite E. cbn [Sqlite3.parse_terms].
    change ((("=" =? "=") && ("?" =? "?"))%string) with true. cbv iota.
    rewrite column_of_name_name, String.eqb_refl, IH by congruence.
    reflexivity.
Qed.

(** The point lookup's statement, used by three handlers. *)
Definition select_by_ip : string :=
  "SELECT * FROM geolocation WHERE ip_address = ?".

Lemma prepare_select_by_ip :
  Sqlite3.prepare select_by_ip
  = Some (Sqlite3.Select [Sqlite3.Col_ip_address] None).
Proof. reflexivity. Qed.

Lemma prepare_insert_query : Sqlite3.prepare insert_query = Some Sqlite3.Insert.
Proof. reflexivity. Qed.

(** The LIMIT the filter search puts into its text: none when [limit] is
    [None] or [0]. *)
Definition written_limit (limit : option Z) : option Z :=
  if truthy_int limit then limit else None.

Lemma lex_filter_query (cs : list Sqlite3.column) (limit : option Z) :
  Sqlite3.lex (filter_query (map clause cs) limit)
  = (["SELECT"; "*"; "FROM"; "geolocation"]
       ++ match cs with
          | [] => []
          | _ => "WHERE" :: terms_tokens "AND" cs
          end
       ++ match written_limit limit with
          | Some n => ["LIMIT"; str n]
          | None => []
          end)%list.
Proof.
  unfold filter_query, written_limit.
  assert (W : forall J,
             Sqlite3.lex ("SELECT * FROM geolocation" ++ " WHERE " ++ J)
             = (["SELECT"; "*"; "FROM"; "geolocation"; "WHERE"]
                  ++ Sqlite3.lex J)%list).
  { intros J.
    change ("SELECT * FROM geolocation" ++ " WHERE " ++ J)
      with ("SELECT * FROM geolocation" ++ String " " ("WHERE" ++ String " " J)).
    now rewrite lex_space, lex_space. }
  assert (L : forall q n,
             Sqlite3.lex (q ++ " LIMIT " ++ str n)
             = (Sqlite3.lex q ++ ["LIMIT"; str n])%list).
  { intros q n.
    change (q ++ " LIMIT " ++ str n)
      with (q ++ String " " ("LIMIT" ++ String " " (str n))).
    now rewrite lex_space, lex_space, lex_str. }
  destruct cs as [|c cs]; cbn [is_empty map negb];
    destruct (truthy_int limit) eqn:T;
    try (destruct limit as [n|]; [|discriminate T]);
    rewrite ?L, ?W; try reflexivity.
  all: change (clause c :: map clause cs) with (map clause (c :: cs)).
  all: rewrite lex_join_and, <- ?app_assoc, ?app_nil_r; reflexivity.
Qed.

Lemma prepare_filter_query (cs : list Sqlite3.column) (limit : option Z) :
  Sqlite3.prepare (filter_query (map clause cs) limit)
  = Some (Sqlite3.Select cs (written_limit limit)).
Proof.
  unfold Sqlite3.prepare. rewrite lex_filter_query.
  cbn [app Sqlite3.expect].
  change ("SELECT" =? "SELECT")%string with true.
  change ("*" =? "*")%string with true.
  change ("FROM" =? "FROM")%string with true.
  change ("geolocation" =? "geolocation")%string with true.
  cbv iota. unfold Sqlite3.parse_select.
  assert (PL : Sqlite3.parse_limit
                 match written_limit limit with
                 | Some n => ["LIMIT"; str n]
                 | None => []
                 end = Some (written_limit limit)).
  { destruct (written_limit limit); [apply parse_limit_str|reflexivity]. }
  destruct cs as [|c cs].
  - cbn [app].
    destruct (written_limit limit) as [n|] eqn:E; cbn [Sqlite3.expect].
    + change ("WHERE" =? "LIMIT")%string with false. cbv iota.
      now rewrite parse_limit_str.
    + reflexivity.
  - cbn [app Sqlite3.expect].
    change ("WHERE" =? "WHERE")%string with true. cbv iota.
    rewrite parse_terms_tokens; [now rewrite PL|congruence|].
    destruct (written_limit limit); simpl; congruence.
Qed.

Lemma lex_update_query (cs : list Sqlite3.column) :
  Sqlite3.lex (update_query (map clause cs))
  = (["UPDATE"; "geolocation"; "SET"] ++ terms_tokens "," cs
       ++ ["WHERE"; "ip_address"; "="; "?"])%list.
Proof.
  unfold update_query.
  change ("UPDATE geolocation SET " ++ join ", " (map clause cs)
            ++ " WHERE ip_address = ?")
    with ("UPDATE geolocation SET"
            ++ String " " (join ", " (map clause cs)
                             ++ String " " "WHERE ip_address = ?")).
  now rewrite lex_space, lex_space, lex_join_comma.
Qed.

Lemma prepare_update_query (cs : list Sqlite3.column) :
  cs <> [] ->
  Sqlite3.prepare (update_query (map clause cs))
  = Some (Sqlite3.Update cs [Sqlite3.Col_ip_address]).
Proof.
  intros Hcs. unfold Sqlite3.prepare. rewrite lex_update_query.
  cbn [app Sqlite3.expect].
  change ("SELECT" =? "UPDATE")%string with false.
  change ("UPDATE" =? "UPDATE")%string with true.
  change ("geolocation" =? "geolocation")%string with true.
  change ("SET" =? "SET")%string with true.
  cbv iota. unfold Sqlite3.parse_update.
  rewrite parse_terms_tokens by (assumption || (simpl; congruence)).
  reflexivity.
Qed.

(** ** The loop that collects clauses and parameters *)

Definition supplied {K} (items : list (K * value)) : list (K * value) :=
  filter (fun item => negb (is_None (snd item))) items.

Lemma collect_from (mapper : list (string * value))
    (clauses : list string) (params : list value) :
  fold_left
    (fun acc item =>
       let '(clauses, params) := acc in
       let '(field, v) := item in
       if negb (is_None v)
       then ((clauses ++ [(field ++ " = ?")%string])%list,
             (params ++ [v])%list)
       else acc)
    mapper (clauses, params)
  = ((clauses
        ++ map (fun item => (fst item ++ " = ?")%string) (supplied mapper))%list,
     (params ++ map snd (supplied mapper))%list).
Proof.
  revert clauses params.
  induction mapper as [|[field v] mapper IH]; intros clauses params.
  - simpl. now rewrite !app_nil_r.
  - cbn [fold_left]. unfold supplied. cbn [filter snd].
    destruct (negb (is_None v)).
    + rewrite IH. cbn [map fst snd]. now rewrite <- !app_assoc.
    + apply IH.
Qed.

Definition named (items : list (Sqlite3.column * value))
  : list (string * value) :=
  map (fun item => (Sqlite3.column_name (fst item), snd item)) items.

(** One clause and one parameter per supplied item, both in the order of
    the mapping. *)
Lemma collect_named (items : list (Sqlite3.column * value)) :
  collect (named items)
  = (map clause (map fst (supplied items)), map snd (supplied items)).
Proof.
  unfold collect. rewrite collect_from. cbn [app]. f_equal.
  - induction items as [|[c v] items IH]; [reflexivity|].
    unfold supplied in *. cbn [named map filter snd fst].
    destruct (negb (is_None v)); cbn [map fst]; [f_equal|]; apply IH.
  - induction items as [|[c v] items IH]; [reflexivity|].
    unfold supplied in *. cbn [named map filter snd fst].
    destruct (negb (is_None v)); cbn [map snd]; [f_equal|]; apply IH.
Qed.

(** ** Storage calls *)

Lemma bindable_supplied (fv : Sqlite3.column -> value)
    (cs : list Sqlite3.column) :
  forallb Sqlite3.bindable
    (map fv (filter (fun c => negb (is_None (fv c))) cs))
  = forallb (fun c => is_None (fv c) || Sqlite3.bindable (fv c)) cs.
Proof.
  induction cs as [|c cs IH]; [reflexivity|].
  cbn [filter forallb].
  destruct (is_None (fv c)); cbn [negb map forallb orb]; now rewrite IH.
Qed.

Definition called (sql : string) (params : list value) (st : State) : State :=
  mkState (conn st) (tl (faults st)) (executed st ++ [(sql, params)]) (log st).

(** The state when the parameters could not be bound: the statement was
    handed over, the storage was not reached. *)
Definition traced (sql : string) (params : list value) (st : State) : State :=
  mkState (conn st) (faults st) (executed st ++ [(sql, params)]) (log st).

Lemma execute_ok (sql : string) (params : list value) (st : State) :
  forallb Sqlite3.bindable params = true ->
  hd None (faults st) = None ->
  execute sql params st = engine sql params (called sql params st).
Proof.
  intros Hb H. unfold execute, bind, bind_parameters, storage_call, ret.
  rewrite Hb. cbn [faults conn executed log]. now rewrite H.
Qed.

Lemma execute_fault (sql : string) (params : list value) (st : State)
    (msg : string) :
  forallb Sqlite3.bindable params = true ->
  hd None (faults st) = Some msg ->
  execute sql params st = (Raised (sqlite3_Error msg), called sql params st).
Proof.
  intros Hb H. unfold execute, bind, bind_parameters, storage_call, ret.
  rewrite Hb. cbn [faults conn executed log]. now rewrite H.
Qed.

Lemma execute_overflow (sql : string) (params : list value) (st : State) :
  forallb Sqlite3.bindable params = false ->
  execute sql params st = (Raised OverflowError, traced sql params st).
Proof.
  intros Hb. unfold execute, bind, bind_parameters, raise.
  now rewrite Hb.
Qed.

Lemma engine_select (sql : string) (cs : list Sqlite3.column)
    (limit : option Z) (params : list value) (st : State) :
  Sqlite3.prepare sql = Some (Sqlite3.Select cs limit) ->
  List.length params = List.length cs ->
  Sqlite3.limit_fits limit = true ->
  engine sql params st
  = (Returned (Sqlite3.apply_limit limit
                 (filter (Sqlite3.matches_all cs params)
                         (Sqlite3.rows (Sqlite3.view (conn st))))), st).
Proof.
  intros Hp Hl Hf. unfold engine, Sqlite3.run. rewrite Hp.
  cbn [Sqlite3.placeholders]. rewrite Hl, Nat.eqb_refl, Hf. cbn [negb].
  now destruct st as [[v f] fs ex lg].
Qed.

Lemma engine_select_mismatch (sql : string) (cs : list Sqlite3.column)
    (limit : option Z) (params : list value) (st : State) :
  Sqlite3.prepare sql = Some (Sqlite3.Select cs limit) ->
  List.length params = List.length cs ->
  Sqlite3.limit_fits limit = false ->
  engine sql params st = (Raised (sqlite3_Error "datatype mismatch"), st).
Proof.
  intros Hp Hl Hf. unfold engine, Sqlite3.run. rewrite Hp.
  cbn [Sqlite3.placeholders]. now rewrite Hl, Nat.eqb_refl, Hf.
Qed.

(** The rows a point lookup on [ip] selects. *)
Definition ip_rows (ip : string) (rs : list Sqlite3.Row) : list Sqlite3.Row :=
  filter (fun r => (Sqlite3.ip_address r =? ip)%string) rs.

Lemma engine_select_by_ip (ip : string) (st : State) :
  engine select_by_ip [PyStr ip] st
  = (Returned (ip_rows ip (Sqlite3.rows (Sqlite3.view (conn st)))), st).
Proof.
  rewrite (engine_select select_by_ip [Sqlite3.Col_ip_address] None
             [PyStr ip] st prepare_select_by_ip eq_refl eq_refl).
  cbn [Sqlite3.apply_limit]. do 2 f_equal.
  apply filter_ext. intros r. cbn. apply andb_true_r.
Qed.

(** * The record mapper *)

(** A row none of whose columns is NULL. *)
Definition well_formed (row : Sqlite3.Row) : bool :=
  match Sqlite3.country row, Sqlite3.region row, Sqlite3.city row,
        Sqlite3.zip row, Sqlite3.latitude row, Sqlite3.longitude row with
  | Some _, Some _, Some _, Some _, Some _, Some _ => true
  | _, _, _, _, _, _ => false
  end.

(** The output record carries row [row]: [zip] under [zip_code], every other
    column under its own name. *)
Definition carries (row : Sqlite3.Row) (rec : Record_.t) : Prop :=
  Record_.ip_address rec = Sqlite3.ip_address row
  /\ Some (Record_.country rec) = Sqlite3.country row
  /\ Some (Record_.region rec) = Sqlite3.region row
  /\ Some (Record_.city rec) = Sqlite3.city row
  /\ Some (Record_.zip_code rec) = Sqlite3.zip row
  /\ Some (Record_.latitude rec) = Sqlite3.latitude row
  /\ Some (Record_.longitude rec) = Sqlite3.longitude row.

Lemma Record_of_row_carries (row : Sqlite3.Row) (rec : Record_.t) :
  Record_of_row row = Some rec -> carries row rec.
Proof.
  unfold Record_of_row, carries.
  destruct row as [i ip [co|] [re|] [ci|] [z|] [la|] [lo|]];
    cbn; intros [= <-]; cbn; repeat split.
Qed.

Lemma Record_of_well_formed (row : Sqlite3.Row) :
  well_formed row = true -> exists rec, Record_of_row row = Some rec.
Proof.
  unfold well_formed, Record_of_row.
  destruct row as [i ip [co|] [re|] [ci|] [z|] [la|] [lo|]];
    cbn; intros [=]; eexists; reflexivity.
Qed.

(** When the mapper succeeds, the output is the input seen through
    [carries], position by position. *)
Lemma transform_rows_Forall2 (rows : list Sqlite3.Row)
    (recs : list Record_.t) :
  __transform_rows_to_records rows = Some recs -> Forall2 carries rows recs.
Proof.
  revert recs. induction rows as [|row rows IH]; intros recs; cbn.
  - intros [= <-]. constructor.
  - destruct (Record_of_row row) as [rec|] eqn:E; [|discriminate].
    destruct (__transform_rows_to_records rows) as [rs|]; [|discriminate].
    intros [= <-]. constructor; [now apply Record_of_row_carries|now apply IH].
Qed.

Lemma transform_rows_total (rows : list Sqlite3.Row) :
  forallb well_formed rows = true ->
  exists recs, __transform_rows_to_records rows = Some recs.
Proof.
  induction rows as [|row rows IH]; cbn; [eexists; reflexivity|].
  intros H. apply andb_prop in H as [Hr Hrs].
  destruct (Record_of_well_formed row Hr) as [rec ->].
  destruct (IH Hrs) as [recs ->]. eexists; reflexivity.
Qed.

Lemma transform_rows_null (rows : list Sqlite3.Row) :
  forallb well_formed rows = false ->
  __transform_rows_to_records rows = None.
Proof.
  induction rows as [|row rows IH]; cbn [forallb]; [discriminate|].
  intros H. apply andb_false_iff in H as [H|H].
  - cbn [__transform_rows_to_records].
    destruct row as [i ip [co|] [re|] [ci|] [z|] [la|] [lo|]];
      (discriminate H || reflexivity).
  - cbn [__transform_rows_to_records]. rewrite (IH H).
    now destruct (Record_of_row row).
Qed.

(** C8.  On a list of rows none of which has a NULL column the mapper
    does not fail; its output has one record per row, in the order of the
    rows, the record at each position carrying the row at that position:
    [zip] as the integer [zip_code], [latitude] and [longitude] as floats,
    the other columns under their own names. *)
Theorem transform_rows_well_formed (rows : list Sqlite3.Row) :
  forallb well_formed rows = true ->
  exists recs,
    __transform_rows_to_records rows = Some recs
    /\ List.length recs = List.length rows
    /\ forall (i : nat) (row : Sqlite3.Row),
         nth_error rows i = Some row ->
         exists rec, nth_error recs i = Some rec /\ carries row rec.
Proof.
  intros H. destruct (transform_rows_total rows H) as [recs E].
  exists recs. split; [exact E|].
  apply transform_rows_Forall2 in E. clear H.
  induction E as [|row rec rows recs Hc _ [IHl IHn]].
  - split; [reflexivity|]. intros [|i] row; discriminate.
  - split; [cbn; now rewrite IHl|].
    intros [|i] row'; cbn.
    + intros [= <-]. now exists rec.
    + apply IHn.
Qed.

Definition katowice : Sqlite3.Row :=
  Sqlite3.mkRow 1 "192.000.000.000" (Some "Poland") (Some "Silesia")
    (Some "Katowice") (Some 40514) (Some 34.04%float) (Some (-118.02)%float).

Definition berlin : Sqlite3.Row :=
  Sqlite3.mkRow 2 "10.0.0.7" (Some "Germany") (Some "Berlin")
    (Some "Berlin") (Some 10115) (Some 52.5%float) (Some 13.25%float).

Lemma transform_rows_well_formed_witness :
  exists recs,
    __transform_rows_to_records [katowice; berlin] = Some recs
    /\ List.length recs = List.length [katowice; berlin]
    /\ forall (i : nat) (row : Sqlite3.Row),
         nth_error [katowice; berlin] i = Some row ->
         exists rec, nth_error recs i = Some rec /\ carries row rec.
Proof. apply (transform_rows_well_formed [katowice; berlin]). reflexivity. Defined.

(** * The filter search *)

Section FilterSearch.

Variables (ip country region city : option string).
Variables (zip_code : option Z) (latitude longitude : option float).

(** The filter the request carries for a column, in the declaration order
    of the handler's parameters. *)
Definition filter_value (c : Sqlite3.column) : value :=
  match c with
  | Sqlite3.Col_ip_address => of_str ip
  | Sqlite3.Col_country => of_str country
  | Sqlite3.Col_region => of_str region
  | Sqlite3.Col_city => of_str city
  | Sqlite3.Col_zip => of_int zip_code
  | Sqlite3.Col_latitude => of_float latitude
  | Sqlite3.Col_longitude => of_float longitude
  end.

Definition filter_present (c : Sqlite3.column) : bool :=
  negb (is_None (filter_value c)).

(** The columns whose filter is present, in declaration order. *)
Definition filter_columns : list Sqlite3.column :=
  filter filter_present Sqlite3.all_columns.

Definition any_filter : bool := existsb filter_present Sqlite3.all_columns.

Definition search : option Z -> M (string * list Record_.t) :=
  get_ip_info_by_parameters ip country region city zip_code latitude longitude.

Lemma filter_mapper_named :
  filter_mapper ip country region city zip_code latitude longitude
  = named (map (fun c => (c, filter_value c)) Sqlite3.all_columns).
Proof. reflexivity. Qed.

Lemma supplied_map_columns (fv : Sqlite3.column -> value)
    (cs : list Sqlite3.column) :
  supplied (map (fun c => (c, fv c)) cs)
  = map (fun c => (c, fv c)) (filter (fun c => negb (is_None (fv c))) cs).
Proof.
  unfold supplied. induction cs as [|c cs IH]; [reflexivity|].
  cbn [map filter snd]. destruct (negb (is_None (fv c))); cbn [map];
    now rewrite IH.
Qed.

Lemma collect_filter_mapper :
  collect (filter_mapper ip country region city zip_code latitude longitude)
  = (map clause filter_columns, map filter_value filter_columns).
Proof.
  rewrite filter_mapper_named, collect_named, supplied_map_columns.
  unfold filter_columns, filter_present.
  rewrite !map_map. reflexivity.
Qed.

Lemma any_filter_columns : any_filter = true -> filter_columns <> [].
Proof.
  unfold any_filter, filter_columns. intros H E.
  apply existsb_exists in H as [c [Hin Hc]].
  assert (In c (filter filter_present Sqlite3.all_columns))
    by (apply filter_In; now split).
  rewrite E in H. contradiction.
Qed.

Lemma search_unfold (limit : option Z) :
  search limit
  = if negb any_filter
    then raise (HTTPException 400
                  "At least one filtering parameter must be provided.")
    else
      rows <- execute (filter_query (map clause filter_columns) limit)
                      (map filter_value filter_columns) ;;
      if is_empty rows
      then raise (HTTPException 404 "No data found for provided parameters!")
      else records <- transform rows ;; ret ("result", records).
Proof.
  unfold search, get_ip_info_by_parameters.
  rewrite collect_filter_mapper.
  unfold any_filter, filter_present. cbn [existsb Sqlite3.all_columns filter_value].
  rewrite !orb_false_r. reflexivity.
Qed.

(** What a present filter asks of a column: equality with a non-NULL
    value; an absent filter asks nothing. *)
Definition text_filter (f col : option string) : bool :=
  match f, col with
  | None, _ => true
  | Some s, Some s' => (s' =? s)%string
  | Some _, None => false
  end.

Definition int_filter (f col : option Z) : bool :=
  match f, col with
  | None, _ => true
  | Some z, Some z' => z' =? z
  | Some _, None => false
  end.

Definition real_filter (f col : option float) : bool :=
  match f, col with
  | None, _ => true
  | Some x, Some x' => PrimFloat.eqb x' x
  | Some _, None => false
  end.

(** A row that every present filter accepts. *)
Definition satisfies (r : Sqlite3.Row) : bool :=
  text_filter ip (Some (Sqlite3.ip_address r))
  && text_filter country (Sqlite3.country r)
  && text_filter region (Sqlite3.region r)
  && text_filter city (Sqlite3.city r)
  && int_filter zip_code (Sqlite3.zip r)
  && real_filter latitude (Sqlite3.latitude r)
  && real_filter longitude (Sqlite3.longitude r).

Lemma matches_all_filter (p : Sqlite3.column -> bool)
    (fv : Sqlite3.column -> value) (cs : list Sqlite3.column)
    (r : Sqlite3.Row) :
  Sqlite3.matches_all (filter p cs) (map fv (filter p cs)) r
  = forallb (fun c => negb (p c) || Sqlite3.matches c (fv c) r) cs.
Proof.
  induction cs as [|c cs IH]; [reflexivity|].
  cbn [filter forallb]. destruct (p c); cbn [map Sqlite3.matches_all negb orb];
    now rewrite IH.
Qed.

Lemma matches_all_satisfies (r : Sqlite3.Row) :
  Sqlite3.matches_all filter_columns (map filter_value filter_columns) r
  = satisfies r.
Proof.
  unfold filter_columns. rewrite matches_all_filter.
  unfold satisfies, filter_present.
  cbn [forallb Sqlite3.all_columns filter_value].
  rewrite andb_true_r, !andb_assoc.
  destruct r as [i a co re ci z la lo].
  repeat f_equal.
  - now destruct ip.
  - destruct country, co; reflexivity.
  - destruct region, re; reflexivity.
  - destruct city, ci; reflexivity.
  - destruct zip_code, z; reflexivity.
  - destruct latitude, la; reflexivity.
  - destruct longitude, lo; reflexivity.
Qed.

(** The rows the search's statement fetches from a table. *)
Definition fetched (limit : option Z) (table : list Sqlite3.Row)
  : list Sqlite3.Row :=
  Sqlite3.apply_limit (written_limit limit) (filter satisfies table).

(** The one [int] among the filters decides whether the parameters can be
    bound. *)
Lemma filter_bindable :
  forallb Sqlite3.bindable (map filter_value filter_columns)
  = Sqlite3.bindable (of_int zip_code).
Proof.
  unfold filter_columns, filter_present.
  rewrite bindable_supplied. cbn [forallb Sqlite3.all_columns filter_value].
  destruct ip, country, region, city, zip_code, latitude, longitude;
    cbn [of_str of_int of_float is_None orb Sqlite3.bindable andb];
    rewrite ?andb_true_r; reflexivity.
Qed.

(** The run of the search with a filter present, case by case: the
    parameters cannot be bound; the storage fails; the LIMIT does not fit;
    no row; rows, mapped or not. *)
Lemma search_run (limit : option Z) (st : State) :
  any_filter = true ->
  let query := filter_query (map clause filter_columns) limit in
  let params := map filter_value filter_columns in
  let rows := fetched limit (Sqlite3.rows (Sqlite3.view (conn st))) in
  let st' := called query params st in
  search limit st
  = if negb (Sqlite3.bindable (of_int zip_code))
    then (Raised OverflowError, traced query params st)
    else
      match hd None (faults st) with
      | Some msg => (Raised (sqlite3_Error msg), st')
      | None =>
          if negb (Sqlite3.limit_fits (written_limit limit))
          then (Raised (sqlite3_Error "datatype mismatch"), st')
          else if is_empty rows
          then (Raised (HTTPException 404
                          "No data found for provided parameters!"), st')
          else match __transform_rows_to_records rows with
               | Some records => (Returned ("result", records), st')
               | None => (Raised ValidationError, st')
               end
      end.
Proof.
  intros Hany. cbv zeta. rewrite search_unfold, Hany. cbn [negb].
  unfold bind at 1.
  destruct (Sqlite3.bindable (of_int zip_code)) eqn:Hb; cbn [negb].
  2: { rewrite execute_overflow by (now rewrite filter_bindable).
       reflexivity. }
  assert (Hbs : forallb Sqlite3.bindable (map filter_value filter_columns)
                = true) by (now rewrite filter_bindable).
  destruct (hd None (faults st)) as [msg|] eqn:Hf.
  { now rewrite execute_fault with (msg := msg) by assumption. }
  rewrite execute_ok by assumption.
  destruct (Sqlite3.limit_fits (written_limit limit)) eqn:Hl; cbn [negb].
  2: { now rewrite (engine_select_mismatch _ filter_columns
                      (written_limit limit))
         by (apply prepare_filter_query || now rewrite length_map
             || assumption). }
  rewrite (engine_select _ filter_columns (written_limit limit))
    by (apply prepare_filter_query || now rewrite length_map || assumption).
  unfold fetched. cbn [called conn Sqlite3.view].
  rewrite (filter_ext _ _ matches_all_satisfies).
  destruct (is_empty _); [reflexivity|].
  unfold bind, transform.
  destruct (__transform_rows_to_records _); reflexivity.
Qed.

Lemma fetched_nil (limit : option Z) (table : list Sqlite3.Row) :
  match limit with Some n => 1 <= n | None => True end ->
  fetched limit table = [] <-> forall r, In r table -> satisfies r = false.
Proof.
  intros Hl. unfold fetched.
  assert (E : Sqlite3.apply_limit (written_limit limit)
                (filter satisfies table) = []
              <-> filter satisfies table = []).
  { unfold written_limit, Sqlite3.apply_limit.
    destruct limit as [n|]; cbn [truthy_int]; [|tauto].
    destruct (n =? 0) eqn:E0; cbn [negb]; [tauto|].
    destruct (n <? 0); [tauto|].
    destruct (Z.to_nat n) as [|k] eqn:Ek; [lia|].
    destruct (filter satisfies table); cbn; [tauto|split; discriminate]. }
  rewrite E. clear E Hl. split.
  - intros Hf r Hin. destruct (satisfies r) eqn:Hs; [|reflexivity].
    assert (In r (filter satisfies table)) by (apply filter_In; now split).
    rewrite Hf in H. contradiction.
  - intros Hn. induction table as [|r table IH]; [reflexivity|].
    cbn. rewrite (Hn r) by now left. apply IH. intros r' Hr'.
    apply Hn. now right.
Qed.

(** C2.  When at least one filter is present, the conditions and the
    parameters the loop collects are, position by position, [column = ?]
    and the filter's value for exactly the columns whose filter is present,
    in the declaration order ip_address, country, region, city, zip,
    latitude, longitude; the statement text is the SELECT followed by WHERE
    and the conditions joined by AND (then the LIMIT); the engine reads
    that text back as the conjunction of equalities on those columns; and
    this text with these parameters is the one statement the handler hands
    to the cursor. *)
Theorem search_statement_shape (limit : option Z) :
  any_filter = true ->
  let '(conditions, params) :=
    collect (filter_mapper ip country region city
                           zip_code latitude longitude) in
  conditions = map clause filter_columns
  /\ params = map filter_value filter_columns
  /\ List.length conditions = List.length params
  /\ filter_query conditions limit
     = "SELECT * FROM geolocation WHERE " ++ join " AND " conditions
         ++ match written_limit limit with
            | Some n => " LIMIT " ++ str n
            | None => ""
            end
  /\ Sqlite3.prepare (filter_query conditions limit)
     = Some (Sqlite3.Select filter_columns (written_limit limit))
  /\ forall st : State,
       executed (snd (search limit st))
       = (executed st ++ [(filter_query conditions limit, params)])%list.
Proof.
  intros H. rewrite collect_filter_mapper.
  pose proof (any_filter_columns H) as Hne.
  repeat split.
  - now rewrite !length_map.
  - unfold filter_query, written_limit.
    destruct (map clause filter_columns) eqn:E.
    { destruct filter_columns; [congruence|discriminate]. }
    cbn [is_empty negb].
    destruct (truthy_int limit) eqn:T.
    + destruct limit; [|discriminate].
      now rewrite !append_assoc.
    + now rewrite append_nil_r.
  - apply prepare_filter_query.
  - intros st. pose proof (search_run limit st H) as E. cbv zeta in E.
    rewrite E.
    destruct (negb (Sqlite3.bindable _)); [reflexivity|].
    destruct (hd None (faults st)); [reflexivity|].
    destruct (negb (Sqlite3.limit_fits _)); [reflexivity|].
    destruct (is_empty _); [reflexivity|].
    destruct (__transform_rows_to_records _); reflexivity.
Qed.

(** C5.  With at least one filter present and the storage not failing.
    When the zip_code filter and the written LIMIT fit 64 bits, the rows
    fetched are the table's rows that every present filter accepts, cut to
    the written LIMIT; when there is none the handler raises the 404 error,
    and otherwise it hands those rows to the record mapper: if none of them
    has a NULL column it returns, under the key "result", one record per row,
    in order, each carrying its row; if one of them has a NULL column the
    mapper's validation error is what the handler raises.  A zip_code filter
    that does not fit makes the handler raise [OverflowError]; a LIMIT that
    does not fit makes it raise the engine's "datatype mismatch".  With a
    limit that passed validation, no row is fetched exactly when no row of
    the table is accepted. *)
Theorem search_not_found_or_result (limit : option Z) (st : State) :
  any_filter = true ->
  hd None (faults st) = None ->
  let table := Sqlite3.rows (Sqlite3.view (conn st)) in
  let rows := fetched limit table in
  (Sqlite3.bindable (of_int zip_code) = true ->
   Sqlite3.limit_fits (written_limit limit) = true ->
   fst (search limit st)
   = (if is_empty rows
      then Raised (HTTPException 404 "No data found for provided parameters!")
      else match __transform_rows_to_records rows with
           | Some records => Returned ("result", records)
           | None => Raised ValidationError
           end)
   /\ (forallb well_formed rows = true ->
       exists records,
         __transform_rows_to_records rows = Some records
         /\ Forall2 carries rows records)
   /\ (forallb well_formed rows = false ->
       __transform_rows_to_records rows = None))
  /\ (Sqlite3.bindable (of_int zip_code) = false ->
      fst (search limit st) = Raised OverflowError)
  /\ (Sqlite3.bindable (of_int zip_code) = true ->
      Sqlite3.limit_fits (written_limit limit) = false ->
      fst (search limit st) = Raised (sqlite3_Error "datatype mismatch"))
  /\ (match limit with Some n => 1 <= n | None => True end ->
      (rows = [] <-> forall r, In r table -> satisfies r = false)).
Proof.
  intros Hany Hok. cbv zeta.
  pose proof (search_run limit st Hany) as E. cbv zeta in E.
  rewrite E, Hok. clear E.
  split; [|split; [|split]].
  - intros -> ->. cbn [negb]. split; [|split].
    + destruct (is_empty _); [reflexivity|].
      destruct (__transform_rows_to_records _); reflexivity.
    + intros Hw. destruct (transform_rows_total _ Hw) as [records Hr].
      exists records. split; [exact Hr|now apply transform_rows_Forall2].
    + apply transform_rows_null.
  - now intros ->.
  - now intros -> ->.
  - apply fetched_nil.
Qed.

End FilterSearch.

Definition two_rows : State :=
  mkState (Sqlite3.connect (Sqlite3.mkDatabase [katowice; berlin] 2))
          [] [] [].

(** C4.  With all seven filters absent the handler raises the 400 error
    whatever [limit] is, and it does so before touching the connection: the
    state it leaves is the state it was given, so no statement was executed
    and no entry of the failure schedule was consumed; served on any table,
    the table is unchanged and the list of executed statements is empty. *)
Theorem search_without_filter_is_bad_request (limit : option Z) :
  (forall st : State,
     get_ip_info_by_parameters None None None None None None None limit st
     = (Raised (HTTPException 400
                  "At least one filtering parameter must be provided."), st))
  /\ (forall (db : Sqlite3.Database) (schedule : list (option string)),
        get_db_session
          (get_ip_info_by_parameters None None None None None None None limit)
          db schedule
        = mkServed
            (Raised (HTTPException 400
                       "At least one filtering parameter must be provided."))
            db [] [] []).
Proof. split; reflexivity. Qed.

Lemma search_statement_shape_witness :
  let '(conditions, params) :=
    collect (filter_mapper None (Some "Poland") None None
                           (Some 40514) None None) in
  conditions = ["country = ?"; "zip = ?"]
  /\ params = [PyStr "Poland"; PyInt 40514]
  /\ filter_query conditions (Some 10)
     = "SELECT * FROM geolocation WHERE country = ? AND zip = ? LIMIT 10".
Proof.
  pose proof (search_statement_shape None (Some "Poland") None None
                (Some 40514) None None (Some 10) eq_refl) as H.
  cbv beta iota zeta in H. revert H.
  generalize (collect (filter_mapper None (Some "Poland") None None
                         (Some 40514) None None)).
  intros [conditions params] (H1 & H2 & _ & H4 & _).
  subst. repeat split.
Defined.

Lemma search_not_found_or_result_witness :
  fst (search None (Some "Poland") None None None None None (Some 10)
         two_rows)
  = Returned ("result",
              [Record_.mk "192.000.000.000" "Poland" "Silesia" "Katowice"
                          40514 34.04%float (-118.02)%float])
  /\ fst (search None (Some "France") None None None None None (Some 10)
            two_rows)
     = Raised (HTTPException 404 "No data found for provided parameters!").
Proof.
  split.
  - exact (proj1 (proj1 (search_not_found_or_result None (Some "Poland") None
                           None None None None (Some 10) two_rows
                           eq_refl eq_refl) eq_refl eq_refl)).
  - exact (proj1 (proj1 (search_not_found_or_result None (Some "France") None
                           None None None None (Some 10) two_rows
                           eq_refl eq_refl) eq_refl eq_refl)).
Defined.

(** A record whose latitude is NaN passes validation and is stored with a
    NULL latitude. *)
Definition unplaced : RecordInput.t :=
  RecordInput.mk "10.0.0.9" "Poland" "Silesia" "Katowice" 40514
                 PrimFloat.nan 19.0%float.

Definition unplaced_row : Sqlite3.Row :=
  Sqlite3.mkRow 1 "10.0.0.9" (Some "Poland") (Some "Silesia")
    (Some "Katowice") (Some 40514) None (Some 19.0%float).

(** C5, as the specification words it, fails: the creation of [unplaced]
    on the empty table returns and leaves one row, whose latitude is NULL;
    the search by its address then fetches that row, and the handler neither
    raises the 404 error nor returns anything: the mapper's validation
    error leaves it.  Nor does the handler answer in either way when its
    zip_code filter or its limit is past 64 bits, whatever the table
    holds. *)
Lemma search_fetched_row_is_not_returned :
  let created :=
    get_db_session (add_ip unplaced) (Sqlite3.mkDatabase [] 0) [] in
  let found :=
    get_db_session
      (search (Some "10.0.0.9") None None None None None None None)
      (database created) [] in
  response created = Returned ("added", unplaced)
  /\ Sqlite3.rows (database created) = [unplaced_row]
  /\ fetched (Some "10.0.0.9") None None None None None None None
       (Sqlite3.rows (database created)) = [unplaced_row]
  /\ response found = Raised ValidationError
  /\ response found
     <> Raised (HTTPException 404 "No data found for provided parameters!")
  /\ (forall records, response found <> Returned ("result", records))
  /\ fst (search None None None None (Some (2 ^ 63)) None None (Some 10)
            two_rows)
     = Raised OverflowError
  /\ fst (search None (Some "Poland") None None None None None
            (Some (2 ^ 63)) two_rows)
     = Raised (sqlite3_Error "datatype mismatch").
Proof.
  cbv zeta.
  assert (E : get_db_session (add_ip unplaced) (Sqlite3.mkDatabase [] 0) []
              = mkServed (Returned ("added", unplaced))
                  (Sqlite3.mkDatabase [unplaced_row] 1)
                  [(select_by_ip, [PyStr "10.0.0.9"]);
                   (insert_query,
                    [PyStr "10.0.0.9"; PyStr "Poland"; PyStr "Silesia";
                     PyStr "Katowice"; PyInt 40514; PyFloat PrimFloat.nan;
                     PyFloat 19.0%float])] [] [])
    by (vm_compute; reflexivity).
  rewrite E. cbn [response database Sqlite3.rows].
  assert (F : get_db_session
                (search (Some "10.0.0.9") None None None None None None None)
                (Sqlite3.mkDatabase [unplaced_row] 1) []
              = mkServed (Raised ValidationError)
                  (Sqlite3.mkDatabase [unplaced_row] 1)
                  [("SELECT * FROM geolocation WHERE ip_address = ?",
                    [PyStr "10.0.0.9"])] [] [])
    by (vm_compute; reflexivity).
  rewrite F. cbn [response].
  repeat split; try discriminate; vm_compute; reflexivity.
Qed.

(** * Create *)

(** State changes of a run, named. *)
Definition with_view (db : Sqlite3.Database) (st : State) : State :=
  mkState (Sqlite3.mkConnection db (Sqlite3.file (conn st)))
          (faults st) (executed st) (log st).

Definition committed (st : State) : State :=
  mkState (Sqlite3.mkConnection (Sqlite3.view (conn st))
                                (Sqlite3.view (conn st)))
          (tl (faults st)) (executed st) (log st).

Definition rolled (st : State) : State :=
  mkState (conn st) (tl (faults st)) (executed st) (log st).

Definition with_log (line : string) (st : State) : State :=
  mkState (conn st) (faults st) (executed st) (log st ++ [line]).

Lemma commit_ok (st : State) :
  hd None (faults st) = None -> commit st = (Returned tt, committed st).
Proof.
  intros H. unfold commit, bind, storage_call. now rewrite H.
Qed.

Lemma commit_fault (st : State) (msg : string) :
  hd None (faults st) = Some msg ->
  commit st = (Raised (sqlite3_Error msg), rolled st).
Proof.
  intros H. unfold commit, bind, storage_call. now rewrite H.
Qed.

Definition insert_params (record : RecordInput.t) : list value :=
  [PyStr (RecordInput.ip record);
   PyStr (RecordInput.country record);
   PyStr (RecordInput.region record);
   PyStr (RecordInput.city record);
   PyInt (RecordInput.zip_code record);
   PyFloat (RecordInput.latitude record);
   PyFloat (RecordInput.longitude record)].

Lemma insert_bindable (record : RecordInput.t) :
  forallb Sqlite3.bindable (insert_params record)
  = Sqlite3.int64 (RecordInput.zip_code record).
Proof.
  unfold insert_params. cbn [forallb Sqlite3.bindable andb].
  apply andb_true_r.
Qed.

(** The row an accepted record becomes, under the next AUTOINCREMENT id;
    the coordinates are held as a REAL column holds them. *)
Definition new_row (record : RecordInput.t) (db : Sqlite3.Database)
  : Sqlite3.Row :=
  Sqlite3.mkRow (Z.max (Sqlite3.seq db) (Sqlite3.max_id (Sqlite3.rows db)) + 1)
    (RecordInput.ip record)
    (Some (RecordInput.country record))
    (Some (RecordInput.region record))
    (Some (RecordInput.city record))
    (Some (RecordInput.zip_code record))
    (Sqlite3.store_real (RecordInput.latitude record))
    (Sqlite3.store_real (RecordInput.longitude record)).

Definition inserted (record : RecordInput.t) (db : Sqlite3.Database)
  : Sqlite3.Database :=
  Sqlite3.mkDatabase (Sqlite3.rows db ++ [new_row record db])
                     (Sqlite3.id (new_row record db)).

Lemma engine_insert (record : RecordInput.t) (st : State) :
  engine insert_query (insert_params record) st
  = (Returned [], with_view (inserted record (Sqlite3.view (conn st))) st).
Proof.
  unfold engine. rewrite prepare_insert_query. reflexivity.
Qed.

Definition conflict (ip : string) : exn :=
  HTTPException 400 ("Address with ip=" ++ ip ++ " already exists!").

Definition internal_error : exn := HTTPException 500 "".

(** Every path of [add_ip], by the failure schedule and the table. *)
Lemma add_ip_run (record : RecordInput.t) (st : State) :
  let ip := RecordInput.ip record in
  let st1 := called select_by_ip [PyStr ip] st in
  let st2 := called insert_query (insert_params record) st1 in
  let st3 := with_view (inserted record (Sqlite3.view (conn st))) st2 in
  add_ip record st
  = match hd None (faults st) with
    | Some _ => (Raised internal_error, st1)
    | None =>
        if negb (is_empty (ip_rows ip (Sqlite3.rows (Sqlite3.view (conn st)))))
        then (Raised (conflict ip), st1)
        else if negb (Sqlite3.int64 (RecordInput.zip_code record))
        then (Raised OverflowError,
              traced insert_query (insert_params record) st1)
        else
          match hd None (faults st1) with
          | Some msg =>
              (Raised internal_error,
               with_log ("Database error: " ++ msg) st2)
          | None =>
              match hd None (faults st3) with
              | Some msg =>
                  (Raised internal_error,
                   with_log ("Database error: " ++ msg) (rolled st3))
              | None => (Returned ("added", record), committed st3)
              end
          end
    end.
Proof.
  cbv zeta. unfold add_ip.
  unfold bind at 1. unfold try_except_sqlite3 at 1.
  destruct (hd None (faults st)) as [msg|] eqn:F0.
  { now rewrite execute_fault with (msg := msg)
      by (reflexivity || assumption). }
  rewrite execute_ok by (reflexivity || assumption).
  change "SELECT * FROM geolocation WHERE ip_address = ?" with select_by_ip.
  rewrite engine_select_by_ip.
  change (conn (called select_by_ip [PyStr (RecordInput.ip record)] st))
    with (conn st).
  destruct (negb (is_empty _)); [reflexivity|].
  unfold try_except_sqlite3.
  change [PyStr (RecordInput.ip record); PyStr (RecordInput.country record);
          PyStr (RecordInput.region record); PyStr (RecordInput.city record);
          PyInt (RecordInput.zip_code record);
          PyFloat (RecordInput.latitude record);
          PyFloat (RecordInput.longitude record)]
    with (insert_params record).
  unfold bind at 1.
  pose proof (insert_bindable record) as Hb.
  destruct (Sqlite3.int64 (RecordInput.zip_code record)); cbn [negb].
  2: { now rewrite (execute_overflow _ _ _ Hb). }
  destruct (hd None (faults (called select_by_ip _ st))) as [msg|] eqn:F1.
  { rewrite (execute_fault _ _ _ _ Hb F1). reflexivity. }
  rewrite (execute_ok _ _ _ Hb F1), engine_insert.
  change (conn (called insert_query (insert_params record)
                  (called select_by_ip [PyStr (RecordInput.ip record)] st)))
    with (conn st).
  unfold bind at 1.
  destruct (hd None (faults (with_view _ _))) as [msg|] eqn:F3.
  { rewrite (commit_fault _ _ F3). reflexivity. }
  rewrite (commit_ok _ F3). reflexivity.
Qed.

Lemma ip_rows_In (ip : string) (rs : list Sqlite3.Row) (row : Sqlite3.Row) :
  In row rs -> Sqlite3.ip_address row = ip -> is_empty (ip_rows ip rs) = false.
Proof.
  intros Hin Hip.
  assert (H : In row (ip_rows ip rs)).
  { apply filter_In. split; [assumption|]. subst. apply String.eqb_refl. }
  destruct (ip_rows ip rs); [contradiction|reflexivity].
Qed.

Lemma ip_rows_app (ip : string) (rs rs' : list Sqlite3.Row) :
  ip_rows ip (rs ++ rs') = (ip_rows ip rs ++ ip_rows ip rs')%list.
Proof. apply filter_app. Qed.

(** What serving [add_ip] on a quiet storage leaves behind. *)
Lemma serve_add_ip (record : RecordInput.t) (db : Sqlite3.Database) :
  let ip := RecordInput.ip record in
  get_db_session (add_ip record) db []
  = if negb (is_empty (ip_rows ip (Sqlite3.rows db)))
    then mkServed (Raised (conflict ip)) db
           [(select_by_ip, [PyStr ip])] [] []
    else if negb (Sqlite3.int64 (RecordInput.zip_code record))
    then mkServed (Raised OverflowError) db
           [(select_by_ip, [PyStr ip]); (insert_query, insert_params record)]
           [] []
    else mkServed (Returned ("added", record)) (inserted record db)
           [(select_by_ip, [PyStr ip]); (insert_query, insert_params record)]
           [] [].
Proof.
  cbv zeta. unfold get_db_session. rewrite add_ip_run.
  cbn [faults hd called conn Sqlite3.connect Sqlite3.view with_view tl].
  destruct (negb (is_empty _)); [reflexivity|].
  destruct (negb (Sqlite3.int64 _)); reflexivity.
Qed.

(** C3.  When the table the request sees holds a row with the record's
    [ip] and the existence check runs, [add_ip] raises the duplicate-address
    error (status 400, "Address with ip=... already exists!") having
    executed the SELECT only: the connection, view and file, is as it was.
    In particular, of two creations of the same record, its zip_code one
    that SQLite's INTEGER holds, served one after the other on a quiet
    storage, the second raises that error and leaves the table as the first
    left it.  (With a zip_code past 64 bits neither creation stores anything:
    both raise [OverflowError].) *)
Theorem add_ip_existing_conflict (record : RecordInput.t) :
  (forall (st : State) (row : Sqlite3.Row),
     hd None (faults st) = None ->
     In row (Sqlite3.rows (Sqlite3.view (conn st))) ->
     Sqlite3.ip_address row = RecordInput.ip record ->
     add_ip record st
     = (Raised (conflict (RecordInput.ip record)),
        called select_by_ip [PyStr (RecordInput.ip record)] st)
     /\ conn (snd (add_ip record st)) = conn st)
  /\ (Sqlite3.int64 (RecordInput.zip_code record) = true ->
      forall db : Sqlite3.Database,
        let once := database (get_db_session (add_ip record) db []) in
        let twice := get_db_session (add_ip record) once [] in
        response twice = Raised (conflict (RecordInput.ip record))
        /\ database twice = once
        /\ statements twice
           = [(select_by_ip, [PyStr (RecordInput.ip record)])]).
Proof.
  split.
  - intros st row F Hin Hip.
    rewrite add_ip_run. cbv zeta. rewrite F.
    rewrite (ip_rows_In _ _ row Hin Hip). cbn [negb]. split; reflexivity.
  - intros Hz db. cbv zeta.
    assert (E : is_empty
                  (ip_rows (RecordInput.ip record)
                     (Sqlite3.rows (database (get_db_session (add_ip record) db []))))
                = false).
    { rewrite serve_add_ip. cbv zeta. rewrite Hz.
      destruct (is_empty (ip_rows _ (Sqlite3.rows db))) eqn:E;
        cbn [negb database]; [|exact E].
      unfold inserted. cbn [Sqlite3.rows]. rewrite ip_rows_app.
      unfold ip_rows at 2. cbn [filter new_row Sqlite3.ip_address].
      rewrite String.eqb_refl.
      destruct (ip_rows _ (Sqlite3.rows db)); reflexivity. }
    rewrite (serve_add_ip record (database _)). cbv zeta. rewrite E.
    cbn [negb response database statements]. repeat split.
Qed.

Definition poland : RecordInput.t :=
  RecordInput.mk "1.2.3.4" "poland" "silesia" "katowice" 40514
                 34.04%float (-118.02)%float.

Definition holds_poland : State :=
  mkState
    (Sqlite3.connect
       (Sqlite3.mkDatabase
          [katowice;
           Sqlite3.mkRow 2 "1.2.3.4" (Some "poland") (Some "silesia")
             (Some "katowice") (Some 40514) (Some 34.04%float)
             (Some (-118.02)%float)] 2))
    [] [] [].

Lemma add_ip_existing_conflict_witness :
  (fst (add_ip poland holds_poland)
   = Raised (HTTPException 400 "Address with ip=1.2.3.4 already exists!")
   /\ conn (snd (add_ip poland holds_poland)) = conn holds_poland)
  /\ (let once :=
        database (get_db_session (add_ip poland)
                    (Sqlite3.mkDatabase [katowice] 1) []) in
      let twice := get_db_session (add_ip poland) once [] in
      response twice = Raised (conflict (RecordInput.ip poland))
      /\ database twice = once
      /\ statements twice
         = [(select_by_ip, [PyStr (RecordInput.ip poland)])]).
Proof.
  split.
  - destruct (proj1 (add_ip_existing_conflict poland) holds_poland
                (Sqlite3.mkRow 2 "1.2.3.4" (Some "poland") (Some "silesia")
                   (Some "katowice") (Some 40514) (Some 34.04%float)
                   (Some (-118.02)%float))
                eq_refl (or_intror (or_introl eq_refl)) eq_refl) as [E C].
    split; [rewrite E; reflexivity|exact C].
  - exact (proj2 (add_ip_existing_conflict poland) eq_refl
             (Sqlite3.mkDatabase [katowice] 1)).
Defined.

(** * Update *)

Lemma firstn_skipn_app {A} (l l' : list A) :
  firstn (List.length l) (l ++ l') = l /\ skipn (List.length l) (l ++ l') = l'.
Proof.
  induction l as [|x l [IH1 IH2]]; [split; reflexivity|].
  cbn. rewrite IH1, IH2. split; reflexivity.
Qed.

Section UpdateFacts.

Variables (ip : string) (country region city : option string).
Variables (zip_code : option Z) (latitude longitude : option float).

Definition updatable_columns : list Sqlite3.column :=
  [Sqlite3.Col_country; Sqlite3.Col_region; Sqlite3.Col_city;
   Sqlite3.Col_zip; Sqlite3.Col_latitude; Sqlite3.Col_longitude].

(** The value the request supplies for a column; [ip_address] is not
    updatable. *)
Definition update_value (c : Sqlite3.column) : value :=
  match c with
  | Sqlite3.Col_ip_address => PyNone
  | Sqlite3.Col_country => of_str country
  | Sqlite3.Col_region => of_str region
  | Sqlite3.Col_city => of_str city
  | Sqlite3.Col_zip => of_int zip_code
  | Sqlite3.Col_latitude => of_float latitude
  | Sqlite3.Col_longitude => of_float longitude
  end.

Definition update_supplied (c : Sqlite3.column) : bool :=
  negb (is_None (update_value c)).

(** The columns a value is supplied for, in declaration order. *)
Definition update_columns : list Sqlite3.column :=
  filter update_supplied updatable_columns.

Definition update_params : list value :=
  (map update_value update_columns ++ [PyStr ip])%list.

Definition any_update : bool := existsb update_supplied updatable_columns.

Definition update : M (string * Record_.t) :=
  update_data ip country region city zip_code latitude longitude.

(** A row with the supplied fields overwritten and every other field,
    [id] and [ip_address] among them, as it was; a supplied coordinate is
    held as a REAL column holds it. *)
Definition rewritten (r : Sqlite3.Row) : Sqlite3.Row :=
  let keep {A} (new old : option A) : option A :=
    match new with Some x => Some x | None => old end in
  let keep_real (new old : option float) : option float :=
    match new with Some x => Sqlite3.store_real x | None => old end in
  Sqlite3.mkRow (Sqlite3.id r) (Sqlite3.ip_address r)
    (keep country (Sqlite3.country r))
    (keep region (Sqlite3.region r))
    (keep city (Sqlite3.city r))
    (keep zip_code (Sqlite3.zip r))
    (keep_real latitude (Sqlite3.latitude r))
    (keep_real longitude (Sqlite3.longitude r)).

(** The table after the update: every row of the target address rewritten,
    every other row as it was, in place. *)
Definition updated_rows (rs : list Sqlite3.Row) : list Sqlite3.Row :=
  map (fun r => if (Sqlite3.ip_address r =? ip)%string then rewritten r else r)
      rs.

Definition updated (db : Sqlite3.Database) : Sqlite3.Database :=
  Sqlite3.mkDatabase (updated_rows (Sqlite3.rows db)) (Sqlite3.seq db).

Lemma collect_update_mapper :
  collect (update_mapper country region city zip_code latitude longitude)
  = (map clause update_columns, map update_value update_columns).
Proof.
  change (update_mapper country region city zip_code latitude longitude)
    with (named (map (fun c => (c, update_value c)) updatable_columns)).
  rewrite collect_named, supplied_map_columns.
  unfold update_columns, update_supplied. now rewrite !map_map.
Qed.

(** The one [int] among the supplied values decides whether the
    parameters can be bound. *)
Lemma update_bindable :
  forallb Sqlite3.bindable update_params = Sqlite3.bindable (of_int zip_code).
Proof.
  unfold update_params, update_columns, update_supplied.
  rewrite forallb_app, bindable_supplied.
  cbn [forallb updatable_columns update_value Sqlite3.bindable].
  destruct country, region, city, zip_code, latitude, longitude;
    cbn [of_str of_int of_float is_None orb Sqlite3.bindable andb];
    rewrite ?andb_true_r; reflexivity.
Qed.

Lemma any_update_columns : any_update = true -> update_columns <> [].
Proof.
  unfold any_update, update_columns. intros H E.
  apply existsb_exists in H as [c [Hin Hc]].
  assert (In c (filter update_supplied updatable_columns))
    by (apply filter_In; now split).
  rewrite E in H. contradiction.
Qed.

Lemma assign_all_update (r : Sqlite3.Row) :
  Sqlite3.assign_all update_columns (map update_value update_columns) r
  = Some (rewritten r).
Proof.
  unfold update_columns, update_supplied, rewritten, update_value.
  destruct r as [i a co re ci z la lo].
  destruct country, region, city, zip_code, latitude, longitude; reflexivity.
Qed.

Lemma update_rows_updated (rs : list Sqlite3.Row) :
  Sqlite3.update_rows update_columns (map update_value update_columns)
    [Sqlite3.Col_ip_address] [PyStr ip] rs
  = Some (updated_rows rs).
Proof.
  induction rs as [|r rs IH]; [reflexivity|].
  cbn [Sqlite3.update_rows updated_rows map]. rewrite IH.
  cbn [Sqlite3.matches_all Sqlite3.matches]. rewrite andb_true_r.
  destruct (Sqlite3.ip_address r =? ip)%string; [|reflexivity].
  now rewrite assign_all_update.
Qed.

Lemma engine_update (st : State) :
  any_update = true ->
  engine (update_query (map clause update_columns)) update_params st
  = (Returned [], with_view (updated (Sqlite3.view (conn st))) st).
Proof.
  intros H. unfold engine.
  rewrite (prepare_update_query _ (any_update_columns H)).
  unfold Sqlite3.run, update_params. cbn [Sqlite3.placeholders].
  rewrite length_app, length_map. cbn [List.length].
  rewrite Nat.eqb_refl. cbn [negb].
  rewrite <- (length_map update_value update_columns) at 1 2.
  destruct (firstn_skipn_app (map update_value update_columns) [PyStr ip])
    as [-> ->].
  now rewrite update_rows_updated.
Qed.

Definition not_found (ip : string) : exn :=
  HTTPException 404 ("No data found for ip=" ++ ip ++ "!").

Definition first_record (rows : list Sqlite3.Row)
  : outcome (string * Record_.t) :=
  match __transform_rows_to_records rows with
  | Some (first :: _) => Returned ("updated", first)
  | Some [] => Raised IndexError
  | None => Raised ValidationError
  end.

(** Every path of [update_data], by the supplied fields, the failure
    schedule and the table. *)
Lemma update_data_run (st : State) :
  let table := Sqlite3.rows (Sqlite3.view (conn st)) in
  let st1 := called select_by_ip [PyStr ip] st in
  let st2 := called (update_query (map clause update_columns))
                    update_params st1 in
  let st3 := with_view (updated (Sqlite3.view (conn st))) st2 in
  let st4 := called select_by_ip [PyStr ip] (committed st3) in
  update st
  = if negb any_update
    then (Raised (HTTPException 400 "No parameters passed!"), st)
    else
      match hd None (faults st) with
      | Some _ => (Raised internal_error, st1)
      | None =>
          if is_empty (ip_rows ip table)
          then (Raised (not_found ip), st1)
          else if negb (Sqlite3.bindable (of_int zip_code))
          then (Raised OverflowError,
                traced (update_query (map clause update_columns))
                       update_params st1)
          else
            match hd None (faults st1) with
            | Some msg =>
                (Raised internal_error,
                 with_log ("Database error: " ++ msg) st2)
            | None =>
                match hd None (faults st3) with
                | Some msg =>
                    (Raised internal_error,
                     with_log ("Database error: " ++ msg) (rolled st3))
                | None =>
                    match hd None (faults (committed st3)) with
                    | Some msg =>
                        (Raised internal_error,
                         with_log ("Database error: " ++ msg) st4)
                    | None =>
                        (first_record (ip_rows ip (updated_rows table)), st4)
                    end
                end
            end
      end.
Proof.
  cbv zeta. unfold update, update_data.
  rewrite collect_update_mapper.
  replace (forallb is_None _) with (negb any_update)
    by (unfold any_update, update_supplied, update_value; cbn;
        destruct country, region, city, zip_code, latitude, longitude;
        reflexivity).
  destruct any_update eqn:Hany; cbn [negb]; [|reflexivity].
  change "SELECT * FROM geolocation WHERE ip_address = ?" with select_by_ip.
  fold update_params.
  unfold bind at 1. unfold try_except_sqlite3 at 1.
  destruct (hd None (faults st)) as [msg|] eqn:F0.
  { now rewrite (execute_fault select_by_ip [PyStr ip] _ _ eq_refl F0). }
  rewrite (execute_ok select_by_ip [PyStr ip] _ eq_refl F0),
    engine_select_by_ip.
  change (conn (called select_by_ip [PyStr ip] st)) with (conn st).
  destruct (is_empty (ip_rows ip _)); [reflexivity|].
  unfold bind at 1. unfold try_except_sqlite3.
  unfold bind at 1.
  pose proof update_bindable as Hb.
  destruct (Sqlite3.bindable (of_int zip_code)); cbn [negb].
  2: { now rewrite (execute_overflow _ _ _ Hb). }
  destruct (hd None (faults (called select_by_ip _ st))) as [msg|] eqn:F1.
  { rewrite (execute_fault _ _ _ _ Hb F1). reflexivity. }
  rewrite (execute_ok _ _ _ Hb F1), (engine_update _ Hany).
  change (conn (called (update_query (map clause update_columns))
                  update_params (called select_by_ip [PyStr ip] st)))
    with (conn st).
  unfold bind at 1.
  destruct (hd None (faults (with_view _ _))) as [msg|] eqn:F3.
  { rewrite (commit_fault _ _ F3). reflexivity. }
  rewrite (commit_ok _ F3).
  destruct (hd None (faults (committed _))) as [msg|] eqn:F4.
  { rewrite (execute_fault select_by_ip [PyStr ip] _ _ eq_refl F4).
    reflexivity. }
  rewrite (execute_ok select_by_ip [PyStr ip] _ eq_refl F4),
    engine_select_by_ip.
  unfold bind, transform, first_record.
  cbn [called committed with_view conn Sqlite3.view updated Sqlite3.rows].
  destruct (__transform_rows_to_records _) as [[|first rest]|]; reflexivity.
Qed.

End UpdateFacts.

Lemma ip_rows_none (ip : string) (rs : list Sqlite3.Row) :
  (forall row, In row rs -> Sqlite3.ip_address row <> ip) ->
  ip_rows ip rs = [].
Proof.
  intros H. induction rs as [|r rs IH]; [reflexivity|].
  cbn. destruct (String.eqb_spec (Sqlite3.ip_address r) ip) as [E|_].
  - elim (H r); [now left|exact E].
  - apply IH. intros row Hin. apply H. now right.
Qed.

(** C6.  With no update field supplied [update_data] raises the 400
    error and leaves the state it was given untouched, so nothing was asked
    of the storage, whether or not the target address exists.  With at least
    one field supplied, the existence check running, and no row of the
    table carrying the target address, it raises the 404 error, having
    executed the existence check only. *)
Theorem update_bad_request_before_not_found (ip : string) :
  (forall st : State,
     update_data ip None None None None None None st
     = (Raised (HTTPException 400 "No parameters passed!"), st))
  /\ (forall (country region city : option string) (zip_code : option Z)
             (latitude longitude : option float) (st : State),
        any_update country region city zip_code latitude longitude = true ->
        hd None (faults st) = None ->
        (forall row, In row (Sqlite3.rows (Sqlite3.view (conn st))) ->
                     Sqlite3.ip_address row <> ip) ->
        update_data ip country region city zip_code latitude longitude st
        = (Raised (HTTPException 404 ("No data found for ip=" ++ ip ++ "!")),
           called select_by_ip [PyStr ip] st)).
Proof.
  split.
  - intros st. reflexivity.
  - intros country region city zip_code latitude longitude st Hany F Hno.
    pose proof (update_data_run ip country region city zip_code
                  latitude longitude st) as R.
    cbv zeta in R. unfold update in R. rewrite R, Hany, F.
    now rewrite (ip_rows_none _ _ Hno).
Qed.

Lemma update_bad_request_before_not_found_witness :
  update_data "9.9.9.9" None None None None None None two_rows
  = (Raised (HTTPException 400 "No parameters passed!"), two_rows)
  /\ fst (update_data "9.9.9.9" None None (Some "Krakow") None None None
            two_rows)
     = Raised (HTTPException 404 "No data found for ip=9.9.9.9!").
Proof.
  destruct (update_bad_request_before_not_found "9.9.9.9") as [B N].
  split; [apply B|].
  rewrite (N None None (Some "Krakow") None None None two_rows
             eq_refl eq_refl).
  - reflexivity.
  - intros row [<-|[<-|[]]]; discriminate.
Defined.

Section UpdateOutcome.

Variables (ip : string) (country region city : option string).
Variables (zip_code : option Z) (latitude longitude : option float).

Local Abbreviation run :=
  (update ip country region city zip_code latitude longitude).
Local Abbreviation columns :=
  (update_columns country region city zip_code latitude longitude).
Local Abbreviation value_of :=
  (update_value country region city zip_code latitude longitude).
Local Abbreviation rewrite_row :=
  (rewritten country region city zip_code latitude longitude).
Local Abbreviation rewrite_rows :=
  (updated_rows ip country region city zip_code latitude longitude).

(** What a returned update tells: a field was supplied, the address was
    there, the parameters were bound, no storage call failed, and the record
    comes from the re-read. *)
Lemma update_returned (st st' : State) (key : string) (rec : Record_.t) :
  run st = (Returned (key, rec), st') ->
  let table := Sqlite3.rows (Sqlite3.view (conn st)) in
  any_update country region city zip_code latitude longitude = true
  /\ ip_rows ip table <> []
  /\ first_record (ip_rows ip (rewrite_rows table)) = Returned (key, rec)
  /\ conn st'
     = Sqlite3.mkConnection
         (updated ip country region city zip_code latitude longitude
                  (Sqlite3.view (conn st)))
         (updated ip country region city zip_code latitude longitude
                  (Sqlite3.view (conn st)))
  /\ executed st'
     = (executed st
          ++ [(select_by_ip, [PyStr ip]);
              (update_query (map clause columns),
               (map value_of columns ++ [PyStr ip])%list);
              (select_by_ip, [PyStr ip])])%list
  /\ log st' = log st
  /\ Sqlite3.bindable (of_int zip_code) = true.
Proof.
  rewrite update_data_run. cbv zeta.
  destruct (any_update _ _ _ _ _ _); cbn [negb]; [|discriminate].
  destruct (hd None (faults st)); [discriminate|].
  destruct (ip_rows ip (Sqlite3.rows (Sqlite3.view (conn st)))) eqn:E;
    cbn [is_empty]; [discriminate|].
  destruct (Sqlite3.bindable (of_int zip_code)); cbn [negb]; [|discriminate].
  destruct (hd None (faults (called _ _ st))); [discriminate|].
  destruct (hd None (faults (with_view _ _))); [discriminate|].
  destruct (hd None (faults (committed _))); [discriminate|].
  intros [= H <-]. repeat split; try assumption; try discriminate.
  cbn [called committed with_view executed]. rewrite <- !app_assoc.
  reflexivity.
Qed.

Lemma rewritten_ip (r : Sqlite3.Row) :
  Sqlite3.ip_address (rewrite_row r) = Sqlite3.ip_address r.
Proof. reflexivity. Qed.

(** Re-reading after the update finds the rewritten rows of the address,
    in their order. *)
Lemma ip_rows_updated (rs : list Sqlite3.Row) :
  ip_rows ip (rewrite_rows rs) = map rewrite_row (ip_rows ip rs).
Proof.
  induction rs as [|r rs IH]; [reflexivity|].
  unfold updated_rows in *. cbn [map ip_rows filter].
  destruct (Sqlite3.ip_address r =? ip)%string eqn:E.
  - rewrite rewritten_ip, E. cbn [map]. f_equal. apply IH.
  - rewrite E. apply IH.
Qed.

Lemma first_record_returned (rows : list Sqlite3.Row) (key : string)
    (rec : Record_.t) :
  first_record rows = Returned (key, rec) ->
  key = "updated"
  /\ exists first rest, rows = first :: rest /\ Record_of_row first = Some rec.
Proof.
  unfold first_record.
  destruct rows as [|first rest]; cbn; [discriminate|].
  destruct (Record_of_row first) as [r|] eqn:E; [|discriminate].
  destruct (__transform_rows_to_records rest); [|discriminate].
  intros [= <- <-]. split; [reflexivity|]. now exists first, rest.
Qed.

(** How a row of the table after the update relates to the row that was at
    its position before. *)
Definition framed (old new : Sqlite3.Row) : Prop :=
  Sqlite3.id new = Sqlite3.id old
  /\ Sqlite3.ip_address new = Sqlite3.ip_address old
  /\ (country = None -> Sqlite3.country new = Sqlite3.country old)
  /\ (region = None -> Sqlite3.region new = Sqlite3.region old)
  /\ (city = None -> Sqlite3.city new = Sqlite3.city old)
  /\ (zip_code = None -> Sqlite3.zip new = Sqlite3.zip old)
  /\ (latitude = None -> Sqlite3.latitude new = Sqlite3.latitude old)
  /\ (longitude = None -> Sqlite3.longitude new = Sqlite3.longitude old)
  /\ (Sqlite3.ip_address old <> ip -> new = old).

(** The supplied values, in the rows of the target address: a text or an
    integer as supplied, a coordinate as the REAL column holds it ([-0.0] as
    [0.0], NaN as NULL). *)
Definition written (old new : Sqlite3.Row) : Prop :=
  Sqlite3.ip_address old = ip ->
  (forall s, country = Some s -> Sqlite3.country new = Some s)
  /\ (forall s, region = Some s -> Sqlite3.region new = Some s)
  /\ (forall s, city = Some s -> Sqlite3.city new = Some s)
  /\ (forall z, zip_code = Some z -> Sqlite3.zip new = Some z)
  /\ (forall x, latitude = Some x ->
        Sqlite3.latitude new = Sqlite3.store_real x)
  /\ (forall x, longitude = Some x ->
        Sqlite3.longitude new = Sqlite3.store_real x).

(** The supplied values, in the record returned: a supplied zip_code fits
    64 bits, a supplied coordinate is no NaN and comes back as the column
    holds it. *)
Definition reflected (rec : Record_.t) : Prop :=
  Record_.ip_address rec = ip
  /\ (forall s, country = Some s -> Record_.country rec = s)
  /\ (forall s, region = Some s -> Record_.region rec = s)
  /\ (forall s, city = Some s -> Record_.city rec = s)
  /\ (forall z, zip_code = Some z ->
        Sqlite3.int64 z = true /\ Record_.zip_code rec = z)
  /\ (forall x, latitude = Some x ->
        PrimFloat.is_nan x = false
        /\ Record_.latitude rec = Sqlite3.stored_real x)
  /\ (forall x, longitude = Some x ->
        PrimFloat.is_nan x = false
        /\ Record_.longitude rec = Sqlite3.stored_real x).

Lemma store_real_some (x y : float) :
  Sqlite3.store_real x = Some y ->
  PrimFloat.is_nan x = false /\ y = Sqlite3.stored_real x.
Proof.
  unfold Sqlite3.store_real. destruct (PrimFloat.is_nan x); [discriminate|].
  intros [= <-]. now split.
Qed.

Lemma written_reflected (old new : Sqlite3.Row) (rec : Record_.t) :
  Sqlite3.bindable (of_int zip_code) = true ->
  Sqlite3.ip_address old = ip ->
  Sqlite3.ip_address new = Sqlite3.ip_address old ->
  written old new -> carries new rec -> reflected rec.
Proof.
  intros Hb Hip Hsame W (Ca & Cco & Cre & Cci & Cz & Cla & Clo).
  destruct (W Hip) as (Wco & Wre & Wci & Wz & Wla & Wlo).
  unfold reflected. repeat split.
  - congruence.
  - intros s E. specialize (Wco s E). congruence.
  - intros s E. specialize (Wre s E). congruence.
  - intros s E. specialize (Wci s E). congruence.
  - rewrite H in Hb. exact Hb.
  - specialize (Wz z H). congruence.
  - specialize (Wla x H). rewrite Wla in Cla. symmetry in Cla.
    now apply store_real_some in Cla.
  - specialize (Wla x H). rewrite Wla in Cla. symmetry in Cla.
    now apply store_real_some in Cla.
  - specialize (Wlo x H). rewrite Wlo in Clo. symmetry in Clo.
    now apply store_real_some in Clo.
  - specialize (Wlo x H). rewrite Wlo in Clo. symmetry in Clo.
    now apply store_real_some in Clo.
Qed.

Lemma rewritten_framed (r : Sqlite3.Row) :
  let new := if (Sqlite3.ip_address r =? ip)%string then rewrite_row r else r in
  framed r new /\ written r new.
Proof.
  cbv zeta.
  destruct (String.eqb_spec (Sqlite3.ip_address r) ip) as [E|N].
  - split.
    + unfold framed, rewritten. cbn.
      repeat split; try (intros ->; reflexivity). intros C. now elim C.
    + intros _. unfold rewritten. cbn.
      repeat split; intros ? ->; reflexivity.
  - split; [|intros E; now elim N].
    unfold framed. repeat split.
Qed.

Lemma updated_rows_frame (rs : list Sqlite3.Row) :
  Forall2 (fun old new => framed old new /\ written old new)
          rs (rewrite_rows rs).
Proof.
  induction rs as [|r rs IH]; [constructor|].
  constructor; [apply rewritten_framed|exact IH].
Qed.

(** C7.  When [update_data] returns: the committed table is the old one
    with, position by position, the same [id] and [ip_address], every field
    that was not supplied as it was, every row of another address untouched,
    and the supplied values in the rows of the target address, a coordinate
    as the REAL column holds it; the statements executed are the existence
    check, the UPDATE whose text has one [column = ?] per supplied field and
    whose parameters are the supplied values in declaration order followed
    by the target address, and the re-read; and the value returned is, under
    "updated", the record of the first re-read row, which carries the target
    address and the supplied values (a supplied [-0.0] as [0.0]; the handler
    does not return when a supplied coordinate is NaN or a supplied zip_code
    is past 64 bits). *)
Theorem update_changes_only_supplied_fields (st st' : State) (key : string)
    (rec : Record_.t) :
  run st = (Returned (key, rec), st') ->
  let table := Sqlite3.rows (Sqlite3.view (conn st)) in
  let table' := Sqlite3.rows (Sqlite3.file (conn st')) in
  Forall2 (fun old new => framed old new /\ written old new) table table'
  /\ Sqlite3.view (conn st') = Sqlite3.file (conn st')
  /\ executed st'
     = (executed st
          ++ [(select_by_ip, [PyStr ip]);
              (("UPDATE geolocation SET " ++ join ", " (map clause columns)
                  ++ " WHERE ip_address = ?")%string,
               (map value_of columns ++ [PyStr ip])%list);
              (select_by_ip, [PyStr ip])])%list
  /\ columns = filter (fun c => negb (is_None (value_of c))) updatable_columns
  /\ Sqlite3.prepare ("UPDATE geolocation SET "
                        ++ join ", " (map clause columns)
                        ++ " WHERE ip_address = ?")
     = Some (Sqlite3.Update columns [Sqlite3.Col_ip_address])
  /\ key = "updated"
  /\ (exists first rest,
        ip_rows ip table' = first :: rest /\ Record_of_row first = Some rec)
  /\ reflected rec.
Proof.
  intros H. apply update_returned in H.
  destruct H as (Hany & _ & Hrec & Hconn & Hex & _ & Hb). cbv zeta.
  rewrite Hconn. cbn [Sqlite3.file Sqlite3.view updated Sqlite3.rows].
  apply first_record_returned in Hrec as [-> Hfirst].
  split; [apply updated_rows_frame|].
  split; [reflexivity|]. split; [exact Hex|]. split; [reflexivity|].
  split; [apply (prepare_update_query columns), any_update_columns, Hany|].
  split; [reflexivity|]. split; [exact Hfirst|].
  destruct Hfirst as (first & rest & E & R).
  rewrite ip_rows_updated in E.
  destruct (ip_rows ip (Sqlite3.rows (Sqlite3.view (conn st))))
    as [|old olds] eqn:Eo; [discriminate|].
  cbn [map] in E. injection E as <- _.
  assert (Hin : In old (ip_rows ip (Sqlite3.rows (Sqlite3.view (conn st)))))
    by (rewrite Eo; now left).
  apply filter_In in Hin as [_ Hip]. apply String.eqb_eq in Hip.
  pose proof (rewritten_framed old) as [_ W]. cbv zeta in W.
  rewrite Hip, String.eqb_refl in W.
  apply (written_reflected old (rewrite_row old) rec Hb Hip eq_refl W).
  now apply Record_of_row_carries.
Qed.

(** C10.  When [update_data] returns: the UPDATE's WHERE clause is the one
    equality on [ip_address], every row of the old table that carries the
    target address stands rewritten at its position in the committed table,
    however many there are, and the record returned is the one of the first
    of them in table order, the others contributing nothing to it. *)
Theorem update_rewrites_all_rows_returns_first (st st' : State)
    (key : string) (rec : Record_.t) :
  run st = (Returned (key, rec), st') ->
  let table := Sqlite3.rows (Sqlite3.view (conn st)) in
  let table' := Sqlite3.rows (Sqlite3.file (conn st')) in
  Sqlite3.prepare (update_query (map clause columns))
  = Some (Sqlite3.Update columns [Sqlite3.Col_ip_address])
  /\ (forall (i : nat) (old : Sqlite3.Row),
        nth_error table i = Some old ->
        Sqlite3.ip_address old = ip ->
        nth_error table' i = Some (rewrite_row old)
        /\ written old (rewrite_row old))
  /\ exists first rest,
       ip_rows ip table = first :: rest
       /\ ip_rows ip table' = rewrite_row first :: map rewrite_row rest
       /\ Record_of_row (rewrite_row first) = Some rec.
Proof.
  intros H. apply update_returned in H.
  destruct H as (Hany & Hne & Hrec & Hconn & _ & _). cbv zeta.
  rewrite Hconn. cbn [Sqlite3.file Sqlite3.view updated Sqlite3.rows].
  split; [apply (prepare_update_query columns), any_update_columns, Hany|].
  split.
  - intros i old Hi Hip. split.
    + unfold updated_rows. rewrite nth_error_map, Hi. cbn [option_map].
      rewrite Hip, String.eqb_refl. reflexivity.
    + pose proof (rewritten_framed old) as [_ W]. cbv zeta in W.
      rewrite Hip, String.eqb_refl in W. exact W.
  - rewrite ip_rows_updated in *.
    apply first_record_returned in Hrec as [_ (first' & rest' & E & R)].
    destruct (ip_rows ip (Sqlite3.rows (Sqlite3.view (conn st))))
      as [|first rest]; [congruence|].
    cbn [map] in E. injection E as <- <-.
    now exists first, rest.
Qed.

End UpdateOutcome.

Definition krakow_record : Record_.t :=
  Record_.mk "1.2.3.4" "poland" "silesia" "Krakow" 40514
             0%float (-118.02)%float.

Definition after_krakow : State :=
  Eval vm_compute in
    snd (update "1.2.3.4" None None (Some "Krakow") None
           (Some PrimFloat.neg_zero) None holds_poland).

Lemma update_changes_only_supplied_fields_witness :
  update "1.2.3.4" None None (Some "Krakow") None (Some PrimFloat.neg_zero)
         None holds_poland
  = (Returned ("updated", krakow_record), after_krakow)
  /\ Sqlite3.rows (Sqlite3.file (conn after_krakow))
     = [katowice;
        Sqlite3.mkRow 2 "1.2.3.4" (Some "poland") (Some "silesia")
          (Some "Krakow") (Some 40514) (Some 0%float)
          (Some (-118.02)%float)]
  /\ (exists first rest,
        ip_rows "1.2.3.4" (Sqlite3.rows (Sqlite3.file (conn after_krakow)))
        = first :: rest
        /\ Record_of_row first = Some krakow_record)
  /\ reflected "1.2.3.4" None None (Some "Krakow") None
       (Some PrimFloat.neg_zero) None krakow_record.
Proof.
  assert (H : update "1.2.3.4" None None (Some "Krakow") None
                (Some PrimFloat.neg_zero) None holds_poland
              = (Returned ("updated", krakow_record), after_krakow))
    by (vm_compute; reflexivity).
  split; [exact H|]. split; [reflexivity|].
  pose proof (update_changes_only_supplied_fields
                "1.2.3.4" None None (Some "Krakow") None
                (Some PrimFloat.neg_zero) None
                holds_poland after_krakow "updated" krakow_record H) as T.
  cbv zeta in T.
  exact (proj2 (proj2 (proj2 (proj2 (proj2 (proj2 T)))))).
Defined.

(** Two rows of one address, as nothing in the schema forbids. *)
Definition warsaw : Sqlite3.Row :=
  Sqlite3.mkRow 3 "1.2.3.4" (Some "Poland") (Some "Mazovia")
    (Some "Warsaw") (Some 10) (Some 52.25%float) (Some 21.0%float).

Definition silesia : Sqlite3.Row :=
  Sqlite3.mkRow 1 "1.2.3.4" (Some "Poland") (Some "Silesia")
    (Some "Katowice") (Some 40514) (Some 34.04%float)
    (Some (-118.02)%float).

Definition twice_stored : State :=
  mkState (Sqlite3.connect (Sqlite3.mkDatabase [silesia; berlin; warsaw] 3))
          [] [] [].

Definition silesia_record : Record_.t :=
  Record_.mk "1.2.3.4" "Poland" "Silesia" "Krakow" 40514
             34.04%float (-118.02)%float.

Definition after_twice : State :=
  Eval vm_compute in
    snd (update "1.2.3.4" None None (Some "Krakow") None None None
           twice_stored).

Lemma update_rewrites_all_rows_returns_first_witness :
  update "1.2.3.4" None None (Some "Krakow") None None None twice_stored
  = (Returned ("updated", silesia_record), after_twice)
  /\ map Sqlite3.city (Sqlite3.rows (Sqlite3.file (conn after_twice)))
     = [Some "Krakow"; Some "Berlin"; Some "Krakow"]
  /\ exists first rest,
       ip_rows "1.2.3.4" (Sqlite3.rows (Sqlite3.view (conn twice_stored)))
       = first :: rest
       /\ ip_rows "1.2.3.4" (Sqlite3.rows (Sqlite3.file (conn after_twice)))
          = rewritten None None (Some "Krakow") None None None first
            :: map (rewritten None None (Some "Krakow") None None None) rest
       /\ Record_of_row
            (rewritten None None (Some "Krakow") None None None first)
          = Some silesia_record.
Proof.
  assert (H : update "1.2.3.4" None None (Some "Krakow") None None None
                twice_stored
              = (Returned ("updated", silesia_record), after_twice))
    by (vm_compute; reflexivity).
  split; [exact H|]. split; [reflexivity|].
  pose proof (update_rewrites_all_rows_returns_first
                "1.2.3.4" None None (Some "Krakow") None None None
                twice_stored after_twice "updated" silesia_record H) as T.
  cbv zeta in T.
  exact (proj2 (proj2 T)).
Defined.

(** * Point lookup *)

Lemma get_ip_info_run (ip : string) (st : State) :
  let st1 := called select_by_ip [PyStr ip] st in
  let rows := ip_rows ip (Sqlite3.rows (Sqlite3.view (conn st))) in
  get_ip_info ip st
  = match hd None (faults st) with
    | Some msg => (Raised (sqlite3_Error msg), st1)
    | None =>
        if is_empty rows then (Raised (not_found ip), st1)
        else match __transform_rows_to_records rows with
             | Some records => (Returned ("result", records), st1)
             | None => (Raised ValidationError, st1)
             end
    end.
Proof.
  cbv zeta. unfold get_ip_info.
  change "SELECT * FROM geolocation WHERE ip_address = ?" with select_by_ip.
  unfold bind at 1.
  destruct (hd None (faults st)) as [msg|] eqn:F0.
  { now rewrite (execute_fault select_by_ip [PyStr ip] _ _ eq_refl F0). }
  rewrite (execute_ok select_by_ip [PyStr ip] _ eq_refl F0),
    engine_select_by_ip.
  change (conn (called select_by_ip [PyStr ip] st)) with (conn st).
  destruct (is_empty _); [reflexivity|].
  unfold bind, transform.
  destruct (__transform_rows_to_records _); reflexivity.
Qed.

(** * Storage failures *)

(** A schedule whose first [k] storage calls succeed and whose next one
    fails with [msg]. *)
Definition fails_at (k : nat) (msg : string) (rest : list (option string))
  : list (option string) :=
  (repeat None k ++ Some msg :: rest)%list.

(** A served request whose storage failure [msg] was turned, where it
    happened, into the 500 error with the empty detail, and noted by
    [logging.error]. *)
Definition caught_and_logged {A} (msg : string) (s : Served A) : Prop :=
  response s = Raised (HTTPException 500 "")
  /\ In ("Database error: " ++ msg) (logged s).

Definition empty_table : Sqlite3.Database := Sqlite3.mkDatabase [] 0.

(** C9, as stated, fails.  A failing SELECT of the point lookup leaves the
    handler as the [sqlite3.Error] itself, and a failing existence check of
    the create handler is answered with the 500 error but written to no
    log. *)
Lemma storage_failure_not_always_caught_and_logged :
  ~ caught_and_logged "disk I/O error"
      (get_db_session (get_ip_info "1.2.3.4") empty_table [Some "disk I/O error"])
  /\ ~ caught_and_logged "disk I/O error"
         (get_db_session (add_ip poland) empty_table [Some "disk I/O error"]).
Proof.
  split; intros [R L].
  - discriminate R.
  - exact L.
Qed.

(** C9, amended.  In the create and the update handler a failing storage
    call is answered with the 500 error with the empty detail, whichever
    call it is, and the storage error itself never leaves these handlers;
    when the failing call is the INSERT or the UPDATE, the commit, or the
    update's re-read, [logging.error] has noted the cause.  A failure before
    the commit leaves the stored table as it was; a failing re-read comes
    after the commit, the table then holding the update.  The point lookup
    and the filter search have no [except] clause: the storage error leaves
    the handler as it is, noted by no [logging.error], and is printed by the
    connection generator.  A statement reaches the storage when its
    parameters can be bound, which is what the bound on the zip_code says:
    one past 64 bits raises [OverflowError] before the storage is asked
    anything, and no handler catches that; the search's LIMIT is one the
    engine accepts. *)
Theorem storage_failures_by_handler (msg : string)
    (rest : list (option string)) (db : Sqlite3.Database) :
  (forall (record : RecordInput.t) (st : State) (m : string),
     fst (add_ip record st) <> Raised (sqlite3_Error m))
  /\ (forall (ip : string) (country region city : option string)
             (zip_code : option Z) (latitude longitude : option float)
             (st : State) (m : string),
        fst (update_data ip country region city zip_code latitude longitude
               st) <> Raised (sqlite3_Error m))
  /\ (forall record : RecordInput.t,
        let s := get_db_session (add_ip record) db (fails_at 0 msg rest) in
        response s = Raised (HTTPException 500 "") /\ database s = db)
  /\ (forall (record : RecordInput.t) (k : nat),
        ip_rows (RecordInput.ip record) (Sqlite3.rows db) = [] ->
        Sqlite3.int64 (RecordInput.zip_code record) = true ->
        k = 1%nat \/ k = 2%nat ->
        let s := get_db_session (add_ip record) db (fails_at k msg rest) in
        response s = Raised (HTTPException 500 "")
        /\ logged s = ["Database error: " ++ msg]
        /\ database s = db)
  /\ (forall (ip : string) (country region city : option string)
             (zip_code : option Z) (latitude longitude : option float),
        any_update country region city zip_code latitude longitude = true ->
        let s := get_db_session (update_data ip country region city zip_code
                          latitude longitude) db (fails_at 0 msg rest) in
        response s = Raised (HTTPException 500 "") /\ database s = db)
  /\ (forall (ip : string) (country region city : option string)
             (zip_code : option Z) (latitude longitude : option float)
             (k : nat),
        any_update country region city zip_code latitude longitude = true ->
        ip_rows ip (Sqlite3.rows db) <> [] ->
        Sqlite3.bindable (of_int zip_code) = true ->
        k = 1%nat \/ k = 2%nat \/ k = 3%nat ->
        let s := get_db_session (update_data ip country region city zip_code
                          latitude longitude) db (fails_at k msg rest) in
        response s = Raised (HTTPException 500 "")
        /\ logged s = ["Database error: " ++ msg]
        /\ database s
           = if (k =? 3)%nat
             then updated ip country region city zip_code latitude longitude
                          db
             else db)
  /\ (forall ip : string,
        let s := get_db_session (get_ip_info ip) db (fails_at 0 msg rest) in
        response s = Raised (sqlite3_Error msg)
        /\ logged s = []
        /\ printed s = ["DB Exception occured '" ++ msg ++ "'"])
  /\ (forall (ip country region city : option string) (zip_code : option Z)
             (latitude longitude : option float) (limit : option Z),
        any_filter ip country region city zip_code latitude longitude = true ->
        Sqlite3.bindable (of_int zip_code) = true ->
        Sqlite3.limit_fits (written_limit limit) = true ->
        let s := get_db_session (get_ip_info_by_parameters ip country region city
                          zip_code latitude longitude limit)
                   db (fails_at 0 msg rest) in
        response s = Raised (sqlite3_Error msg)
        /\ logged s = []
        /\ printed s = ["DB Exception occured '" ++ msg ++ "'"]).
Proof.
  repeat apply conj.
  - intros record st m. rewrite add_ip_run. cbv zeta.
    destruct (hd None (faults st)); [discriminate|].
    destruct (negb _); [discriminate|].
    destruct (negb _); [discriminate|].
    destruct (hd None (faults (called _ _ st))); [discriminate|].
    destruct (hd None (faults (with_view _ _))); discriminate.
  - intros ip country region city zip_code latitude longitude st m.
    pose proof (update_data_run ip country region city zip_code
                  latitude longitude st) as R.
    cbv zeta in R. unfold update in R. rewrite R. clear R.
    destruct (negb _); [discriminate|].
    destruct (hd None (faults st)); [discriminate|].
    destruct (is_empty _); [discriminate|].
    destruct (negb _); [discriminate|].
    destruct (hd None (faults (called _ _ st))); [discriminate|].
    destruct (hd None (faults (with_view _ _))); [discriminate|].
    destruct (hd None (faults (committed _))); [discriminate|].
    unfold first_record.
    destruct (__transform_rows_to_records _) as [[|? ?]|]; discriminate.
  - intros record. cbv zeta. unfold get_db_session. rewrite add_ip_run.
    split; reflexivity.
  - intros record k Hno Hz Hk. cbv zeta. unfold get_db_session.
    rewrite add_ip_run.
    cbv zeta. cbn [conn Sqlite3.connect Sqlite3.view]. rewrite Hno, Hz.
    destruct Hk as [-> | ->]; repeat split.
  - intros ip country region city zip_code latitude longitude Hany.
    cbv zeta. unfold get_db_session.
    pose proof (update_data_run ip country region city zip_code
                  latitude longitude) as R.
    cbv zeta in R. unfold update in R. rewrite R, Hany.
    split; reflexivity.
  - intros ip country region city zip_code latitude longitude k Hany Hne Hb Hk.
    cbv zeta. unfold get_db_session.
    pose proof (update_data_run ip country region city zip_code
                  latitude longitude) as R.
    cbv zeta in R. unfold update in R. rewrite R, Hany, Hb. clear R.
    cbn [negb conn Sqlite3.connect Sqlite3.view].
    destruct (ip_rows ip (Sqlite3.rows db)); [congruence|].
    destruct Hk as [-> | [-> | ->]]; repeat split.
  - intros ip. cbv zeta. unfold get_db_session. rewrite get_ip_info_run.
    repeat split.
  - intros ip country region city zip_code latitude longitude limit Hany Hb _.
    cbv zeta. unfold get_db_session.
    pose proof (search_run ip country region city zip_code
                  latitude longitude limit) as R.
    cbv zeta in R. unfold search in R. rewrite R by exact Hany. rewrite Hb.
    repeat split.
Qed.

Lemma storage_failures_by_handler_witness :
  let s := get_db_session (add_ip poland) empty_table
             (fails_at 2 "disk I/O error" []) in
  response s = Raised (HTTPException 500 "")
  /\ logged s = ["Database error: disk I/O error"]
  /\ database s = empty_table.
Proof.
  destruct (storage_failures_by_handler "disk I/O error" [] empty_table)
    as (_ & _ & _ & H & _).
  exact (H poland 2%nat eq_refl eq_refl (or_intror eq_refl)).
Defined.

(** * Create, then look up *)

(** The validator of [RecordInput] is never registered: the name
    [sanitize_strings] is bound to a [classmethod] object, which the scan of
    the class namespace skips. *)
Lemma RecordInput_validators_none : RecordInput_validators = [].
Proof. reflexivity. Qed.

(** With the two decorators in the other order the same scan registers it. *)
Remark field_validator_outermost_is_registered :
  map Pydantic.cls_var_name
    (Pydantic.build
       [("sanitize_strings",
         Pydantic.field_validator ["ip"; "country"; "region"; "city"]
           Pydantic.before
           (Pydantic.classmethod (Pydantic.Function sanitize_strings)))])
  = ["sanitize_strings"].
Proof. reflexivity. Qed.

(** So a validated record holds the strings of the request as they came. *)
Lemma RecordInput_validate_verbatim (lax : Pydantic.Lax)
    (body : list (string * value)) (record : RecordInput.t) :
  RecordInput_validate lax body = Some record ->
  lookup "ip" body = PyStr (RecordInput.ip record)
  /\ lookup "country" body = PyStr (RecordInput.country record)
  /\ lookup "region" body = PyStr (RecordInput.region record)
  /\ lookup "city" body = PyStr (RecordInput.city record).
Proof.
  unfold RecordInput_validate. rewrite RecordInput_validators_none.
  cbn [Pydantic.apply_validators].
  unfold Pydantic.validate_str.
  destruct (lookup "ip" body) as [| | |ip]; try discriminate.
  destruct (_ && _)%bool; [|discriminate].
  destruct (lookup "country" body) as [| | |country]; try discriminate.
  destruct (_ && _)%bool; [|discriminate].
  destruct (lookup "region" body) as [| | |region]; try discriminate.
  destruct (_ && _)%bool; [|discriminate].
  destruct (lookup "city" body) as [| | |city]; try discriminate.
  destruct (_ && _)%bool; [|discriminate].
  destruct (Pydantic.validate_int lax 1 _) as [z|]; [|discriminate].
  destruct (Pydantic.validate_float lax (lookup "latitude" body)) as [la|];
    [|discriminate].
  destruct (Pydantic.validate_float lax (lookup "longitude" body)) as [lo|];
    [|discriminate].
  intros [= <-]. repeat split.
Qed.

(** The output record with the fields of an input record. *)
Definition as_record (record : RecordInput.t) : Record_.t :=
  Record_.mk (RecordInput.ip record) (RecordInput.country record)
    (RecordInput.region record) (RecordInput.city record)
    (RecordInput.zip_code record) (RecordInput.latitude record)
    (RecordInput.longitude record).

(** The output record a stored input record is read back as: the strings
    and the zip_code as they are, the coordinates as the REAL columns hold
    them. *)
Definition as_stored (record : RecordInput.t) : Record_.t :=
  Record_.mk (RecordInput.ip record) (RecordInput.country record)
    (RecordInput.region record) (RecordInput.city record)
    (RecordInput.zip_code record)
    (Sqlite3.stored_real (RecordInput.latitude record))
    (Sqlite3.stored_real (RecordInput.longitude record)).

(** A record that [add_ip] can store whole: its zip_code fits 64 bits and
    neither coordinate is NaN. *)
Definition storable (record : RecordInput.t) : bool :=
  Sqlite3.int64 (RecordInput.zip_code record)
  && negb (PrimFloat.is_nan (RecordInput.latitude record))
  && negb (PrimFloat.is_nan (RecordInput.longitude record)).

Lemma storable_new_row (record : RecordInput.t) (db : Sqlite3.Database) :
  storable record = true ->
  Sqlite3.int64 (RecordInput.zip_code record) = true
  /\ Record_of_row (new_row record db) = Some (as_stored record).
Proof.
  unfold storable. intros H.
  apply andb_prop in H as [H Hlo]. apply andb_prop in H as [Hz Hla].
  split; [exact Hz|].
  unfold Record_of_row, new_row, as_stored, Sqlite3.store_real.
  cbn [Sqlite3.country Sqlite3.region Sqlite3.city Sqlite3.zip
       Sqlite3.latitude Sqlite3.longitude Sqlite3.ip_address].
  destruct (PrimFloat.is_nan (RecordInput.latitude record));
    [discriminate Hla|].
  destruct (PrimFloat.is_nan (RecordInput.longitude record));
    [discriminate Hlo|].
  reflexivity.
Qed.

(** Creating a storable record whose address is new and looking the
    address up returns the record's fields as [add_ip] received them, up to
    the sign of a zero coordinate. *)
Lemma create_then_lookup (record : RecordInput.t) (db : Sqlite3.Database) :
  ip_rows (RecordInput.ip record) (Sqlite3.rows db) = [] ->
  storable record = true ->
  let created := get_db_session (add_ip record) db [] in
  response created = Returned ("added", record)
  /\ response (get_db_session (get_ip_info (RecordInput.ip record))
                 (database created) [])
     = Returned ("result", [as_stored record]).
Proof.
  intros Hno Hs. cbv zeta.
  destruct (storable_new_row record db Hs) as [Hz Hr].
  rewrite serve_add_ip. cbv zeta. rewrite Hno, Hz.
  cbn [is_empty negb response database]. split; [reflexivity|].
  unfold get_db_session. rewrite get_ip_info_run. cbv zeta.
  cbn [faults hd conn Sqlite3.connect Sqlite3.view inserted Sqlite3.rows].
  rewrite ip_rows_app, Hno. cbn [app].
  unfold ip_rows. cbn [filter new_row Sqlite3.ip_address].
  rewrite String.eqb_refl. fold (new_row record db).
  cbn [is_empty __transform_rows_to_records]. now rewrite Hr.
Qed.

(** What [sanitize_strings] would make of the record's strings. *)
Definition sanitized (record : RecordInput.t) : RecordInput.t :=
  RecordInput.mk
    (title (strip (RecordInput.ip record)))
    (title (strip (RecordInput.country record)))
    (title (strip (RecordInput.region record)))
    (title (strip (RecordInput.city record)))
    (RecordInput.zip_code record) (RecordInput.latitude record)
    (RecordInput.longitude record).

Definition poland_body : list (string * value) :=
  [("ip", PyStr "1.2.3.4"); ("country", PyStr "poland");
   ("region", PyStr "silesia"); ("city", PyStr "katowice");
   ("zip_code", PyInt 40514); ("latitude", PyFloat 34.04%float);
   ("longitude", PyFloat (-118.02)%float)].

(** C1 at the request of the specification's scenario.  The body
    validates to the record with its strings untouched, whatever lax mode
    converts (every value of the body has the type of its field); created
    on an empty table and looked up by its address, the record comes back
    with [country = "poland"], [region = "silesia"], [city = "katowice"],
    where stripping and title-casing would give "Poland", "Silesia",
    "Katowice". *)
Theorem create_then_lookup_is_not_sanitized :
  (forall lax : Pydantic.Lax, RecordInput_validate lax poland_body = Some poland)
  /\ (let created := get_db_session (add_ip poland) empty_table [] in
      response created = Returned ("added", poland)
      /\ response (get_db_session (get_ip_info "1.2.3.4") (database created) [])
         = Returned ("result",
                     [Record_.mk "1.2.3.4" "poland" "silesia" "katowice"
                                 40514 34.04%float (-118.02)%float]))
  /\ as_record (sanitized poland)
     = Record_.mk "1.2.3.4" "Poland" "Silesia" "Katowice"
                  40514 34.04%float (-118.02)%float
  /\ as_record poland <> as_record (sanitized poland).
Proof.
  split; [reflexivity|]. split; [|split; [reflexivity|discriminate]].
  exact (create_then_lookup poland empty_table eq_refl eq_refl).
Qed.

(** * More of [main.py] *)

(** ** [sanitize_strings] on its own *)

Lemma isspace_uncased (c : ascii) :
  isspace c = true -> islower c = false /\ isupper c = false.
Proof.
  destruct c as [[] [] [] [] [] [] [] []]; cbv; intros H;
    first [discriminate H | split; reflexivity].
Qed.

Lemma upper_facts (c : ascii) :
  islower c = true ->
  isupper (upper c) = true /\ islower (upper c) = false
  /\ isspace (upper c) = false /\ isspace c = false.
Proof.
  destruct c as [[] [] [] [] [] [] [] []]; cbv; intros H;
    first [discriminate H | repeat split; reflexivity].
Qed.

Lemma lower_facts (c : ascii) :
  isupper c = true ->
  islower (lower c) = true /\ islower c = false
  /\ isspace (lower c) = false /\ isspace c = false.
Proof.
  destruct c as [[] [] [] [] [] [] [] []]; cbv; intros H;
    first [discriminate H | repeat split; reflexivity].
Qed.

(** What [title] does to one character, by the state of the loop. *)
Definition title_char (previous_is_cased : bool) (c : ascii) : ascii :=
  if islower c then (if previous_is_cased then c else upper c)
  else if isupper c then (if previous_is_cased then lower c else c)
  else c.

Definition cased (c : ascii) : bool := islower c || isupper c.

Lemma title_from_cons (b : bool) (c : ascii) (s : string) :
  title_from b (String c s)
  = String (title_char b c) (title_from (cased c) s).
Proof.
  unfold title_char, cased. cbn [title_from].
  destruct (islower c); [reflexivity|]. destruct (isupper c); reflexivity.
Qed.

Lemma title_char_facts (b : bool) (c : ascii) :
  isspace (title_char b c) = isspace c
  /\ cased (title_char b c) = cased c
  /\ title_char b (title_char b c) = title_char b c.
Proof.
  unfold title_char, cased.
  destruct (islower c) eqn:L.
  - destruct (upper_facts c L) as (U1 & U2 & U3 & U4).
    destruct b; rewrite ?L, ?U1, ?U2, ?U3, ?U4; cbn; repeat split;
      rewrite ?L, ?U1, ?U2; reflexivity.
  - destruct (isupper c) eqn:U.
    + destruct (lower_facts c U) as (L1 & L2 & L3 & L4).
      destruct b; rewrite ?L, ?U, ?L1, ?L3, ?L4; cbn; repeat split;
        rewrite ?L, ?U, ?L1; reflexivity.
    + rewrite L, U. repeat split.
Qed.

Lemma title_from_idempotent (b : bool) (s : string) :
  title_from b (title_from b s) = title_from b s.
Proof.
  revert b. induction s as [|c s IH]; intros b; [reflexivity|].
  rewrite !title_from_cons.
  destruct (title_char_facts b c) as (_ & C & T).
  now rewrite C, T, IH.
Qed.

Lemma title_from_length (b : bool) (s : string) :
  String.length (title_from b s) = String.length s.
Proof.
  revert b. induction s as [|c s IH]; intros b; [reflexivity|].
  rewrite title_from_cons. cbn. now rewrite IH.
Qed.

Lemma title_from_empty (b : bool) (s : string) :
  title_from b s = "" -> s = "".
Proof. destruct s; [reflexivity|]. rewrite title_from_cons. discriminate. Qed.

Lemma lstrip_title (s : string) : lstrip (title s) = title (lstrip s).
Proof.
  unfold title. induction s as [|c s IH]; [reflexivity|].
  rewrite title_from_cons. cbn [lstrip].
  destruct (title_char_facts false c) as (S & _ & _). rewrite S.
  destruct (isspace c) eqn:E.
  - destruct (isspace_uncased c E) as [L U]. unfold cased.
    rewrite L, U. exact IH.
  - now rewrite title_from_cons.
Qed.

Lemma rstrip_title_from (b : bool) (s : string) :
  rstrip (title_from b s) = title_from b (rstrip s).
Proof.
  revert b. induction s as [|c s IH]; intros b; [reflexivity|].
  rewrite title_from_cons. cbn [rstrip]. rewrite IH.
  destruct (title_char_facts b c) as (S & _ & _). rewrite S.
  destruct (rstrip s) as [|c' r] eqn:E.
  - cbn [title_from]. destruct (isspace c); [reflexivity|].
    now rewrite title_from_cons.
  - rewrite !title_from_cons. reflexivity.
Qed.

Lemma strip_title (s : string) : strip (title s) = title (strip s).
Proof.
  unfold strip. rewrite lstrip_title. apply rstrip_title_from.
Qed.

Lemma rstrip_idempotent (s : string) : rstrip (rstrip s) = rstrip s.
Proof.
  induction s as [|c s IH]; [reflexivity|]. cbn [rstrip].
  destruct (rstrip s) as [|c' r] eqn:E.
  - destruct (isspace c) eqn:Sc; [reflexivity|]. cbn. now rewrite Sc.
  - cbn [rstrip]. cbn [rstrip] in IH. now rewrite IH.
Qed.

(** Stripping on the right keeps a first character that is not white
    space, so a left-stripped string stays left-stripped. *)
Lemma lstrip_rstrip_lstrip (s : string) :
  lstrip (rstrip (lstrip s)) = rstrip (lstrip s).
Proof.
  induction s as [|c s IH]; [reflexivity|]. cbn [lstrip].
  destruct (isspace c) eqn:Sc; [exact IH|].
  cbn [rstrip]. destruct (rstrip s); rewrite ?Sc; cbn [lstrip];
    now rewrite Sc.
Qed.

Lemma strip_idempotent (s : string) : strip (strip s) = strip s.
Proof.
  unfold strip. now rewrite lstrip_rstrip_lstrip, rstrip_idempotent.
Qed.

Lemma lstrip_length (s : string) :
  (String.length (lstrip s) <= String.length s)%nat.
Proof.
  induction s as [|c s IH]; [apply Nat.le_refl|]. cbn [lstrip].
  destruct (isspace c); cbn; lia.
Qed.

Lemma rstrip_length (s : string) :
  (String.length (rstrip s) <= String.length s)%nat.
Proof.
  induction s as [|c s IH]; [apply Nat.le_refl|]. cbn [rstrip].
  destruct (rstrip s); [destruct (isspace c)|]; cbn in *; lia.
Qed.

(** ASCII text stays ASCII text. *)
Lemma title_char_ascii (b : bool) (c : ascii) :
  is_ascii_char c = true -> is_ascii_char (title_char b c) = true.
Proof.
  destruct b; destruct c as [[] [] [] [] [] [] [] []]; cbv; intros H;
    first [discriminate H | reflexivity].
Qed.

Lemma title_from_ascii (b : bool) (s : string) :
  is_ascii s = true -> is_ascii (title_from b s) = true.
Proof.
  revert b. induction s as [|c s IH]; intros b; [reflexivity|].
  rewrite title_from_cons. cbn [is_ascii]. intros H.
  apply andb_prop in H as [Hc Hs].
  now rewrite (title_char_ascii b c Hc), (IH _ Hs).
Qed.

Lemma lstrip_ascii (s : string) :
  is_ascii s = true -> is_ascii (lstrip s) = true.
Proof.
  induction s as [|c s IH]; [reflexivity|]. cbn [lstrip].
  destruct (isspace c); [|trivial]. cbn [is_ascii]. intros H.
  apply andb_prop in H as [_ Hs]. now apply IH.
Qed.

Lemma rstrip_ascii (s : string) :
  is_ascii s = true -> is_ascii (rstrip s) = true.
Proof.
  induction s as [|c s IH]; [reflexivity|]. cbn [rstrip is_ascii].
  intros H. apply andb_prop in H as [Hc Hs]. specialize (IH Hs).
  destruct (rstrip s) as [|c' r].
  - destruct (isspace c); [reflexivity|]. cbn [is_ascii]. now rewrite Hc.
  - cbn [is_ascii] in *. now rewrite Hc, IH.
Qed.

(** X1.  On an ASCII string [sanitize_strings] returns an ASCII string that
    stripping and title-casing leave as it is, so sanitizing a sanitized
    string changes nothing, and that is no longer than the input; on [None],
    an [int] or a [float] it raises the [ValueError]. *)
Theorem sanitize_strings_idempotent :
  (forall s : string,
     is_ascii s = true ->
     exists t : string,
       sanitize_strings (PyStr s) = inl (PyStr t)
       /\ is_ascii t = true
       /\ strip t = t
       /\ title t = t
       /\ sanitize_strings (PyStr t) = inl (PyStr t)
       /\ (String.length t <= String.length s)%nat)
  /\ sanitize_strings PyNone
     = inr (Pydantic.ValueError "Invalid value; expected a string.")
  /\ (forall z, sanitize_strings (PyInt z)
                = inr (Pydantic.ValueError "Invalid value; expected a string."))
  /\ (forall f, sanitize_strings (PyFloat f)
                = inr (Pydantic.ValueError "Invalid value; expected a string.")).
Proof.
  split; [|repeat split].
  intros s Ha. exists (title (strip s)).
  assert (S : strip (title (strip s)) = title (strip s))
    by now rewrite strip_title, strip_idempotent.
  assert (T : title (title (strip s)) = title (strip s))
    by apply title_from_idempotent.
  repeat split; try assumption.
  - apply title_from_ascii. unfold strip. now apply rstrip_ascii, lstrip_ascii.
  - cbn [sanitize_strings]. now rewrite S, T.
  - unfold title. rewrite title_from_length. unfold strip.
    pose proof (rstrip_length (lstrip s)). pose proof (lstrip_length s). lia.
Qed.

Lemma sanitize_strings_idempotent_witness :
  exists t : string,
    sanitize_strings (PyStr "  new yORK-city ") = inl (PyStr t)
    /\ is_ascii t = true
    /\ strip t = t
    /\ title t = t
    /\ sanitize_strings (PyStr t) = inl (PyStr t)
    /\ (String.length t <= String.length "  new yORK-city ")%nat.
Proof.
  exact (proj1 sanitize_strings_idempotent "  new yORK-city " eq_refl).
Defined.

(** ** What [RecordInput] lets through *)




(** ** The mapper's failure *)

Lemma Record_of_row_none (row : Sqlite3.Row) :
  Record_of_row row = None <-> well_formed row = false.
Proof.
  unfold Record_of_row, well_formed.
  destruct row as [i ip [co|] [re|] [ci|] [z|] [la|] [lo|]]; cbn;
    split; (discriminate || reflexivity).
Qed.

Lemma transform_rows_none_intro (rows : list Sqlite3.Row)
    (row : Sqlite3.Row) :
  In row rows -> well_formed row = false ->
  __transform_rows_to_records rows = None.
Proof.
  intros Hin Hw. induction rows as [|r rows IH]; [contradiction|].
  cbn. destruct Hin as [->|Hin].
  - now rewrite (proj2 (Record_of_row_none row) Hw).
  - rewrite (IH Hin). now destruct (Record_of_row r).
Qed.

(** X3.  The mapper fails exactly when some row of its input has a NULL
    column; one such row anywhere in the list loses the whole list. *)
Theorem transform_rows_fails_iff (rows : list Sqlite3.Row) :
  __transform_rows_to_records rows = None
  <-> exists row, In row rows /\ well_formed row = false.
Proof.
  induction rows as [|row rows IH]; cbn.
  - split; [discriminate|intros (r & [] & _)].
  - destruct (Record_of_row row) as [rec|] eqn:E.
    + assert (W : well_formed row = true).
      { destruct (well_formed row) eqn:W; [reflexivity|].
        apply Record_of_row_none in W. congruence. }
      destruct (__transform_rows_to_records rows) as [recs|].
      * split; [discriminate|]. intros (r & [<-|Hin] & Hw); [congruence|].
        assert (X : Some recs = None) by (apply (proj2 IH); now exists r).
        discriminate X.
      * split; [|reflexivity]. intros _.
        destruct (proj1 IH eq_refl) as (r & Hin & Hw).
        exists r. split; [now right|exact Hw].
    + split; [|reflexivity]. intros _. exists row.
      split; [now left|now apply Record_of_row_none].
Qed.

(** ** The point lookup *)

Lemma ip_rows_nil_iff (ip : string) (rs : list Sqlite3.Row) :
  ip_rows ip rs = [] <-> forall row, In row rs -> Sqlite3.ip_address row <> ip.
Proof.
  split; [|apply ip_rows_none].
  intros E row Hin Hip.
  pose proof (ip_rows_In ip rs row Hin Hip) as H. now rewrite E in H.
Qed.

Lemma ip_rows_spec (ip : string) (rs : list Sqlite3.Row) (row : Sqlite3.Row) :
  In row (ip_rows ip rs) <-> In row rs /\ Sqlite3.ip_address row = ip.
Proof.
  unfold ip_rows. rewrite filter_In. now rewrite String.eqb_eq.
Qed.

(** X4.  When its SELECT runs, [get_ip_info] raises the 404 error exactly
    when no row of the table carries the address; otherwise the rows the
    mapper is given are all the rows of that address, several if there are
    several, in table order, and its result is the handler's: the records
    under "result", or the validation error when one of them has a NULL
    column.  Either way the connection is as it was. *)
Theorem get_ip_info_all_rows_of_address (ip : string) (st : State) :
  hd None (faults st) = None ->
  let table := Sqlite3.rows (Sqlite3.view (conn st)) in
  (fst (get_ip_info ip st) = Raised (not_found ip)
   <-> forall row, In row table -> Sqlite3.ip_address row <> ip)
  /\ (forall row, In row (ip_rows ip table)
                  <-> In row table /\ Sqlite3.ip_address row = ip)
  /\ (ip_rows ip table <> [] ->
      fst (get_ip_info ip st)
      = match __transform_rows_to_records (ip_rows ip table) with
        | Some records => Returned ("result", records)
        | None => Raised ValidationError
        end)
  /\ conn (snd (get_ip_info ip st)) = conn st.
Proof.
  intros F. cbv zeta. rewrite get_ip_info_run. cbv zeta. rewrite F.
  split; [|split; [|split]].
  - rewrite <- ip_rows_nil_iff.
    destruct (ip_rows ip _) as [|r rs]; cbn [is_empty]; [tauto|].
    split; [|discriminate].
    destruct (__transform_rows_to_records _); discriminate.
  - intros row. apply ip_rows_spec.
  - intros Hne.
    destruct (ip_rows ip _) as [|r rs]; [congruence|]. cbn [is_empty].
    destruct (__transform_rows_to_records _); reflexivity.
  - destruct (is_empty _); [reflexivity|].
    destruct (__transform_rows_to_records _); reflexivity.
Qed.

Lemma get_ip_info_all_rows_of_address_witness :
  fst (get_ip_info "1.2.3.4" twice_stored)
  = Returned ("result",
              [Record_.mk "1.2.3.4" "Poland" "Silesia" "Katowice" 40514
                          34.04%float (-118.02)%float;
               Record_.mk "1.2.3.4" "Poland" "Mazovia" "Warsaw" 10
                          52.25%float 21.0%float]).
Proof.
  destruct (get_ip_info_all_rows_of_address "1.2.3.4" twice_stored eq_refl)
    as (_ & _ & H & _).
  rewrite H; [reflexivity|discriminate].
Defined.

(** ** What a request leaves in the table *)

Lemma get_ip_info_conn (ip : string) (st : State) :
  conn (snd (get_ip_info ip st)) = conn st.
Proof.
  rewrite get_ip_info_run. cbv zeta.
  destruct (hd None (faults st)); [reflexivity|].
  destruct (is_empty _); [reflexivity|].
  destruct (__transform_rows_to_records _); reflexivity.
Qed.

Lemma search_conn (ip country region city : option string)
    (zip_code : option Z) (latitude longitude : option float)
    (limit : option Z) (st : State) :
  conn (snd (get_ip_info_by_parameters ip country region city zip_code
               latitude longitude limit st)) = conn st.
Proof.
  destruct (any_filter ip country region city zip_code latitude longitude)
    eqn:Hany.
  - pose proof (search_run ip country region city zip_code
                  latitude longitude limit st Hany) as R.
    cbv zeta in R. unfold search in R. rewrite R.
    destruct (negb (Sqlite3.bindable _)); [reflexivity|].
    destruct (hd None (faults st)); [reflexivity|].
    destruct (negb (Sqlite3.limit_fits _)); [reflexivity|].
    destruct (is_empty _); [reflexivity|].
    destruct (__transform_rows_to_records _); reflexivity.
  - pose proof (search_unfold ip country region city zip_code
                  latitude longitude limit) as U.
    unfold search in U. now rewrite U, Hany.
Qed.

Lemma database_of_conn {A} (handler : M A) (db : Sqlite3.Database)
    (schedule : list (option string)) :
  database (get_db_session handler db schedule)
  = Sqlite3.file
      (conn (snd (handler (mkState (Sqlite3.connect db) schedule [] [])))).
Proof.
  unfold get_db_session. now destruct (handler _).
Qed.

(** X5.  The two GET handlers never change the stored table: whatever the
    arguments, the table and the storage failures, the table after the
    request is the table before it. *)
Theorem reads_leave_table_unchanged (db : Sqlite3.Database)
    (schedule : list (option string)) :
  (forall ip : string,
     database (get_db_session (get_ip_info ip) db schedule) = db)
  /\ (forall (ip country region city : option string) (zip_code : option Z)
             (latitude longitude : option float) (limit : option Z),
        database
          (get_db_session
             (get_ip_info_by_parameters ip country region city zip_code
                latitude longitude limit) db schedule) = db).
Proof.
  split; intros; rewrite database_of_conn.
  - now rewrite get_ip_info_conn.
  - now rewrite search_conn.
Qed.

Lemma max_id_bound (rs : list Sqlite3.Row) :
  Forall (fun r => Sqlite3.id r <= Sqlite3.max_id rs) rs.
Proof.
  induction rs as [|r rs IH]; constructor;
    change (Sqlite3.max_id (r :: rs))
      with (Z.max (Sqlite3.id r) (Sqlite3.max_id rs)).
  - lia.
  - eapply Forall_impl; [|exact IH]. intros a Ha. cbv beta in *. lia.
Qed.

(** The two ways a create request can end. *)
Lemma add_ip_served (record : RecordInput.t) (db : Sqlite3.Database)
    (schedule : list (option string)) :
  let served := get_db_session (add_ip record) db schedule in
  (response served = Returned ("added", record)
   /\ ip_rows (RecordInput.ip record) (Sqlite3.rows db) = []
   /\ Sqlite3.int64 (RecordInput.zip_code record) = true
   /\ database served = inserted record db)
  \/ (exists e, response served = Raised e /\ database served = db).
Proof.
  cbv zeta. unfold get_db_session. rewrite add_ip_run. cbv zeta.
  destruct (hd None (faults _)); [right; eexists; split; reflexivity|].
  cbn [conn Sqlite3.connect Sqlite3.view].
  destruct (ip_rows _ (Sqlite3.rows db)) eqn:E; cbn [is_empty negb];
    [|right; eexists; split; reflexivity].
  destruct (Sqlite3.int64 (RecordInput.zip_code record)); cbn [negb];
    [|right; eexists; split; reflexivity].
  destruct (hd None (faults (called _ _ _)));
    [right; eexists; split; reflexivity|].
  destruct (hd None (faults (with_view _ _)));
    [right; eexists; split; reflexivity|].
  left. repeat split.
Qed.

(** A row that holds a record: the strings and the zip_code as they are,
    each coordinate as a REAL column holds a bound float ([-0.0] as [0.0],
    NaN as NULL). *)
Definition holds (record : RecordInput.t) (row : Sqlite3.Row) : Prop :=
  Sqlite3.ip_address row = RecordInput.ip record
  /\ Sqlite3.country row = Some (RecordInput.country record)
  /\ Sqlite3.region row = Some (RecordInput.region record)
  /\ Sqlite3.city row = Some (RecordInput.city record)
  /\ Sqlite3.zip row = Some (RecordInput.zip_code record)
  /\ Sqlite3.latitude row = Sqlite3.store_real (RecordInput.latitude record)
  /\ Sqlite3.longitude row
     = Sqlite3.store_real (RecordInput.longitude record).

(** X6.  A create request is all or nothing, whatever the storage does:
    either [add_ip] returns the record, and then the zip_code fits 64 bits,
    the table had no row of the address and has gained exactly one row,
    placed after the others, holding the record's seven fields (a NaN
    coordinate as NULL) under an [id] larger than every [id] in the table;
    or it raises, and then the stored table is the one from before the
    request. *)
Theorem add_ip_all_or_nothing (record : RecordInput.t)
    (db : Sqlite3.Database) (schedule : list (option string)) :
  let served := get_db_session (add_ip record) db schedule in
  (response served = Returned ("added", record)
   /\ Sqlite3.int64 (RecordInput.zip_code record) = true
   /\ ip_rows (RecordInput.ip record) (Sqlite3.rows db) = []
   /\ exists row,
        Sqlite3.rows (database served) = (Sqlite3.rows db ++ [row])%list
        /\ holds record row
        /\ Forall (fun r => Sqlite3.id r < Sqlite3.id row) (Sqlite3.rows db))
  \/ (exists e, response served = Raised e /\ database served = db).
Proof.
  cbv zeta.
  destruct (add_ip_served record db schedule) as [(R & E & Z & D) | H];
    [left|now right].
  rewrite D. repeat split; try assumption.
  exists (new_row record db). repeat split.
  eapply Forall_impl; [|apply max_id_bound].
  intros r Hr. cbv beta in *. unfold new_row. cbn [Sqlite3.id]. lia.
Qed.

(** X7.  When the existence check runs, [add_ip] raises the
    duplicate-address error exactly when the table holds a row whose
    [ip_address] is, character for character, the record's [ip]. *)
Theorem add_ip_conflict_iff (record : RecordInput.t) (st : State) :
  hd None (faults st) = None ->
  fst (add_ip record st) = Raised (conflict (RecordInput.ip record))
  <-> exists row,
        In row (Sqlite3.rows (Sqlite3.view (conn st)))
        /\ Sqlite3.ip_address row = RecordInput.ip record.
Proof.
  intros F. rewrite add_ip_run. cbv zeta. rewrite F.
  destruct (ip_rows _ _) as [|r rs] eqn:E; cbn [is_empty negb].
  - split.
    + destruct (negb (Sqlite3.int64 _)); [discriminate|].
      destruct (hd None (faults (called _ _ st))); [discriminate|].
      destruct (hd None (faults (with_view _ _))); discriminate.
    + intros (row & Hin & Hip).
      pose proof (ip_rows_In _ _ row Hin Hip) as H. now rewrite E in H.
  - split; [|reflexivity]. intros _.
    assert (H : In r (ip_rows (RecordInput.ip record)
                        (Sqlite3.rows (Sqlite3.view (conn st)))))
      by (rewrite E; now left).
    apply ip_rows_spec in H. now exists r.
Qed.

Lemma add_ip_conflict_iff_witness :
  fst (add_ip poland holds_poland) = Raised (conflict "1.2.3.4")
  <-> exists row,
        In row (Sqlite3.rows (Sqlite3.view (conn holds_poland)))
        /\ Sqlite3.ip_address row = "1.2.3.4".
Proof. exact (add_ip_conflict_iff poland holds_poland eq_refl). Defined.

Section UpdateKeeps.

Variables (ip : string) (country region city : option string).
Variables (zip_code : option Z) (latitude longitude : option float).

Local Abbreviation put :=
  (update_data ip country region city zip_code latitude longitude).
Local Abbreviation new_table :=
  (updated ip country region city zip_code latitude longitude).

Lemma updated_rows_keep (rs : list Sqlite3.Row) :
  let rs' := updated_rows ip country region city zip_code latitude longitude
                          rs in
  map Sqlite3.id rs' = map Sqlite3.id rs
  /\ map Sqlite3.ip_address rs' = map Sqlite3.ip_address rs
  /\ forall (i : nat) (row : Sqlite3.Row),
       nth_error rs i = Some row -> Sqlite3.ip_address row <> ip ->
       nth_error rs' i = Some row.
Proof.
  cbv zeta. unfold updated_rows. repeat split.
  - rewrite map_map. apply map_ext. intros r.
    destruct (_ =? _)%string; reflexivity.
  - rewrite map_map. apply map_ext. intros r.
    destruct (_ =? _)%string; reflexivity.
  - intros i row Hi Hip. rewrite nth_error_map, Hi. cbn [option_map].
    apply String.eqb_neq in Hip. now rewrite Hip.
Qed.

(** The stored table after an update request: the one before, or the
    rewritten one. *)
Lemma update_data_database (db : Sqlite3.Database)
    (schedule : list (option string)) :
  let db' := database (get_db_session put db schedule) in
  db' = db \/ db' = new_table db.
Proof.
  cbv zeta. rewrite database_of_conn.
  pose proof (update_data_run ip country region city zip_code
                latitude longitude) as R.
  cbv zeta in R. unfold update in R. rewrite R. clear R.
  destruct (negb _); [now left|].
  destruct (hd None (faults _)); [now left|].
  destruct (is_empty _); [now left|].
  destruct (negb _); [now left|].
  destruct (hd None (faults (called _ _ _))); [now left|].
  destruct (hd None (faults (with_view _ _))); [now left|].
  destruct (hd None (faults (committed _))); now right.
Qed.

(** X8.  An update request, whatever its arguments, the table and the
    storage failures, adds no row and removes none, and changes no [id], no
    [ip_address] and no row of another address: position by position the
    stored table keeps them. *)
Theorem update_data_keeps_rows_ids_addresses (db : Sqlite3.Database)
    (schedule : list (option string)) :
  let rows' := Sqlite3.rows (database (get_db_session put db schedule)) in
  List.length rows' = List.length (Sqlite3.rows db)
  /\ map Sqlite3.id rows' = map Sqlite3.id (Sqlite3.rows db)
  /\ map Sqlite3.ip_address rows' = map Sqlite3.ip_address (Sqlite3.rows db)
  /\ forall (i : nat) (row : Sqlite3.Row),
       nth_error (Sqlite3.rows db) i = Some row ->
       Sqlite3.ip_address row <> ip ->
       nth_error rows' i = Some row.
Proof.
  cbv zeta.
  destruct (update_data_database db schedule) as [-> | ->].
  - repeat split. intros; assumption.
  - cbn [updated Sqlite3.rows].
    destruct (updated_rows_keep (Sqlite3.rows db)) as (I & A & K).
    repeat split; try assumption.
    unfold updated_rows. apply length_map.
Qed.

End UpdateKeeps.

(** ** One row per address *)

(** The four storage-backed routes. *)
Inductive request : Type :=
| GET_ips_ip (ip : string)
| GET_ips (ip country region city : option string) (zip_code : option Z)
          (latitude longitude : option float) (limit : option Z)
| POST (record : RecordInput.t)
| PUT_ips_ip (ip : string) (country region city : option string)
             (zip_code : option Z) (latitude longitude : option float).

(** The stored table after one request served under a failure schedule. *)
Definition stored_after (rq : request) (schedule : list (option string))
    (db : Sqlite3.Database) : Sqlite3.Database :=
  match rq with
  | GET_ips_ip ip => database (get_db_session (get_ip_info ip) db schedule)
  | GET_ips ip country region city zip_code latitude longitude limit =>
      database
        (get_db_session
           (get_ip_info_by_parameters ip country region city zip_code
              latitude longitude limit) db schedule)
  | POST record => database (get_db_session (add_ip record) db schedule)
  | PUT_ips_ip ip country region city zip_code latitude longitude =>
      database
        (get_db_session
           (update_data ip country region city zip_code latitude longitude)
           db schedule)
  end.

(** Requests served one after the other, each on its own connection. *)
Definition stored_after_all
    (rqs : list (request * list (option string)))
    (db : Sqlite3.Database) : Sqlite3.Database :=
  fold_left (fun d rq => stored_after (fst rq) (snd rq) d) rqs db.

Definition one_row_per_address (db : Sqlite3.Database) : Prop :=
  NoDup (map Sqlite3.ip_address (Sqlite3.rows db)).

Lemma ip_rows_nil_not_in (ip : string) (rs : list Sqlite3.Row) :
  ip_rows ip rs = [] -> ~ In ip (map Sqlite3.ip_address rs).
Proof.
  intros E Hin. apply in_map_iff in Hin as (row & Hip & Hrow).
  pose proof (ip_rows_In ip rs row Hrow Hip) as H. now rewrite E in H.
Qed.

Lemma stored_after_one_row_per_address (rq : request)
    (schedule : list (option string)) (db : Sqlite3.Database) :
  one_row_per_address db -> one_row_per_address (stored_after rq schedule db).
Proof.
  unfold one_row_per_address. intros H.
  destruct rq as [ip|ip co re ci z la lo limit|record|ip co re ci z la lo];
    cbn [stored_after].
  - now rewrite database_of_conn, get_ip_info_conn.
  - now rewrite database_of_conn, search_conn.
  - destruct (add_ip_served record db schedule)
      as [(_ & E & _ & ->) | (e & _ & ->)]; [|exact H].
    unfold inserted. cbn [Sqlite3.rows]. rewrite map_app.
    cbn [map new_row Sqlite3.ip_address].
    apply NoDup_app; [exact H|repeat constructor; intros []|].
    intros a Ha [<-|[]]. exact (ip_rows_nil_not_in _ _ E Ha).
  - destruct (update_data_database ip co re ci z la lo db schedule)
      as [-> | ->]; [exact H|].
    cbn [updated Sqlite3.rows].
    now rewrite (proj1 (proj2 (updated_rows_keep
                                 ip co re ci z la lo (Sqlite3.rows db)))).
Qed.

(** X9.  Served one after the other, each on its own connection, the
    requests of the service keep the table at one row per address: if no
    two rows share an [ip_address] before, none do after any sequence of
    lookups, searches, creations and updates, whatever storage failures
    occur on the way. *)
Theorem requests_keep_one_row_per_address
    (rqs : list (request * list (option string)))
    (db : Sqlite3.Database) :
  one_row_per_address db -> one_row_per_address (stored_after_all rqs db).
Proof.
  revert db. induction rqs as [|[rq schedule] rqs IH]; intros db H;
    [exact H|].
  apply IH. now apply stored_after_one_row_per_address.
Qed.

Lemma requests_keep_one_row_per_address_witness :
  one_row_per_address
    (stored_after_all
       [(POST poland, []);
        (POST poland, []);
        (PUT_ips_ip "1.2.3.4" None None (Some "Krakow") None None None,
         [None; None; None; Some "disk I/O error"]);
        (GET_ips_ip "1.2.3.4", [])]
       (Sqlite3.mkDatabase [katowice; berlin] 2)).
Proof.
  apply requests_keep_one_row_per_address.
  unfold one_row_per_address. cbn.
  repeat constructor; cbn; intuition discriminate.
Defined.

(** ** What a search returns *)

Section SearchResult.

Variables (ip country region city : option string).
Variables (zip_code : option Z) (latitude longitude : option float).

Local Abbreviation find_records :=
  (get_ip_info_by_parameters ip country region city zip_code
     latitude longitude).
Local Abbreviation accepted_row :=
  (satisfies ip country region city zip_code latitude longitude).

(** A record that agrees with every filter of the request. *)
Definition agrees (rec : Record_.t) : Prop :=
  (forall s, ip = Some s -> Record_.ip_address rec = s)
  /\ (forall s, country = Some s -> Record_.country rec = s)
  /\ (forall s, region = Some s -> Record_.region rec = s)
  /\ (forall s, city = Some s -> Record_.city rec = s)
  /\ (forall z, zip_code = Some z -> Record_.zip_code rec = z)
  /\ (forall x, latitude = Some x ->
                PrimFloat.eqb (Record_.latitude rec) x = true)
  /\ (forall x, longitude = Some x ->
                PrimFloat.eqb (Record_.longitude rec) x = true).

Lemma carries_agrees (row : Sqlite3.Row) (rec : Record_.t) :
  carries row rec -> accepted_row row = true -> agrees rec.
Proof.
  unfold carries, satisfies, agrees.
  intros (A & B & C & D & E & F & G) H.
  rewrite <- B, <- C, <- D, <- E, <- F, <- G, <- A in H.
  apply andb_prop in H as [H H7]. apply andb_prop in H as [H H6].
  apply andb_prop in H as [H H5]. apply andb_prop in H as [H H4].
  apply andb_prop in H as [H H3]. apply andb_prop in H as [H1 H2].
  unfold text_filter, int_filter, real_filter in *.
  repeat split; intros v Hv.
  - rewrite Hv in H1. now apply String.eqb_eq.
  - rewrite Hv in H2. now apply String.eqb_eq.
  - rewrite Hv in H3. now apply String.eqb_eq.
  - rewrite Hv in H4. now apply String.eqb_eq.
  - rewrite Hv in H5. now apply Z.eqb_eq.
  - rewrite Hv in H6. exact H6.
  - rewrite Hv in H7. exact H7.
Qed.

Lemma apply_limit_prefix (limit : option Z) (rs : list Sqlite3.Row) :
  exists rest, rs = (Sqlite3.apply_limit limit rs ++ rest)%list.
Proof.
  unfold Sqlite3.apply_limit. destruct limit as [n|].
  - destruct (n <? 0).
    + exists []. now rewrite app_nil_r.
    + exists (skipn (Z.to_nat n) rs). now rewrite firstn_skipn.
  - exists []. now rewrite app_nil_r.
Qed.

Lemma apply_limit_length (n : Z) (rs : list Sqlite3.Row) :
  1 <= n ->
  Z.of_nat (List.length (Sqlite3.apply_limit (written_limit (Some n)) rs))
  <= n.
Proof.
  intros Hn. unfold written_limit, Sqlite3.apply_limit. cbn [truthy_int].
  destruct (n =? 0) eqn:E0; [lia|]. cbn [negb].
  destruct (n <? 0) eqn:E1; [lia|].
  pose proof (firstn_le_length (Z.to_nat n) rs). lia.
Qed.

(** X10.  When a search with at least one filter returns, the key is
    "result" and the records are not empty, number at most [limit], agree
    with every filter of the request (equal strings, equal integer, equal
    floats), and are the mapper's images, in order, of a leading part of the
    table's accepted rows in table order. *)
Theorem search_returns_accepted_rows (limit : option Z) (st st' : State)
    (key : string) (records : list Record_.t) :
  any_filter ip country region city zip_code latitude longitude = true ->
  find_records limit st = (Returned (key, records), st') ->
  let table := Sqlite3.rows (Sqlite3.view (conn st)) in
  key = "result"
  /\ records <> []
  /\ (forall n, limit = Some n -> 1 <= n ->
                Z.of_nat (List.length records) <= n)
  /\ Forall agrees records
  /\ exists rows rest,
       filter accepted_row table = (rows ++ rest)%list
       /\ Forall2 carries rows records.
Proof.
  intros Hany H. cbv zeta.
  pose proof (search_run ip country region city zip_code
                latitude longitude limit st Hany) as R.
  cbv zeta in R. unfold search in R. rewrite R in H. clear R.
  destruct (negb (Sqlite3.bindable _)); [discriminate H|].
  destruct (hd None (faults st)); [discriminate H|].
  destruct (negb (Sqlite3.limit_fits _)); [discriminate H|].
  unfold fetched in H.
  set (accepted := filter accepted_row
                     (Sqlite3.rows (Sqlite3.view (conn st)))) in *.
  destruct (Sqlite3.apply_limit (written_limit limit) accepted)
    as [|r rs] eqn:E; cbn [is_empty] in H; [discriminate H|].
  destruct (__transform_rows_to_records (r :: rs)) as [recs|] eqn:T;
    [|discriminate H].
  injection H as <- <- _.
  pose proof (transform_rows_Forall2 _ _ T) as C.
  destruct (apply_limit_prefix (written_limit limit) accepted)
    as [rest Hrest].
  rewrite E in Hrest.
  split; [reflexivity|]. split; [inversion C; discriminate|].
  split; [|split].
  - intros n -> Hn. rewrite <- (Forall2_length C), <- E.
    now apply apply_limit_length.
  - assert (A : Forall (fun row => accepted_row row = true) (r :: rs)).
    { apply Forall_forall. intros row Hin.
      assert (Hacc : In row accepted)
        by (rewrite Hrest; apply in_or_app; now left).
      unfold accepted in Hacc. now apply filter_In in Hacc as [_ ?]. }
    clear - C A. induction C as [|row rec rows recs Hc _ IH];
      constructor.
    + inversion A; subst. now apply (carries_agrees row).
    + apply IH. now inversion A.
  - exists (r :: rs), rest. split; assumption.
Qed.

End SearchResult.

Lemma search_returns_accepted_rows_witness :
  let records :=
    [Record_.mk "192.000.000.000" "Poland" "Silesia" "Katowice" 40514
                34.04%float (-118.02)%float] in
  Forall (agrees None (Some "Poland") None None (Some 40514) None None)
         records
  /\ (forall n, Some 1 = Some n -> 1 <= n ->
                Z.of_nat (List.length records) <= n).
Proof.
  cbv zeta.
  assert (H : get_ip_info_by_parameters None (Some "Poland") None None
                (Some 40514) None None (Some 1) two_rows
              = (Returned ("result",
                           [Record_.mk "192.000.000.000" "Poland" "Silesia"
                              "Katowice" 40514 34.04%float (-118.02)%float]),
                 called "SELECT * FROM geolocation WHERE country = ? AND zip = ? LIMIT 1"
                   [PyStr "Poland"; PyInt 40514] two_rows))
    by (vm_compute; reflexivity).
  pose proof (search_returns_accepted_rows
                None (Some "Poland") None None (Some 40514) None None
                (Some 1) two_rows _ "result" _ eq_refl H) as T.
  cbv zeta in T. destruct T as (_ & _ & L & A & _). split; assumption.
Defined.

(** X11.  A search by [ip] alone, with a limit that fits 64 bits and is no
    smaller than the number of rows of that address, answers as the point
    lookup does: the same records under "result", the same validation
    failure, and a 404 error where the lookup raises its 404 error (with the
    search's own message). *)
Theorem search_by_ip_is_lookup (ip : string) (n : Z) (st : State) :
  hd None (faults st) = None ->
  1 <= n < 2 ^ 63 ->
  Z.of_nat (List.length
              (ip_rows ip (Sqlite3.rows (Sqlite3.view (conn st))))) <= n ->
  fst (get_ip_info_by_parameters (Some ip) None None None None None None
         (Some n) st)
  = match fst (get_ip_info ip st) with
    | Raised (HTTPException 404 _) =>
        Raised (HTTPException 404 "No data found for provided parameters!")
    | answer => answer
    end.
Proof.
  intros F Hn Hlen.
  pose proof (search_run (Some ip) None None None None None None (Some n) st
                eq_refl) as R.
  cbv zeta in R. unfold search in R. rewrite R. clear R.
  rewrite get_ip_info_run. cbv zeta. rewrite F.
  cbn [of_int Sqlite3.bindable negb].
  assert (L : Sqlite3.limit_fits (written_limit (Some n)) = true).
  { unfold written_limit. cbn [truthy_int].
    destruct (n =? 0) eqn:E0; [lia|]. cbn [negb Sqlite3.limit_fits].
    unfold Sqlite3.int64. apply andb_true_intro. split; [apply Z.leb_le|apply Z.ltb_lt]; lia. }
  rewrite L. cbn [negb].
  assert (E : fetched (Some ip) None None None None None None (Some n)
                (Sqlite3.rows (Sqlite3.view (conn st)))
              = ip_rows ip (Sqlite3.rows (Sqlite3.view (conn st)))).
  { unfold fetched, written_limit, Sqlite3.apply_limit. cbn [truthy_int].
    destruct (n =? 0) eqn:E0; [lia|]. cbn [negb].
    destruct (n <? 0) eqn:E1; [lia|].
    assert (S : filter (satisfies (Some ip) None None None None None None)
                  (Sqlite3.rows (Sqlite3.view (conn st)))
                = ip_rows ip (Sqlite3.rows (Sqlite3.view (conn st)))).
    { apply filter_ext. intros r. unfold satisfies. cbn.
      now rewrite !andb_true_r. }
    rewrite S. apply firstn_all2. lia. }
  rewrite E.
  destruct (ip_rows ip _) as [|r rs]; cbn [is_empty fst]; [reflexivity|].
  destruct (__transform_rows_to_records (r :: rs)); reflexivity.
Qed.

Lemma search_by_ip_is_lookup_witness :
  fst (get_ip_info_by_parameters (Some "1.2.3.4") None None None None None
         None (Some 10) twice_stored)
  = match fst (get_ip_info "1.2.3.4" twice_stored) with
    | Raised (HTTPException 404 _) =>
        Raised (HTTPException 404 "No data found for provided parameters!")
    | answer => answer
    end.
Proof.
  apply (search_by_ip_is_lookup "1.2.3.4" 10 twice_stored eq_refl).
  - lia.
  - vm_compute. discriminate.
Defined.

(** ** Create, update, look up *)

(** The record of an input record with the supplied fields replaced, read
    back from the table: the coordinates as the REAL columns hold them. *)
Definition revised (record : RecordInput.t)
    (country region city : option string) (zip_code : option Z)
    (latitude longitude : option float) : Record_.t :=
  let merge {A} (new : option A) (old : A) : A :=
    match new with Some x => x | None => old end in
  Record_.mk (RecordInput.ip record)
    (merge country (RecordInput.country record))
    (merge region (RecordInput.region record))
    (merge city (RecordInput.city record))
    (merge zip_code (RecordInput.zip_code record))
    (Sqlite3.stored_real (merge latitude (RecordInput.latitude record)))
    (Sqlite3.stored_real (merge longitude (RecordInput.longitude record))).

(** A supplied coordinate that is no NaN. *)
Definition not_nan (o : option float) : bool :=
  match o with
  | Some x => negb (PrimFloat.is_nan x)
  | None => true
  end.

Lemma ip_rows_inserted (record : RecordInput.t) (db : Sqlite3.Database) :
  ip_rows (RecordInput.ip record) (Sqlite3.rows db) = [] ->
  ip_rows (RecordInput.ip record) (Sqlite3.rows (inserted record db))
  = [new_row record db].
Proof.
  intros Hno. unfold inserted. cbn [Sqlite3.rows].
  rewrite ip_rows_app, Hno. cbn [app]. unfold ip_rows.
  cbn [filter new_row Sqlite3.ip_address]. now rewrite String.eqb_refl.
Qed.

Lemma keep_real (o : option float) (x : float) :
  not_nan o = true -> PrimFloat.is_nan x = false ->
  match o with
  | Some y => Sqlite3.store_real y
  | None => Sqlite3.store_real x
  end
  = Some (Sqlite3.stored_real match o with Some y => y | None => x end).
Proof.
  unfold Sqlite3.store_real, not_nan. intros Ho Hx.
  destruct o as [y|].
  - apply negb_true_iff in Ho. now rewrite Ho.
  - now rewrite Hx.
Qed.

Lemma Record_of_rewritten_new_row (record : RecordInput.t)
    (db : Sqlite3.Database) (country region city : option string)
    (zip_code : option Z) (latitude longitude : option float) :
  storable record = true ->
  not_nan latitude = true -> not_nan longitude = true ->
  Record_of_row
    (rewritten country region city zip_code latitude longitude
       (new_row record db))
  = Some (revised record country region city zip_code latitude longitude).
Proof.
  unfold storable. intros Hs Hla Hlo.
  apply andb_prop in Hs as [Hs Hrlo]. apply andb_prop in Hs as [_ Hrla].
  apply negb_true_iff in Hrla, Hrlo.
  unfold Record_of_row, rewritten, new_row, revised.
  cbn [Sqlite3.country Sqlite3.region Sqlite3.city Sqlite3.zip
       Sqlite3.latitude Sqlite3.longitude Sqlite3.ip_address].
  rewrite (keep_real latitude _ Hla Hrla), (keep_real longitude _ Hlo Hrlo).
  destruct country, region, city, zip_code; reflexivity.
Qed.

(** X12.  On a quiet storage, creating a record whose address is new,
    then updating that address with at least one field, then looking the
    address up, the zip_codes fitting 64 bits and no coordinate being NaN:
    the update returns the created record with the supplied fields replaced
    and the others as created, the coordinates as the REAL columns hold them
    ([-0.0] as [0.0]), and the lookup returns exactly that one record. *)
Theorem create_update_lookup (record : RecordInput.t)
    (db : Sqlite3.Database) (country region city : option string)
    (zip_code : option Z) (latitude longitude : option float) :
  ip_rows (RecordInput.ip record) (Sqlite3.rows db) = [] ->
  any_update country region city zip_code latitude longitude = true ->
  storable record = true ->
  Sqlite3.bindable (of_int zip_code) = true ->
  not_nan latitude = true ->
  not_nan longitude = true ->
  let ip := RecordInput.ip record in
  let created := get_db_session (add_ip record) db [] in
  let put :=
    get_db_session
      (update_data ip country region city zip_code latitude longitude)
      (database created) [] in
  let expected :=
    revised record country region city zip_code latitude longitude in
  response created = Returned ("added", record)
  /\ response put = Returned ("updated", expected)
  /\ response (get_db_session (get_ip_info ip) (database put) [])
     = Returned ("result", [expected]).
Proof.
  intros Hno Hany Hs Hb Hla Hlo. cbv zeta.
  destruct (storable_new_row record db Hs) as [Hz _].
  rewrite serve_add_ip. cbv zeta. rewrite Hno, Hz.
  cbn [is_empty negb response database]. split; [reflexivity|].
  pose proof (ip_rows_inserted record db Hno) as Hins.
  assert (Hup : ip_rows (RecordInput.ip record)
                  (updated_rows (RecordInput.ip record) country region city
                     zip_code latitude longitude
                     (Sqlite3.rows (inserted record db)))
                = [rewritten country region city zip_code latitude longitude
                     (new_row record db)])
    by now rewrite ip_rows_updated, Hins.
  unfold get_db_session.
  pose proof (update_data_run (RecordInput.ip record) country region city
                zip_code latitude longitude) as R.
  cbv zeta in R. unfold update in R. rewrite R, Hany, Hb. clear R.
  cbn [negb faults hd tl called with_view committed conn
       Sqlite3.connect Sqlite3.view].
  rewrite Hins. cbn [is_empty]. rewrite Hup.
  unfold first_record. cbn [__transform_rows_to_records].
  rewrite (Record_of_rewritten_new_row _ _ _ _ _ _ _ _ Hs Hla Hlo).
  cbn [response database]. split; [reflexivity|].
  rewrite get_ip_info_run. cbv zeta.
  cbn [faults hd conn called committed with_view Sqlite3.close Sqlite3.file
       Sqlite3.connect Sqlite3.view updated Sqlite3.rows].
  rewrite Hup. cbn [is_empty __transform_rows_to_records].
  now rewrite (Record_of_rewritten_new_row _ _ _ _ _ _ _ _ Hs Hla Hlo).
Qed.

Lemma create_update_lookup_witness :
  let created := get_db_session (add_ip poland) empty_table [] in
  let put :=
    get_db_session
      (update_data "1.2.3.4" None None (Some "Krakow") (Some 0)
         (Some PrimFloat.neg_zero) None)
      (database created) [] in
  let expected :=
    Record_.mk "1.2.3.4" "poland" "silesia" "Krakow" 0
               0%float (-118.02)%float in
  response created = Returned ("added", poland)
  /\ response put = Returned ("updated", expected)
  /\ response (get_db_session (get_ip_info "1.2.3.4") (database put) [])
     = Returned ("result", [expected]).
Proof.
  exact (create_update_lookup poland empty_table None None (Some "Krakow")
           (Some 0) (Some PrimFloat.neg_zero) None
           eq_refl eq_refl eq_refl eq_refl eq_refl eq_refl).
Defined.

(** * [db_fetch_data.py]: storing one fetched answer *)

(** What the builtins [int] and [float] raise. *)
Module Builtin.
Inductive exception : Type := TypeError | ValueError | OverflowError.
End Builtin.

(** What leaves [__fetch_to_db]. *)
Inductive fetch_exception : Type :=
| Storage (e : exn)
| KeyError (key : string)
| Conversion (e : Builtin.exception).

(** [data[key]] of a dict: [None] here is the [KeyError]. *)
Fixpoint getitem (key : string) (data : list (string * value))
  : option value :=
  match data with
  | [] => None
  | (k, v) :: rest => if (k =? key)%string then Some v else getitem key rest
  end.

(** The statement text of [__fetch_to_db], indented as its function body
    is. *)
Definition query_insert : string :=
  nl ++ "    INSERT INTO geolocation (ip_address, country, region, city, zip, latitude, longitude)"
     ++ nl ++ "    VALUES (?, ?, ?, ?, ?, ?, ?)"
     ++ nl ++ "    ".

Definition sample_params : list value :=
  [PyStr "192.000.000.000"; PyStr "Poland"; PyStr "Silesia";
   PyStr "Katowice"; PyInt 40514; PyFloat 34.04%float;
   PyFloat (-118.02)%float].

Section Fetch.

(** The builtins [int] and [float], taken as they are. *)
Variable py_int : value -> Z + Builtin.exception.
Variable py_float : value -> float + Builtin.exception.

(** [__fetch_to_db(connection, cursor, data)]: the sample row, then the
    row of [data] with its arguments evaluated left to right before the
    statement runs, then the commit.  [None] is the normal return. *)
Definition __fetch_to_db (data : list (string * value))
  : State -> option fetch_exception * State :=
  fun st =>
    match execute query_insert sample_params st with
    | (Raised e, st1) => (Some (Storage e), st1)
    | (Returned _, st1) =>
        match getitem "ip" data with
        | None => (Some (KeyError "ip"), st1)
        | Some ip =>
            let country_name := lookup "country_name" data in
            let region_name := lookup "region_name" data in
            let city := lookup "city" data in
            match py_int (lookup "zip" data) with
            | inr e => (Some (Conversion e), st1)
            | inl zip =>
                match py_float (lookup "latitude" data) with
                | inr e => (Some (Conversion e), st1)
                | inl latitude =>
                    match py_float (lookup "longitude" data) with
                    | inr e => (Some (Conversion e), st1)
                    | inl longitude =>
                        match execute query_insert
                                [ip; country_name; region_name; city;
                                 PyInt zip; PyFloat latitude;
                                 PyFloat longitude] st1 with
                        | (Raised e, st2) => (Some (Storage e), st2)
                        | (Returned _, st2) =>
                            match commit st2 with
                            | (Raised e, st3) => (Some (Storage e), st3)
                            | (Returned _, st3) => (None, st3)
                            end
                        end
                    end
                end
            end
        end
    end.

End Fetch.

Lemma prepare_query_insert : Sqlite3.prepare query_insert = Some Sqlite3.Insert.
Proof. vm_compute. reflexivity. Qed.

(** A value a TEXT column takes from the bindings: a string, or [None]
    for NULL. *)
Definition text_or_none (v : value) : bool :=
  match v with
  | PyStr _ | PyNone => true
  | _ => false
  end.

Lemma text_bindable (v : value) :
  text_or_none v = true -> Sqlite3.bindable v = true.
Proof. destruct v; (discriminate || reflexivity). Qed.

Definition text_of (v : value) : option string :=
  match v with
  | PyStr s => Some s
  | _ => None
  end.

Definition next_id (db : Sqlite3.Database) : Z :=
  Z.max (Sqlite3.seq db) (Sqlite3.max_id (Sqlite3.rows db)) + 1.

(** The table with one more row, under the next AUTOINCREMENT id, the
    coordinates held as a REAL column holds a bound float. *)
Definition appended (ip : string) (country region city : option string)
    (zip : Z) (latitude longitude : float) (db : Sqlite3.Database)
  : Sqlite3.Database :=
  Sqlite3.mkDatabase
    (Sqlite3.rows db
       ++ [Sqlite3.mkRow (next_id db) ip country region city
             (Some zip) (Sqlite3.store_real latitude)
             (Sqlite3.store_real longitude)])
    (next_id db).

Lemma engine_query_insert (ip : string) (country region city : value)
    (zip : Z) (latitude longitude : float) (st : State) :
  text_or_none country = true ->
  text_or_none region = true ->
  text_or_none city = true ->
  engine query_insert
    [PyStr ip; country; region; city; PyInt zip; PyFloat latitude;
     PyFloat longitude] st
  = (Returned [],
     with_view (appended ip (text_of country) (text_of region) (text_of city)
                  zip latitude longitude (Sqlite3.view (conn st))) st).
Proof.
  intros A B C. unfold engine. rewrite prepare_query_insert.
  destruct country, region, city; try discriminate; reflexivity.
Qed.

Lemma max_id_app (rs : list Sqlite3.Row) (r : Sqlite3.Row) :
  Sqlite3.max_id (rs ++ [r]) = Z.max (Sqlite3.max_id rs) (Z.max (Sqlite3.id r) 0).
Proof.
  induction rs as [|x rs IH];
    [unfold Sqlite3.max_id; cbn [app fold_right]; lia|].
  change (Sqlite3.max_id ((x :: rs) ++ [r]))
    with (Z.max (Sqlite3.id x) (Sqlite3.max_id (rs ++ [r]))).
  change (Sqlite3.max_id (x :: rs))
    with (Z.max (Sqlite3.id x) (Sqlite3.max_id rs)).
  rewrite IH. lia.
Qed.

Lemma max_id_nonneg (rs : list Sqlite3.Row) : 0 <= Sqlite3.max_id rs.
Proof.
  induction rs as [|x rs IH]; [reflexivity|].
  change (Sqlite3.max_id (x :: rs))
    with (Z.max (Sqlite3.id x) (Sqlite3.max_id rs)). lia.
Qed.

Lemma next_id_appended (ip : string) (country region city : option string)
    (zip : Z) (latitude longitude : float) (db : Sqlite3.Database) :
  next_id (appended ip country region city zip latitude longitude db)
  = next_id db + 1.
Proof.
  unfold next_id at 1. unfold appended. cbn [Sqlite3.seq Sqlite3.rows].
  rewrite max_id_app. cbn [Sqlite3.id].
  pose proof (max_id_nonneg (Sqlite3.rows db)). unfold next_id. lia.
Qed.

Section FetchFacts.

Variable py_int : value -> Z + Builtin.exception.
Variable py_float : value -> float + Builtin.exception.

Local Abbreviation fetch := (__fetch_to_db py_int py_float).

(** The table once the sample row and the row of the answer are in. *)
Definition fetched_into (ip : string) (country region city : value)
    (zip : Z) (latitude longitude : float) (db : Sqlite3.Database)
  : Sqlite3.Database :=
  appended ip (text_of country) (text_of region) (text_of city)
    zip latitude longitude
    (appended "192.000.000.000" (Some "Poland") (Some "Silesia")
       (Some "Katowice") 40514 34.04%float (-118.02)%float db).

(** The run in which every argument converts and no storage call fails. *)
Lemma fetch_to_db_ok (data : list (string * value)) (st : State)
    (ip : string) (zip : Z) (latitude longitude : float) :
  faults st = [] ->
  getitem "ip" data = Some (PyStr ip) ->
  text_or_none (lookup "country_name" data) = true ->
  text_or_none (lookup "region_name" data) = true ->
  text_or_none (lookup "city" data) = true ->
  py_int (lookup "zip" data) = inl zip ->
  py_float (lookup "latitude" data) = inl latitude ->
  py_float (lookup "longitude" data) = inl longitude ->
  Sqlite3.int64 zip = true ->
  let db' := fetched_into ip (lookup "country_name" data)
               (lookup "region_name" data) (lookup "city" data)
               zip latitude longitude (Sqlite3.view (conn st)) in
  fst (fetch data st) = None
  /\ conn (snd (fetch data st)) = Sqlite3.mkConnection db' db'.
Proof.
  intros F I A B C Z LA LO Hz. cbv zeta. unfold __fetch_to_db.
  rewrite (execute_ok query_insert sample_params st eq_refl)
    by now rewrite F.
  change sample_params
    with [PyStr "192.000.000.000"; PyStr "Poland"; PyStr "Silesia";
          PyStr "Katowice"; PyInt 40514; PyFloat 34.04%float;
          PyFloat (-118.02)%float].
  rewrite engine_query_insert by reflexivity.
  rewrite I, Z, LA, LO.
  assert (Hb : forallb Sqlite3.bindable
                  [PyStr ip; lookup "country_name" data;
                   lookup "region_name" data; lookup "city" data;
                   PyInt zip; PyFloat latitude; PyFloat longitude] = true).
  { cbn [forallb Sqlite3.bindable].
    now rewrite Hz, !text_bindable by assumption. }
  rewrite (execute_ok _ _ _ Hb) by (cbn; now rewrite F).
  rewrite engine_query_insert by assumption.
  rewrite commit_ok by (cbn; now rewrite F).
  split; reflexivity.
Qed.

(** The run in which an argument of the second INSERT cannot be made. *)
Lemma fetch_to_db_argument_failure (data : list (string * value))
    (st : State) :
  hd None (faults st) = None ->
  let st1 :=
    with_view
      (appended "192.000.000.000" (Some "Poland") (Some "Silesia")
         (Some "Katowice") 40514 34.04%float (-118.02)%float
         (Sqlite3.view (conn st)))
      (called query_insert sample_params st) in
  fetch data st
  = match getitem "ip" data with
    | None => (Some (KeyError "ip"), st1)
    | Some ip =>
        match py_int (lookup "zip" data) with
        | inr e => (Some (Conversion e), st1)
        | inl zip =>
            match py_float (lookup "latitude" data) with
            | inr e => (Some (Conversion e), st1)
            | inl latitude =>
                match py_float (lookup "longitude" data) with
                | inr e => (Some (Conversion e), st1)
                | inl longitude => fetch data st
                end
            end
        end
    end.
Proof.
  intros F. cbv zeta.
  destruct (getitem "ip" data) as [ip|] eqn:I;
    [destruct (py_int (lookup "zip" data)) as [zip|e] eqn:Z;
     [destruct (py_float (lookup "latitude" data)) as [la|e] eqn:LA;
      [destruct (py_float (lookup "longitude" data)) as [lo|e] eqn:LO;
       [reflexivity|]|]|]|].
  all: unfold __fetch_to_db;
    rewrite (execute_ok query_insert sample_params st eq_refl F).
  all: change sample_params
         with [PyStr "192.000.000.000"; PyStr "Poland"; PyStr "Silesia";
               PyStr "Katowice"; PyInt 40514; PyFloat 34.04%float;
               PyFloat (-118.02)%float].
  all: rewrite engine_query_insert by reflexivity.
  all: rewrite ?I, ?Z, ?LA, ?LO; reflexivity.
Qed.

End FetchFacts.

Section FetchProperties.

Variable py_int : value -> Z + Builtin.exception.
Variable py_float : value -> float + Builtin.exception.

Local Abbreviation fetch := (__fetch_to_db py_int py_float).

(** X13.  When every argument converts, the converted zip fits 64 bits and
    no storage call fails, [__fetch_to_db] returns normally having committed
    two more rows after the existing ones: first the fixed sample row of
    192.000.000.000, then the row of the answer, its text columns NULL where
    the answer has no value and its coordinates as a REAL column holds them
    (NaN as NULL, [-0.0] as [0.0]), under consecutive ids larger than every
    id in the table. *)
Theorem fetch_to_db_appends_sample_then_answer
    (data : list (string * value)) (st : State)
    (ip : string) (zip : Z) (latitude longitude : float) :
  faults st = [] ->
  getitem "ip" data = Some (PyStr ip) ->
  text_or_none (lookup "country_name" data) = true ->
  text_or_none (lookup "region_name" data) = true ->
  text_or_none (lookup "city" data) = true ->
  py_int (lookup "zip" data) = inl zip ->
  py_float (lookup "latitude" data) = inl latitude ->
  py_float (lookup "longitude" data) = inl longitude ->
  Sqlite3.int64 zip = true ->
  let before := Sqlite3.rows (Sqlite3.view (conn st)) in
  let st' := snd (fetch data st) in
  fst (fetch data st) = None
  /\ Sqlite3.view (conn st') = Sqlite3.file (conn st')
  /\ exists id1 : Z,
       Sqlite3.rows (Sqlite3.file (conn st'))
       = (before
            ++ [Sqlite3.mkRow id1 "192.000.000.000" (Some "Poland")
                  (Some "Silesia") (Some "Katowice") (Some 40514)
                  (Some 34.04%float) (Some (-118.02)%float);
                Sqlite3.mkRow (id1 + 1) ip
                  (text_of (lookup "country_name" data))
                  (text_of (lookup "region_name" data))
                  (text_of (lookup "city" data))
                  (Some zip) (Sqlite3.store_real latitude)
                  (Sqlite3.store_real longitude)])%list
       /\ Forall (fun r => Sqlite3.id r < id1) before.
Proof.
  intros F I A B C Z LA LO Hz. cbv zeta.
  destruct (fetch_to_db_ok py_int py_float data st ip zip latitude longitude
              F I A B C Z LA LO Hz) as [R E].
  cbv zeta in E. rewrite R, E. cbn [Sqlite3.view Sqlite3.file].
  split; [reflexivity|]. split; [reflexivity|].
  exists (next_id (Sqlite3.view (conn st))). split.
  - unfold fetched_into. unfold appended at 1. cbn [Sqlite3.rows].
    rewrite next_id_appended. unfold appended. cbn [Sqlite3.rows].
    now rewrite <- app_assoc.
  - eapply Forall_impl; [|apply max_id_bound].
    intros r Hr. cbv beta in *. unfold next_id. lia.
Qed.

(** X14.  When the sample row's INSERT has run and an argument of the
    second INSERT cannot be made ([data] has no "ip", or [int] or [float]
    raises), what leaves [__fetch_to_db] is that [KeyError] or conversion
    error, not a storage error; only the first INSERT was executed, and
    nothing is committed: the file is as it was, the sample row being in
    the connection's view only. *)
Theorem fetch_to_db_argument_error_commits_nothing
    (data : list (string * value)) (st : State) :
  hd None (faults st) = None ->
  getitem "ip" data = None
  \/ (exists e, py_int (lookup "zip" data) = inr e)
  \/ (exists e, py_float (lookup "latitude" data) = inr e)
  \/ (exists e, py_float (lookup "longitude" data) = inr e) ->
  let st' := snd (fetch data st) in
  (exists x, fst (fetch data st) = Some x /\ forall e, x <> Storage e)
  /\ Sqlite3.file (conn st') = Sqlite3.file (conn st)
  /\ executed st' = (executed st ++ [(query_insert, sample_params)])%list
  /\ exists id1 : Z,
       Sqlite3.rows (Sqlite3.view (conn st'))
       = (Sqlite3.rows (Sqlite3.view (conn st))
            ++ [Sqlite3.mkRow id1 "192.000.000.000" (Some "Poland")
                  (Some "Silesia") (Some "Katowice") (Some 40514)
                  (Some 34.04%float) (Some (-118.02)%float)])%list.
Proof.
  intros F H. cbv zeta.
  rewrite (fetch_to_db_argument_failure py_int py_float data st F).
  cbv zeta.
  destruct (getitem "ip" data) as [ip|].
  - destruct (py_int (lookup "zip" data)) as [zip|e].
    + destruct (py_float (lookup "latitude" data)) as [la|e].
      * destruct (py_float (lookup "longitude" data)) as [lo|e].
        -- exfalso.
           destruct H as [H|[[e H]|[[e H]|[e H]]]]; discriminate H.
        -- repeat split; try (eexists; split; [reflexivity|discriminate]).
           eexists; reflexivity.
      * repeat split; try (eexists; split; [reflexivity|discriminate]).
        eexists; reflexivity.
    + repeat split; try (eexists; split; [reflexivity|discriminate]).
      eexists; reflexivity.
  - repeat split; try (eexists; split; [reflexivity|discriminate]).
    eexists; reflexivity.
Qed.

(** X15.  A stored answer that lacks [country_name], [region_name] or
    [city] makes the service's point lookup of its address fail: after
    [__fetch_to_db] has stored such an answer (its arguments converting, the
    zip fitting 64 bits) on a fresh connection, [get_ip_info] on that address
    raises the validation error of the mapper instead of returning
    records. *)
Theorem fetched_null_breaks_lookup
    (data : list (string * value)) (db : Sqlite3.Database)
    (ip : string) (zip : Z) (latitude longitude : float) :
  getitem "ip" data = Some (PyStr ip) ->
  text_or_none (lookup "country_name" data) = true ->
  text_or_none (lookup "region_name" data) = true ->
  text_or_none (lookup "city" data) = true ->
  py_int (lookup "zip" data) = inl zip ->
  py_float (lookup "latitude" data) = inl latitude ->
  py_float (lookup "longitude" data) = inl longitude ->
  Sqlite3.int64 zip = true ->
  lookup "country_name" data = PyNone
  \/ lookup "region_name" data = PyNone
  \/ lookup "city" data = PyNone ->
  let stored :=
    Sqlite3.close
      (conn (snd (fetch data (mkState (Sqlite3.connect db) [] [] [])))) in
  response (get_db_session (get_ip_info ip) stored [])
  = Raised ValidationError.
Proof.
  intros I A B C Z LA LO Hz N. cbv zeta.
  destruct (fetch_to_db_ok py_int py_float data
              (mkState (Sqlite3.connect db) [] [] []) ip zip latitude
              longitude eq_refl I A B C Z LA LO Hz) as [_ E].
  cbv zeta in E. rewrite E. cbn [Sqlite3.close Sqlite3.file conn
                                 Sqlite3.connect Sqlite3.view].
  unfold get_db_session. rewrite get_ip_info_run. cbv zeta.
  cbn [faults hd conn Sqlite3.connect Sqlite3.view].
  set (row := Sqlite3.mkRow
                (next_id
                   (appended "192.000.000.000" (Some "Poland")
                      (Some "Silesia") (Some "Katowice") 40514 34.04%float
                      (-118.02)%float db))
                ip (text_of (lookup "country_name" data))
                (text_of (lookup "region_name" data))
                (text_of (lookup "city" data))
                (Some zip) (Sqlite3.store_real latitude)
                (Sqlite3.store_real longitude)).
  assert (Hin : In row (ip_rows ip
                          (Sqlite3.rows
                             (fetched_into ip (lookup "country_name" data)
                                (lookup "region_name" data)
                                (lookup "city" data) zip latitude longitude
                                db)))).
  { apply ip_rows_spec. split; [|reflexivity].
    unfold fetched_into. unfold appended at 1. cbn [Sqlite3.rows].
    apply in_or_app. right. now left. }
  assert (Hw : well_formed row = false).
  { unfold well_formed, row.
    cbn [Sqlite3.country Sqlite3.region Sqlite3.city Sqlite3.zip
         Sqlite3.latitude Sqlite3.longitude].
    destruct N as [-> | [-> | ->]]; cbn [text_of];
      repeat match goal with
             | |- context [text_of ?v] => destruct (text_of v)
             end;
      destruct (Sqlite3.store_real latitude),
        (Sqlite3.store_real longitude); reflexivity. }
  rewrite (transform_rows_none_intro _ row Hin Hw).
  destruct (ip_rows ip _); [contradiction|reflexivity].
Qed.

(** X16.  A [__fetch_to_db] whose arguments convert, the zip fitting 64
    bits, and whose storage calls succeed adds the sample address once more:
    on a table that already holds a row of 192.000.000.000 (the row
    [db_setup.py] inserts) the stored table afterwards has two rows of that
    address, so it is no longer at one row per address. *)
Theorem fetch_to_db_duplicates_sample_address
    (data : list (string * value)) (st : State)
    (ip : string) (zip : Z) (latitude longitude : float) :
  faults st = [] ->
  getitem "ip" data = Some (PyStr ip) ->
  text_or_none (lookup "country_name" data) = true ->
  text_or_none (lookup "region_name" data) = true ->
  text_or_none (lookup "city" data) = true ->
  py_int (lookup "zip" data) = inl zip ->
  py_float (lookup "latitude" data) = inl latitude ->
  py_float (lookup "longitude" data) = inl longitude ->
  Sqlite3.int64 zip = true ->
  In "192.000.000.000"
     (map Sqlite3.ip_address (Sqlite3.rows (Sqlite3.view (conn st)))) ->
  ~ one_row_per_address (Sqlite3.file (conn (snd (fetch data st)))).
Proof.
  intros F I A B C Z LA LO Hz Hin.
  destruct (fetch_to_db_ok py_int py_float data st ip zip latitude longitude
              F I A B C Z LA LO Hz) as [_ E].
  cbv zeta in E. rewrite E. cbn [Sqlite3.file].
  unfold one_row_per_address, fetched_into.
  unfold appended at 1. cbn [Sqlite3.rows]. unfold appended.
  cbn [Sqlite3.rows]. rewrite <- app_assoc, map_app.
  cbn [app map Sqlite3.ip_address]. intros ND.
  apply NoDup_remove_2 in ND. apply ND. apply in_or_app. now left.
Qed.

End FetchProperties.

(** An instance of the builtins on the values of the examples. *)
Definition sample_int (v : value) : Z + Builtin.exception :=
  match v with
  | PyInt z => inl z
  | PyStr s =>
      match NilZero.int_of_string s with
      | Some d => inl (Z.of_int d)
      | None => inr Builtin.ValueError
      end
  | PyFloat _ => inr Builtin.ValueError
  | PyNone => inr Builtin.TypeError
  end.

Definition sample_float (v : value) : float + Builtin.exception :=
  match v with
  | PyFloat f => inl f
  | PyInt _ | PyStr _ => inr Builtin.ValueError
  | PyNone => inr Builtin.TypeError
  end.

Definition answer : list (string * value) :=
  [("ip", PyStr "134.201.250.155"); ("country_name", PyStr "United States");
   ("region_name", PyNone); ("city", PyStr "Los Angeles");
   ("zip", PyStr "90012"); ("latitude", PyFloat 34.0655517578125%float);
   ("longitude", PyFloat (-118.25)%float)].

Definition after_setup : State :=
  mkState (Sqlite3.connect (Sqlite3.mkDatabase [katowice] 1)) [] [] [].

Definition after_fetch : State :=
  Eval vm_compute in
    snd (__fetch_to_db sample_int sample_float answer after_setup).

Lemma fetch_to_db_appends_sample_then_answer_witness :
  fst (__fetch_to_db sample_int sample_float answer after_setup) = None
  /\ List.length (Sqlite3.rows (Sqlite3.file (conn after_fetch))) = 3%nat.
Proof.
  destruct (fetch_to_db_appends_sample_then_answer
              sample_int sample_float answer after_setup
              "134.201.250.155" 90012 34.0655517578125%float
              (-118.25)%float eq_refl eq_refl eq_refl eq_refl eq_refl
              eq_refl eq_refl eq_refl eq_refl) as (R & _).
  split; [exact R|reflexivity].
Defined.

Lemma fetch_to_db_argument_error_commits_nothing_witness :
  let st' :=
    snd (__fetch_to_db sample_int sample_float
           [("ip", PyStr "134.201.250.155"); ("zip", PyNone)] after_setup) in
  Sqlite3.file (conn st') = Sqlite3.file (conn after_setup).
Proof.
  exact (proj1 (proj2 (fetch_to_db_argument_error_commits_nothing
                         sample_int sample_float
                         [("ip", PyStr "134.201.250.155"); ("zip", PyNone)]
                         after_setup eq_refl
                         (or_intror (or_introl
                            (ex_intro _ Builtin.TypeError eq_refl)))))).
Defined.

Lemma fetched_null_breaks_lookup_witness :
  response
    (get_db_session (get_ip_info "134.201.250.155")
       (Sqlite3.close
          (conn (snd (__fetch_to_db sample_int sample_float answer
                        (mkState
                           (Sqlite3.connect (Sqlite3.mkDatabase [katowice] 1))
                           [] [] [])))))
       [])
  = Raised ValidationError.
Proof.
  exact (fetched_null_breaks_lookup sample_int sample_float answer
           (Sqlite3.mkDatabase [katowice] 1) "134.201.250.155" 90012
           34.0655517578125%float (-118.25)%float
           eq_refl eq_refl eq_refl eq_refl eq_refl eq_refl eq_refl eq_refl
           (or_intror (or_introl eq_refl))).
Defined.

Lemma fetch_to_db_duplicates_sample_address_witness :
  ~ one_row_per_address
      (Sqlite3.file
         (conn (snd (__fetch_to_db sample_int sample_float answer
                       after_setup)))).
Proof.
  exact (fetch_to_db_duplicates_sample_address
           sample_int sample_float answer after_setup
           "134.201.250.155" 90012 34.0655517578125%float (-118.25)%float
           eq_refl eq_refl eq_refl eq_refl eq_refl eq_refl eq_refl eq_refl
           eq_refl (or_introl eq_refl)).
Defined.
